(** * Invoice reconciliation: vendor matching, price comparison, policy
      checks, decision synthesis, the advisory layer, the decision payload,
      the learning store and the pipeline that runs them.

    A shallow embedding of [matcher.py], [comparator.py], [decision.py],
    [vendor_db.py], [analyzer.py], [report.py] ([build_json_payload]),
    [main.py] ([process_invoice]) and of [_find_col] of [extractor.py].
    Python floats are IEEE binary64 numbers ([PrimFloat.float]); functions that
    can raise return a [result]; the learning store is the content of the JSON
    file, passed explicitly from call to call. *)

From Stdlib Require Import Bool List String Ascii ZArith Lia Uint63 Floats.
From Stdlib Require Import DecimalString.
Import ListNotations.

Set Warnings "-inexact-float".

Local Open Scope string_scope.
Local Open Scope list_scope.

(** ** Python values *)

Module Py.

(** Exceptions the embedded functions can raise. *)
Inductive exn : Type :=
| ZeroDivisionError
| TypeError
| ValueError.

Inductive result (A : Type) : Type :=
| Ok (a : A)
| Raise (e : exn).

Arguments Ok {A} a.
Arguments Raise {A} e.

Definition bind {A B : Type} (m : result A) (k : A -> result B) : result B :=
  match m with
  | Ok a => k a
  | Raise e => Raise e
  end.

Fixpoint mapM {A B : Type} (f : A -> result B) (l : list A) : result (list B) :=
  match l with
  | [] => Ok []
  | x :: xs =>
      bind (f x) (fun y => bind (mapM f xs) (fun ys => Ok (y :: ys)))
  end.

(** Truth value of an optional number: [None] and zero are false,
    everything else (NaN included) is true. *)
Definition truthy (x : option float) : bool :=
  match x with
  | None => false
  | Some v => negb (v =? 0)%float
  end.

(** [x or d] for an optional number. *)
Definition or_else (x : option float) (d : float) : float :=
  match x with
  | Some v => if (v =? 0)%float then d else v
  | None => d
  end.

(** Two-argument [max] and [min]: the first argument is kept unless the
    second is strictly greater (resp. smaller). *)
Definition max (a b : float) : float := if (a <? b)%float then b else a.
Definition min (a b : float) : float := if (b <? a)%float then b else a.

(** True division: a zero divisor raises. *)
Definition div (a b : float) : result float :=
  if (b =? 0)%float then Raise ZeroDivisionError else Ok (a / b)%float.

(** [float(z)] for an integer of moderate size. *)
Definition of_Z (z : Z) : float :=
  match z with
  | Z0 => 0%float
  | Zpos _ => PrimFloat.of_uint63 (Uint63.of_Z z)
  | Zneg p => (- PrimFloat.of_uint63 (Uint63.of_Z (Zpos p)))%float
  end.

(** [str(z)] of an integer. *)
Definition str_Z (z : Z) : string :=
  DecimalString.NilZero.string_of_int (Z.to_int z).

(** [sep.join(l)] *)
Fixpoint join (sep : string) (l : list string) : string :=
  match l with
  | [] => ""
  | [x] => x
  | x :: xs => x ++ sep ++ join sep xs
  end.

(** [s.split(c)[0]]: the part of [s] before the first [c]. *)
Fixpoint before (c : ascii) (s : string) : string :=
  match s with
  | EmptyString => EmptyString
  | String a rest => if Ascii.eqb a c then EmptyString else String a (before c rest)
  end.

(** [str(x)] of an optional string inside an f-string. *)
Definition str_opt (x : option string) : string :=
  match x with
  | Some s => s
  | None => "None"
  end.

(** The functions of the interpreter and of its [math] module that the
    program calls and whose results are not fixed here. *)
Class Runtime : Type := {
  (** [math.log2]; raises outside its domain *)
  log2 : float -> result float;
  (** [round(x, ndigits)] *)
  round : float -> Z -> float;
  (** [sum] of a sequence of numbers *)
  sum : list float -> float;
  (** [format(x, ".<d>f")] *)
  fixed : nat -> float -> string;
  (** [str(x)] of a number *)
  repr : float -> string;
  (** [s.strip()] *)
  strip : string -> string
}.

End Py.

Declare Scope py_scope.
Delimit Scope py_scope with py.
Notation "x <- m ;; k" := (Py.bind m (fun x => k))
  (at level 61, m at next level, right associativity) : py_scope.
Local Open Scope py_scope.

(** ** vendor_data.py: policy constants *)

Definition PRICE_RANGE_BUFFER : float := 0.15%float.
Definition MAX_PRICE_RATIO_HIGH : float := 1.5%float.
Definition MAX_PRICE_RATIO_LOW : float := 0.75%float.
Definition VALID_TAX_RATES : list float :=
  [0.0%float; 0.075%float; 0.0825%float; 0.095%float].
Definition TAX_TOLERANCE : float := 0.005%float.


(** Membership test [x in xs] on strings. *)
Definition str_in (x : string) (xs : list string) : bool :=
  existsb (String.eqb x) xs.

(** Equality of optional strings ([None == None] holds). *)
Definition opt_str_eqb (x y : option string) : bool :=
  match x, y with
  | Some a, Some b => String.eqb a b
  | None, None => true
  | _, _ => false
  end.

(** ** extractor.py: the shape of an extracted invoice *)

Record LineItem : Type := {
  description : string;
  quantity : option float;
  unit_price : option float;
  line_total : option float
}.

Record InvoiceData : Type := {
  vendor_name : option string;
  invoice_number : option string;
  invoice_date : option string;
  line_items : list LineItem;
  subtotal : option float;
  tax : option float;
  shipping : option float;
  total : option float;
  warnings : list string
}.

(** ** Rate statistics shared by the static history and the learning store *)

Record RateData : Type := {
  rd_n : Z;
  rd_min : float;
  rd_max : float;
  rd_avg : float;
  rd_avg_qty : float;
  rd_prices : option (list float);
  rd_source : option string
}.

(** [min(l)] and [max(l)] of a sequence: [None] stands for the
    [ValueError] of an empty sequence. *)
Definition min_list (l : list float) : option float :=
  match l with
  | [] => None
  | x :: xs => Some (fold_left Py.min xs x)
  end.

Definition max_list (l : list float) : option float :=
  match l with
  | [] => None
  | x :: xs => Some (fold_left Py.max xs x)
  end.

Definition len {A : Type} (l : list A) : Z := Z.of_nat (List.length l).

(** Keeps the values that are present. *)
Fixpoint present {A : Type} (l : list (option A)) : list A :=
  match l with
  | [] => []
  | Some a :: xs => a :: present xs
  | None :: xs => present xs
  end.

(** ** vendor_db.py: the learning store *)

Module VendorDb.

Record Metadata : Type := {
  created : string;
  version : string;
  last_updated : option string
}.

Record InvoiceEntry : Type := {
  e_invoice_number : option string;
  e_vendor : string;
  e_date : option string;
  e_total : option float;
  e_tax : option float;
  e_shipping : option float;
  e_recorded_at : string
}.

Record PricePoint : Type := {
  p_unit_price : option float;
  p_quantity : option float;
  p_line_total : option float;
  p_date : option string;
  p_invoice_id : option string
}.

(** The document kept in [invoice_history.json].  [price_history] is a
    dict with string keys, in insertion order as the file lists it. *)
Record Db : Type := {
  metadata : Metadata;
  invoices : list InvoiceEntry;
  price_history : list (string * list PricePoint)
}.

(** The store is the file: [None] while it does not exist. *)
Definition Store : Type := option Db.

(** The instants [datetime.now] returns during one call, already in ISO
    format: in [_load_db] (read only when the file is missing), for
    [recorded_at], and in [_save_db]. *)
Record Clock : Type := {
  now_load : string;
  now_record : string;
  now_save : string
}.

Definition dict_get {V : Type} (k : string) (d : list (string * V)) : option V :=
  option_map snd (find (fun kv => String.eqb (fst kv) k) d).

(** [d[k] = v]: replaces the value of an existing key in place, else adds
    the key at the end. *)
Fixpoint dict_set {V : Type} (k : string) (v : V) (d : list (string * V))
    : list (string * V) :=
  match d with
  | [] => [(k, v)]
  | (k', v') :: rest =>
      if String.eqb k' k then (k', v) :: rest else (k', v') :: dict_set k v rest
  end.

Definition _load_db (clk : Clock) (file : Store) : Db :=
  match file with
  | Some db => db
  | None =>
      {| metadata := {| created := now_load clk; version := "1.0";
                        last_updated := None |};
         invoices := [];
         price_history := [] |}
  end.

Definition _save_db (clk : Clock) (db : Db) : Store :=
  Some {| metadata := {| created := created (metadata db);
                         version := version (metadata db);
                         last_updated := Some (now_save clk) |};
          invoices := invoices db;
          price_history := price_history db |}.

Section WithRuntime.

Context {rt : Py.Runtime}.

(** One turn of the loop over [line_items] in [record_invoice]. *)
Definition record_item (invoice_data : InvoiceData) (vendor_name : string)
    (hist : list (string * list PricePoint)) (item : LineItem)
    : list (string * list PricePoint) :=
  let desc := Py.strip (description item) in
  if String.eqb desc "" then hist
  else
    let key := (vendor_name ++ "|" ++ desc)%string in
    let old := match dict_get key hist with Some l => l | None => [] end in
    dict_set key
      (old ++ [{| p_unit_price := unit_price item;
                  p_quantity := quantity item;
                  p_line_total := line_total item;
                  p_date := invoice_date invoice_data;
                  p_invoice_id := invoice_number invoice_data |}])
      hist.

(** [record_invoice]: the store after the call.  [invoice_data] always
    carries the key [invoice_number] (possibly [None]), so the default
    of the [get] is never used. *)
Definition record_invoice (clk : Clock) (invoice_data : InvoiceData)
    (decision_status : string) (vendor_name : string) (file : Store) : Store :=
  if negb (String.eqb decision_status "APPROVED") then file
  else
    let db := _load_db clk file in
    let invoice_id := invoice_number invoice_data in
    if existsb (opt_str_eqb invoice_id) (map e_invoice_number (invoices db))
    then file
    else
      let entry :=
        {| e_invoice_number := invoice_id;
           e_vendor := vendor_name;
           e_date := invoice_date invoice_data;
           e_total := total invoice_data;
           e_tax := tax invoice_data;
           e_shipping := shipping invoice_data;
           e_recorded_at := now_record clk |} in
      _save_db clk
        {| metadata := metadata db;
           invoices := invoices db ++ [entry];
           price_history :=
             fold_left (record_item invoice_data vendor_name)
                       (line_items invoice_data) (price_history db) |}.

Definition get_learned_rate (clk : Clock) (vendor_name item_name : string)
    (file : Store) : option RateData :=
  let db := _load_db clk file in
  let key := (vendor_name ++ "|" ++ item_name)%string in
  let history := match dict_get key (price_history db) with
                 | Some l => l
                 | None => []
                 end in
  let prices := present (map p_unit_price history) in
  let qtys := present (map p_quantity history) in
  match min_list prices, max_list prices with
  | Some lo, Some hi =>
      Some {| rd_min := lo;
              rd_max := hi;
              (* the divisors are lengths of non-empty lists *)
              rd_avg := (Py.sum prices / Py.of_Z (len prices))%float;
              rd_n := len prices;
              rd_avg_qty :=
                match qtys with
                | [] => 1%float
                | _ => (Py.sum qtys / Py.of_Z (len qtys))%float
                end;
              rd_prices := None;
              rd_source := Some "learned_db" |}
  | _, _ => None
  end.

End WithRuntime.

End VendorDb.

(** ** comparator.py *)

Inductive LineStatus : Type :=
| IN_RANGE
| OUTSIDE_RANGE
| OUT_OF_RANGE
| NO_CONTRACT_RATE
| MISSING_PRICE.

Definition LineStatus_eqb (a b : LineStatus) : bool :=
  match a, b with
  | IN_RANGE, IN_RANGE
  | OUTSIDE_RANGE, OUTSIDE_RANGE
  | OUT_OF_RANGE, OUT_OF_RANGE
  | NO_CONTRACT_RATE, NO_CONTRACT_RATE
  | MISSING_PRICE, MISSING_PRICE => true
  | _, _ => false
  end.

(** One entry of the list [compare_line_items] returns.  A key the source
    leaves out of the dict ([rate_source], [qty_adjustment]) is [None]. *)
Record Comparison : Type := {
  c_description : string;
  canonical_item : string;
  c_quantity : option float;
  invoice_unit_price : option float;
  invoice_line_total : option float;
  contracted_range : option string;
  contracted_avg : option float;
  variance_from_avg_pct : option float;
  status : LineStatus;
  data_points : Z;
  rate_source : option string;
  qty_adjustment : option float;
  note : string
}.

(** One raw price point of [PRICE_HISTORY]. *)
Record PriceRecord : Type := {
  price : float;
  qty : option float;
  invoice : string
}.

(** The values [compare_line_items] derives from a rate statistic and the
    invoice quantity before it classifies the price. *)
Record Window : Type := {
  sample_buffer : float;
  qty_factor : float;
  adjusted_min : float;
  adjusted_max : float;
  adjusted_avg : float
}.

Inductive CheckStatus : Type :=
| OBSERVATION
| OK.

(** The dict [check_tax] and [check_shipping] return. *)
Record Check : Type := {
  chk_status : CheckStatus;
  effective_rate : option float;
  chk_note : string
}.

Section Comparator.

Context {rt : Py.Runtime}.

(** [matcher.normalize_item_name] and the table [vendor_data.PRICE_HISTORY],
    keyed by (vendor, canonical item). *)
Variable normalize_item_name : string -> string.
Variable PRICE_HISTORY : list ((string * string) * list PriceRecord).

Definition price_history_get (vendor item : string) : option (list PriceRecord) :=
  option_map snd
    (find (fun kv => String.eqb (fst (fst kv)) vendor
                     && String.eqb (snd (fst kv)) item) PRICE_HISTORY).

Definition _summarize_history (records : list PriceRecord) : Py.result RateData :=
  let prices := map price records in
  let qtys := present (map qty (filter (fun r => Py.truthy (qty r)) records)) in
  match min_list prices, max_list prices with
  | Some lo, Some hi =>
      Py.Ok {| rd_n := len prices;
               rd_min := lo;
               rd_max := hi;
               (* the divisors are lengths of non-empty lists *)
               rd_avg := (Py.sum prices / Py.of_Z (len prices))%float;
               rd_avg_qty :=
                 match qtys with
                 | [] => 1%float
                 | _ => (Py.sum qtys / Py.of_Z (len qtys))%float
                 end;
               rd_prices := Some prices;
               rd_source := None |}
  | _, _ => Py.Raise Py.ValueError
  end.

Definition _quantity_adjustment_factor (invoice_qty historical_avg_qty : float)
    : Py.result float :=
  if (invoice_qty =? 0)%float || (historical_avg_qty =? 0)%float
     || (historical_avg_qty <=? 0)%float
  then Py.Ok 1.0%float
  else
    (* the divisor is not zero here *)
    let qty_ratio := (invoice_qty / historical_avg_qty)%float in
    if (0.5 <=? qty_ratio)%float && (qty_ratio <=? 2.0)%float
    then Py.Ok 1.0%float
    else
      l <- Py.log2 (Py.max qty_ratio 0.1%float) ;;
      adjustment <- Py.div 1.0%float (1.0 + 0.25 * l)%float ;;
      Py.Ok (Py.max 0.4%float (Py.min 2.0%float adjustment)).

(** Lines 121-132 of the loop body: buffer, quantity factor and the
    adjusted minimum, maximum and average. *)
Definition price_window (rate_data : RateData) (invoice_qty : float)
    : Py.result Window :=
  let n := rd_n rate_data in
  let sample_buffer :=
    (PRICE_RANGE_BUFFER + Py.max 0 (Py.of_Z (5 - n) * 0.10))%float in
  let hist_avg_qty := rd_avg_qty rate_data in
  qty_factor <- _quantity_adjustment_factor invoice_qty hist_avg_qty ;;
  Py.Ok {| sample_buffer := sample_buffer;
           qty_factor := qty_factor;
           adjusted_min :=
             (rd_min rate_data * (1 - sample_buffer) * qty_factor)%float;
           adjusted_max :=
             (rd_max rate_data * (1 + sample_buffer)
              * Py.max qty_factor 1.0)%float;
           adjusted_avg := (rd_avg rate_data * qty_factor)%float |}.

(** [adjusted_min <= invoice_price <= adjusted_max] *)
Definition within_window (w : Window) (invoice_price : float) : bool :=
  (adjusted_min w <=? invoice_price)%float
  && (invoice_price <=? adjusted_max w)%float.

(** [invoice_price / adjusted_avg if adjusted_avg > 0 else 999] *)
Definition price_ratio (w : Window) (invoice_price : float) : float :=
  if (0 <? adjusted_avg w)%float
  then (invoice_price / adjusted_avg w)%float
  else 999%float.

(** [ratio > MAX_PRICE_RATIO_HIGH or ratio < MAX_PRICE_RATIO_LOW] *)
Definition ratio_gate (w : Window) (invoice_price : float) : bool :=
  (MAX_PRICE_RATIO_HIGH <? price_ratio w invoice_price)%float
  || (price_ratio w invoice_price <? MAX_PRICE_RATIO_LOW)%float.

Definition money (x : float) : string := ("$" ++ Py.fixed 2 x)%string.

(** The rate lookup of the loop body: static history first, then the
    learning store. *)
Definition resolve_rate (clk : VendorDb.Clock) (file : VendorDb.Store)
    (vendor_name canonical_item : string)
    : Py.result (option RateData * string) :=
  match price_history_get vendor_name canonical_item with
  | Some (r :: rs) =>
      rate_data <- _summarize_history (r :: rs) ;;
      Py.Ok (Some rate_data, "historical")
  | _ =>
      match VendorDb.get_learned_rate clk vendor_name canonical_item file with
      | Some learned => Py.Ok (Some learned, "learned_db")
      | None => Py.Ok (None, "historical")
      end
  end.

(** Lines 120-189: a rate is resolved and the invoice price is present. *)
Definition evaluate_price (item : LineItem) (canonical_item : string)
    (rate_data : RateData) (rate_source : string)
    (invoice_price invoice_qty : float) : Py.result Comparison :=
  let n := rd_n rate_data in
  w <- price_window rate_data invoice_qty ;;
  let variance :=
    if (0 <? adjusted_avg w)%float
    then ((invoice_price - adjusted_avg w) / adjusted_avg w * 100)%float
    else 0%float in
  let range_display :=
    if (n =? 1)%Z
    then (money (rd_min rate_data) ++ " (1 data point)")%string
    else (money (rd_min rate_data) ++ " – " ++ money (rd_max rate_data))%string in
  let result (st : LineStatus) (nt : string) : Comparison :=
    {| c_description := description item;
       canonical_item := canonical_item;
       c_quantity := quantity item;
       invoice_unit_price := Some invoice_price;
       invoice_line_total := line_total item;
       contracted_range := Some range_display;
       contracted_avg := Some (rd_avg rate_data);
       variance_from_avg_pct := Some (Py.round variance 1);
       status := st;
       data_points := n;
       rate_source := Some rate_source;
       qty_adjustment :=
         if (qty_factor w =? 1.0)%float then None
         else Some (Py.round (qty_factor w) 2);
       note := nt |} in
  if within_window w invoice_price
  then
    let note0 :=
      (money invoice_price ++ " is within acceptable range ("
       ++ range_display ++ ", " ++ Py.str_Z n ++ " data point"
       ++ (if (1 <? n)%Z then "s" else "") ++ ", "
       ++ Py.fixed 0 (sample_buffer w * 100)%float ++ "% buffer")%string in
    let note1 :=
      if (qty_factor w =? 1.0)%float then note0
      else (note0 ++ ", qty-adjusted by " ++ Py.fixed 2 (qty_factor w)
            ++ "x")%string in
    Py.Ok (result IN_RANGE (note1 ++ ").")%string)
  else
    let below := (invoice_price <? adjusted_min w)%float in
    let direction := if below then "below" else "above" in
    let ratio := price_ratio w invoice_price in
    if ratio_gate w invoice_price
    then
      if (MAX_PRICE_RATIO_HIGH <? ratio)%float
      then
        Py.Ok (result OUT_OF_RANGE
          ("OVERPRICED: " ++ money invoice_price ++ " is "
           ++ Py.fixed 1 ratio ++ "x the historical avg ("
           ++ money (rd_avg rate_data) ++ "). " ++ range_display
           ++ ". Exceeds " ++ Py.repr MAX_PRICE_RATIO_HIGH
           ++ "x ceiling.")%string)
      else
        Py.Ok (result OUT_OF_RANGE
          ("UNDERPRICED: " ++ money invoice_price ++ " is "
           ++ Py.fixed 2 ratio ++ "x the historical avg ("
           ++ money (rd_avg rate_data) ++ "). " ++ range_display
           ++ ". Below " ++ Py.repr MAX_PRICE_RATIO_LOW
           ++ "x floor — possible error, wrong item, or missing quantity.")%string)
    else
      let limit := if below then adjusted_min w else adjusted_max w in
      q <- Py.div (invoice_price - limit)%float limit ;;
      let pct := (abs q * 100)%float in
      Py.Ok (result OUTSIDE_RANGE
        (money invoice_price ++ " is " ++ direction
         ++ " the historical range (" ++ range_display ++ ", avg "
         ++ money (rd_avg rate_data) ++ "), " ++ Py.fixed 0 pct ++ "% "
         ++ direction ++ " the buffered limit. Ratio: "
         ++ Py.fixed 2 ratio ++ "x. Verify with vendor.")%string).

(** The body of the loop of [compare_line_items], once the rate lookup
    is done. *)
Definition classify_item (vendor_name : string) (item : LineItem)
    (rate_data : option RateData) (rate_source : string)
    : Py.result Comparison :=
  let canonical_item := normalize_item_name (description item) in
  let invoice_price := unit_price item in
  let invoice_qty := Py.or_else (quantity item) 1 in
  match rate_data, invoice_price with
  | None, _ =>
      Py.Ok {| c_description := description item;
               canonical_item := canonical_item;
               c_quantity := quantity item;
               invoice_unit_price := invoice_price;
               invoice_line_total := line_total item;
               contracted_range := None;
               contracted_avg := None;
               variance_from_avg_pct := None;
               status := NO_CONTRACT_RATE;
               data_points := 0;
               rate_source := None;
               qty_adjustment := None;
               note :=
                 ("No historical rate data for '" ++ canonical_item
                  ++ "' from " ++ vendor_name ++ ". "
                  ++ "Cannot compare — needs human review to establish baseline.")%string |}
  | Some rd, None =>
      Py.Ok {| c_description := description item;
               canonical_item := canonical_item;
               c_quantity := quantity item;
               invoice_unit_price := invoice_price;
               invoice_line_total := line_total item;
               contracted_range :=
                 Some (money (rd_min rd) ++ " – " ++ money (rd_max rd))%string;
               contracted_avg := Some (rd_avg rd);
               variance_from_avg_pct := None;
               status := MISSING_PRICE;
               data_points := rd_n rd;
               rate_source := None;
               qty_adjustment := None;
               note := "Invoice unit price could not be parsed from the document." |}
  | Some rd, Some p =>
      evaluate_price item canonical_item rd rate_source p invoice_qty
  end.

Definition compare_item (clk : VendorDb.Clock) (file : VendorDb.Store)
    (vendor_name : string) (item : LineItem) : Py.result Comparison :=
  let canonical_item := normalize_item_name (description item) in
  found <- resolve_rate clk file vendor_name canonical_item ;;
  classify_item vendor_name item (fst found) (snd found).

Definition compare_line_items (clk : VendorDb.Clock) (file : VendorDb.Store)
    (vendor_name : string) (line_items : list LineItem)
    : Py.result (list Comparison) :=
  Py.mapM (compare_item clk file vendor_name) line_items.

(** The test guarding the line check of [check_math]:
    [qty and price and line_total]. *)
Definition line_checked (item : LineItem) : bool :=
  Py.truthy (quantity item) && Py.truthy (unit_price item)
  && Py.truthy (line_total item).

(** [round(qty * price, 2)] of a line whose three numbers are present. *)
Definition line_expected (qty price : float) : float :=
  Py.round (qty * price)%float 2.

Definition line_issue (item : LineItem) : list string :=
  match quantity item, unit_price item, line_total item with
  | Some qty, Some price, Some line_total =>
      if line_checked item
      then
        let expected := line_expected qty price in
        if (0.50 <? abs (expected - line_total))%float
        then [("Line math: " ++ description item ++ " — "
               ++ Py.repr qty ++ " x " ++ money price ++ " = "
               ++ money expected ++ ", but invoice shows "
               ++ money line_total)%string]
        else []
      else []
  | _, _, _ => []
  end.

Definition line_sum (line_items : list LineItem) : float :=
  Py.sum (map (fun i => Py.or_else (line_total i) 0) line_items).

Definition subtotal_issue (line_items : list LineItem)
    (subtotal : option float) : list string :=
  match subtotal with
  | Some st =>
      if (1.00 <? abs (line_sum line_items - st))%float
      then [("Subtotal: lines sum to " ++ money (line_sum line_items)
             ++ ", invoice shows " ++ money st)%string]
      else []
  | None => []
  end.

Definition expected_total (subtotal : float) (tax shipping : option float)
    : float :=
  (subtotal + Py.or_else tax 0 + Py.or_else shipping 0)%float.

Definition total_issue (subtotal tax shipping total : option float)
    : list string :=
  match total, subtotal with
  | Some t, Some st =>
      if (1.00 <? abs (expected_total st tax shipping - t))%float
      then [("Total: " ++ money st ++ " + tax(" ++ money (Py.or_else tax 0)
             ++ ") + shipping(" ++ money (Py.or_else shipping 0) ++ ") = "
             ++ money (expected_total st tax shipping)
             ++ ", but invoice shows " ++ money t)%string]
      else []
  | _, _ => []
  end.

Definition check_math (line_items : list LineItem)
    (subtotal tax shipping total : option float) : list string :=
  flat_map line_issue line_items
  ++ subtotal_issue line_items subtotal
  ++ total_issue subtotal tax shipping total.

(** The test of the loop of [check_tax] over [VALID_TAX_RATES]. *)
Definition rate_matches (effective_rate valid_rate : float) : bool :=
  (0 <? valid_rate)%float
  && (abs (effective_rate - valid_rate) <=? TAX_TOLERANCE)%float.

Definition percent (d : nat) (r : float) : string :=
  (Py.fixed d (r * 100)%float ++ "%")%string.

Definition check_tax (vendor_name : string) (subtotal tax : option float)
    : Check :=
  match subtotal, tax with
  | Some st, Some tx =>
      if (tx =? 0)%float
      then {| chk_status := OBSERVATION;
              effective_rate := None;
              chk_note := "No tax charged ($0). Could be tax-exempt or bundled into unit prices." |}
      else
        let rate := if (0 <? st)%float then (tx / st)%float else 0%float in
        match find (rate_matches rate) VALID_TAX_RATES with
        | Some valid_rate =>
            {| chk_status := OK;
               effective_rate := Some (Py.round (rate * 100)%float 2);
               chk_note := ("Tax rate " ++ percent 2 rate
                            ++ " matches known rate " ++ percent 1 valid_rate
                            ++ ".")%string |}
        | None =>
            let valid_strs :=
              Py.join ", "
                (map (percent 1)
                     (filter (fun r => (0 <? r)%float) VALID_TAX_RATES)) in
            {| chk_status := OBSERVATION;
               effective_rate := Some (Py.round (rate * 100)%float 2);
               chk_note := ("Tax rate " ++ percent 2 rate
                            ++ " doesn't match known rates (" ++ valid_strs
                            ++ ").")%string |}
        end
  | _, _ =>
      {| chk_status := OBSERVATION;
         effective_rate := None;
         chk_note := "Missing subtotal or tax value." |}
  end.

(** The table [vendor_data.SHIPPING_MAX_SEEN]. *)
Variable SHIPPING_MAX_SEEN : list (string * float).

Definition check_shipping (vendor_name : string) (shipping : option float)
    : Check :=
  let max_seen := VendorDb.dict_get vendor_name SHIPPING_MAX_SEEN in
  match shipping with
  | None =>
      {| chk_status := OBSERVATION; effective_rate := None;
         chk_note := "No shipping field found." |}
  | Some sh =>
      if (sh =? 0)%float
      then {| chk_status := OK; effective_rate := None;
              chk_note := "No shipping charged." |}
      else
        match max_seen with
        | None =>
            {| chk_status := OBSERVATION; effective_rate := None;
               chk_note := ("Shipping " ++ money sh
                            ++ ". No history to compare.")%string |}
        | Some m =>
            if (sh <=? m)%float
            then {| chk_status := OK; effective_rate := None;
                    chk_note := ("Shipping " ++ money sh
                                 ++ " within norms (max seen: " ++ money m
                                 ++ ").")%string |}
            else {| chk_status := OBSERVATION; effective_rate := None;
                    chk_note := ("Shipping " ++ money sh
                                 ++ " above max seen (" ++ money m
                                 ++ "). Could be distance/rush.")%string |}
        end
  end.

End Comparator.

(** ** matcher.py: the shape of a vendor match *)

Inductive MatchType : Type :=
| exact
| alias
| fuzzy
| fuzzy_low_confidence
| none.

Record VendorMatch : Type := {
  canonical_name : option string;
  match_type : MatchType;
  confidence : float
}.

(** ** decision.py *)

Inductive DecisionStatus : Type :=
| APPROVED
| FLAGGED.

Definition status_name (s : DecisionStatus) : string :=
  match s with
  | APPROVED => "APPROVED"
  | FLAGGED => "FLAGGED"
  end.

Record Decision : Type := {
  d_status : DecisionStatus;
  reason_codes : list string;
  observations : list string;
  clarifying_questions : list string
}.

(** The three lists [decide] appends to. *)
Record Acc : Type := {
  flags : list string;
  notes : list string;
  questions : list string
}.

Definition add_flags (fs : list string) (a : Acc) : Acc :=
  {| flags := flags a ++ fs; notes := notes a; questions := questions a |}.
Definition add_notes (os : list string) (a : Acc) : Acc :=
  {| flags := flags a; notes := notes a ++ os; questions := questions a |}.
Definition add_questions (qs : list string) (a : Acc) : Acc :=
  {| flags := flags a; notes := notes a; questions := questions a ++ qs |}.

Definition VENDOR_QUESTION : string :=
  "This vendor is not in our approved vendor list. Is this a new vendor that needs onboarding, or a known vendor under a different name?".
Definition UNKNOWN_VENDOR_QUESTION : string :=
  "This vendor has no invoice history. Is this a first-time order? Please confirm the prices match the agreed contract terms.".
Definition SYSTEMIC_QUESTION : string :=
  "Every line item is priced outside the historical range. Has there been a contract renegotiation or pricing restructure?".
Definition MATH_QUESTION : string :=
  "The invoice math doesn't add up. Is this a rounding issue, or could there be a missing line item or incorrect amount?".
Definition DEFAULT_QUESTION : string :=
  "This invoice passed all automated checks. Please confirm the quantities and descriptions match what was actually received before final approval.".

Definition CRITICAL_WARNINGS : list string :=
  ["NO_LINE_ITEMS_FOUND"; "EMPTY_PDF"; "MISSING_TOTAL"].

Section Decision.

Context {rt : Py.Runtime}.

(** [f"${x:.2f}"] of a value that may be [None]: formatting [None] with
    a float format raises [TypeError]. *)
Definition money_opt (x : option float) : Py.result string :=
  match x with
  | Some v => Py.Ok (money v)
  | None => Py.Raise Py.TypeError
  end.

Definition with_status (st : LineStatus) (comps : list Comparison)
    : list Comparison :=
  filter (fun c => LineStatus_eqb (status c) st) comps.

(** Priced items: neither [MISSING_PRICE] nor [NO_CONTRACT_RATE]. *)
Definition priced (c : Comparison) : bool :=
  negb (LineStatus_eqb (status c) MISSING_PRICE
        || LineStatus_eqb (status c) NO_CONTRACT_RATE).

Definition vendor_check (vendor_match : VendorMatch) (a : Acc) : Acc :=
  match match_type vendor_match with
  | none =>
      add_questions [VENDOR_QUESTION]
        (add_flags ["VENDOR_NOT_IN_APPROVED_LIST"] a)
  | fuzzy_low_confidence =>
      add_questions
        [("Vendor matched to '" ++ Py.str_opt (canonical_name vendor_match)
          ++ "' with only "
          ++ Py.fixed 0 (confidence vendor_match * 100)%float
          ++ "% confidence. Is this correct?")%string]
        (add_flags ["VENDOR_LOW_CONFIDENCE_MATCH"] a)
  | fuzzy =>
      add_notes
        [("Vendor fuzzy-matched to '"
          ++ Py.str_opt (canonical_name vendor_match) ++ "' ("
          ++ Py.fixed 0 (confidence vendor_match * 100)%float
          ++ "% confidence).")%string] a
  | alias =>
      add_notes
        [("Vendor matched via known alias to '"
          ++ Py.str_opt (canonical_name vendor_match) ++ "'.")%string] a
  | exact => a
  end.

(** The flags the partition loop appends. *)
Definition missing_price_flags (comps : list Comparison) : list string :=
  map (fun c => ("MISSING_PRICE:" ++ canonical_item c)%string)
      (with_status MISSING_PRICE comps).

Definition priced_in_words (name : string) (p : float) : string :=
  (name ++ " (" ++ money p ++ ")")%string.

Definition _assess_unknown_items (items : list Comparison) (a : Acc) : Acc :=
  let reasonable :=
    flat_map (fun comp =>
      match invoice_unit_price comp with
      | Some p =>
          if (1.0 <=? p)%float && (p <=? 1000.0)%float
          then [priced_in_words (canonical_item comp) p] else []
      | None => []
      end) items in
  let concerning :=
    flat_map (fun comp =>
      match invoice_unit_price comp with
      | Some p =>
          if (1.0 <=? p)%float && (p <=? 1000.0)%float
          then [] else [priced_in_words (canonical_item comp) p]
      | None => [canonical_item comp]
      end) items in
  let a1 :=
    match reasonable with
    | [] => a
    | _ => add_notes [("Prices appear reasonable: "
                       ++ Py.join ", " reasonable ++ ".")%string] a
    end in
  let a2 :=
    match concerning with
    | [] => a1
    | _ => add_notes [("Unusual pricing — needs review: "
                       ++ Py.join ", " concerning ++ ".")%string] a1
    end in
  add_questions [UNKNOWN_VENDOR_QUESTION] a2.

Definition no_rate_check (vendor_match : VendorMatch)
    (items_no_rate : list Comparison) (a : Acc) : Acc :=
  match items_no_rate with
  | [] => a
  | _ =>
      let names := map canonical_item items_no_rate in
      match match_type vendor_match with
      | none =>
          _assess_unknown_items items_no_rate
            (add_flags ["VENDOR_NOT_IN_APPROVED_LIST"] a)
      | _ =>
          add_questions
            [("No historical pricing for: " ++ Py.join ", " names ++ ". "
              ++ "Are these new products/services from this vendor? "
              ++ "If approved, these prices become the baseline for future invoices.")%string]
            (add_flags
               [("NEW_ITEMS_NO_RATE_HISTORY:" ++ Py.join ", " names)%string] a)
      end
  end.

Definition anomaly_detail (c : Comparison) : Py.result string :=
  p <- money_opt (invoice_unit_price c) ;;
  avg <- money_opt (contracted_avg c) ;;
  Py.Ok (canonical_item c ++ " (" ++ p ++ " vs avg " ++ avg ++ " — "
         ++ Py.before ":" (note c) ++ ")")%string.

Definition out_of_range_check (items_out_of_range : list Comparison) (a : Acc)
    : Py.result Acc :=
  match items_out_of_range with
  | [] => Py.Ok a
  | _ =>
      let a1 :=
        add_flags
          (map (fun c => ("PRICE_ANOMALY:" ++ canonical_item c)%string)
               items_out_of_range) a in
      details <- Py.mapM anomaly_detail items_out_of_range ;;
      Py.Ok (add_questions
        [("Price anomalies beyond the 1.5x/0.75x threshold: "
          ++ Py.join "; " details ++ ". "
          ++ "Please verify these prices with the vendor before approving.")%string]
        a1)
  end.

Definition outside_detail (c : Comparison) : Py.result string :=
  p <- money_opt (invoice_unit_price c) ;;
  Py.Ok (canonical_item c ++ " (" ++ p ++ " vs "
         ++ Py.str_opt (contracted_range c) ++ ")")%string.

(** [all_outside] of the pattern detection. *)
Definition all_outside (line_comparisons : list Comparison) : bool :=
  let total_priced := len (filter priced line_comparisons) in
  ((len (with_status OUTSIDE_RANGE line_comparisons)
    + len (with_status OUT_OF_RANGE line_comparisons) =? total_priced)%Z
   && (1 <? total_priced)%Z).

Definition outside_range_check (line_comparisons : list Comparison)
    (items_outside_range : list Comparison) (a : Acc) : Py.result Acc :=
  match items_outside_range with
  | [] => Py.Ok a
  | _ =>
      let a1 :=
        add_flags
          (map (fun c => ("PRICE_OUTSIDE_RANGE:" ++ canonical_item c)%string)
               items_outside_range) a in
      details <- Py.mapM outside_detail items_outside_range ;;
      let a2 :=
        if all_outside line_comparisons
        then add_questions [SYSTEMIC_QUESTION] a1 else a1 in
      Py.Ok (add_notes
        [("Price variance: " ++ Py.join "; " details
          ++ ". Verify with vendor.")%string] a2)
  end.

Definition math_check (math_issues : list string) (a : Acc) : Acc :=
  match math_issues with
  | [] => a
  | _ =>
      add_questions [MATH_QUESTION]
        (add_notes
           (map (fun issue => ("Math issue: " ++ issue)%string) math_issues)
           (add_flags ["MATH_DISCREPANCY"] a))
  end.

(** Tax and shipping: either status appends the note. *)
Definition observe (label : string) (chk : Check) (a : Acc) : Acc :=
  match chk_status chk with
  | OBSERVATION => add_notes [(label ++ ": " ++ chk_note chk)%string] a
  | OK => add_notes [(label ++ ": " ++ chk_note chk)%string] a
  end.

Definition extraction_check (extraction_warnings : list string) (a : Acc)
    : Acc :=
  let critical :=
    filter (fun w => str_in w CRITICAL_WARNINGS) extraction_warnings in
  let a1 :=
    match critical with
    | [] => a
    | _ => add_flags
             [("EXTRACTION_FAILURE:" ++ Py.join ", " critical)%string] a
    end in
  let non_critical :=
    filter (fun w => negb (str_in w critical)) extraction_warnings in
  match non_critical with
  | [] => a1
  | _ => add_notes
           [("Extraction notes: " ++ Py.join ", " non_critical)%string] a1
  end.

(** Everything [decide] accumulates before the final decision. *)
Definition gather (vendor_match : VendorMatch)
    (line_comparisons : list Comparison) (math_issues : list string)
    (tax_check shipping_check : Check) (extraction_warnings : list string)
    : Py.result Acc :=
  let a0 := {| flags := []; notes := []; questions := [] |} in
  let a1 := vendor_check vendor_match a0 in
  let items_no_rate := with_status NO_CONTRACT_RATE line_comparisons in
  let items_out_of_range := with_status OUT_OF_RANGE line_comparisons in
  let items_outside_range := with_status OUTSIDE_RANGE line_comparisons in
  let a2 := add_flags (missing_price_flags line_comparisons) a1 in
  let a3 := no_rate_check vendor_match items_no_rate a2 in
  a4 <- out_of_range_check items_out_of_range a3 ;;
  a5 <- outside_range_check line_comparisons items_outside_range a4 ;;
  let a6 := math_check math_issues a5 in
  let a7 := observe "Tax" tax_check a6 in
  let a8 := observe "Shipping" shipping_check a7 in
  Py.Ok (extraction_check extraction_warnings a8).

Definition decide (vendor_match : VendorMatch)
    (line_comparisons : list Comparison) (math_issues : list string)
    (tax_check shipping_check : Check) (extraction_warnings : list string)
    : Py.result Decision :=
  a <- gather vendor_match line_comparisons math_issues
         tax_check shipping_check extraction_warnings ;;
  let status :=
    if (len (flags a) =? 0)%Z then APPROVED else FLAGGED in
  let questions1 :=
    match questions a with
    | [] => [DEFAULT_QUESTION]
    | qs => qs
    end in
  Py.Ok {| d_status := status;
           reason_codes := flags a;
           observations := notes a;
           clarifying_questions := firstn 3 questions1 |}.

End Decision.

(** ** Text functions of the interpreter and of its libraries *)

Module Txt.

(** A Python string is a sequence of characters (code points); here it is
    held in UTF-8, a lone surrogate in three bytes like any other
    character of its range.  Each character is one lead byte followed by
    its continuation bytes, the bytes 10xxxxxx. *)
Definition is_continuation (a : ascii) : bool :=
  match a with
  | Ascii _ _ _ _ _ _ b6 b7 => b7 && negb b6
  end.

(** [len(s)]: the number of characters. *)
Fixpoint chars (s : string) : nat :=
  match s with
  | EmptyString => O
  | String a rest =>
      if is_continuation a then chars rest else S (chars rest)
  end.

(** [s[:n]]: the first [n] characters, each with all its bytes. *)
Fixpoint take (n : nat) (s : string) : string :=
  match s with
  | EmptyString => EmptyString
  | String a rest =>
      if is_continuation a then String a (take n rest)
      else
        match n with
        | O => EmptyString
        | S k => String a (take k rest)
        end
  end.

(** What the program calls on strings and whose results are not fixed
    here. *)
Class Library : Type := {
  (** [s.lower()] *)
  lower : string -> string;
  (** [s.replace(old, new)] *)
  replace : string -> string -> string -> string;
  (** the [re.sub] of [normalize_item_name]: a trailing " - <month>..."
      is removed *)
  strip_trailing_context : string -> string;
  (** [thefuzz.fuzz.ratio] *)
  fuzz_ratio : string -> string -> Z
}.

End Txt.

(** ** vendor_db.py: statistics *)

Record DbStats : Type := {
  total_invoices : Z;
  unique_vendors : Z;
  unique_items_tracked : Z;
  db_path : string
}.

(** [len(set(l))] for strings. *)
Definition count_distinct (l : list string) : Z :=
  len (nodup string_dec l).

Definition get_db_stats (DB_PATH : string) (clk : VendorDb.Clock)
    (file : VendorDb.Store) : DbStats :=
  let db := VendorDb._load_db clk file in
  {| total_invoices := len (VendorDb.invoices db);
     unique_vendors :=
       count_distinct (map VendorDb.e_vendor (VendorDb.invoices db));
     unique_items_tracked := len (VendorDb.price_history db);
     db_path := DB_PATH |}.

(** ** matcher.py *)

Section Matcher.

Context {rt : Py.Runtime} {tx : Txt.Library}.

(** The tables [vendor_data.APPROVED_VENDORS] (canonical name and its
    aliases) and [vendor_data.ITEM_ALIASES], in their order. *)
Variable APPROVED_VENDORS : list (string * list string).
Variable ITEM_ALIASES : list (string * string).

Definition no_match : VendorMatch :=
  {| canonical_name := None; match_type := none; confidence := 0.0 |}.

(** One comparison of the fuzzy loop: [(best_score, best_match)] after
    scoring [candidate] on behalf of [canonical]. *)
Definition score_against (name_lower canonical candidate : string)
    (best : Z * option string) : Z * option string :=
  let score := Txt.fuzz_ratio name_lower candidate in
  if (fst best <? score)%Z then (score, Some canonical) else best.

(** One turn of the fuzzy loop over [APPROVED_VENDORS.items()]. *)
Definition score_vendor (name_lower : string) (best : Z * option string)
    (entry : string * list string) : Z * option string :=
  fold_left
    (fun b alias_ => score_against name_lower (fst entry) alias_ b)
    (snd entry)
    (score_against name_lower (fst entry) (Txt.lower (fst entry)) best).

Definition match_vendor (invoice_vendor_name : option string) : VendorMatch :=
  match invoice_vendor_name with
  | None => no_match
  | Some raw =>
      if String.eqb raw "" then no_match
      else
        let name := Py.strip raw in
        let name_lower := Txt.lower name in
        match find (fun e => String.eqb name (fst e)
                             || String.eqb name_lower (Txt.lower (fst e)))
                   APPROVED_VENDORS with
        | Some e =>
            {| canonical_name := Some (fst e); match_type := exact;
               confidence := 1.0 |}
        | None =>
            match find (fun e => str_in name_lower (snd e))
                       APPROVED_VENDORS with
            | Some e =>
                {| canonical_name := Some (fst e); match_type := alias;
                   confidence := 0.95 |}
            | None =>
                let best :=
                  fold_left (score_vendor name_lower) APPROVED_VENDORS
                            (0%Z, None) in
                let best_score := fst best in
                let best_match := snd best in
                if (85 <=? best_score)%Z
                then {| canonical_name := best_match; match_type := fuzzy;
                        confidence := (Py.of_Z best_score / 100)%float |}
                else if (60 <=? best_score)%Z
                then {| canonical_name := best_match;
                        match_type := fuzzy_low_confidence;
                        confidence := (Py.of_Z best_score / 100)%float |}
                else no_match
            end
        end
  end.

Definition normalize_item_name (description : string) : string :=
  if String.eqb description "" then description
  else
    let cleaned := Py.strip description in
    let cleaned_lower := Txt.lower cleaned in
    match VendorDb.dict_get cleaned_lower ITEM_ALIASES with
    | Some canonical => canonical
    | None =>
        let stripped := Txt.strip_trailing_context cleaned_lower in
        match VendorDb.dict_get stripped ITEM_ALIASES with
        | Some canonical => canonical
        | None =>
            let expanded :=
              Txt.replace
                (Txt.replace
                   (Txt.replace cleaned_lower "mgmt" "management")
                   "maint" "maintenance")
                "equip" "equipment" in
            match VendorDb.dict_get expanded ITEM_ALIASES with
            | Some canonical => canonical
            | None => cleaned
            end
        end
    end.

End Matcher.

(** ** analyzer.py: the advisory layer *)

Module Analyzer.

#[local] Unset Elimination Schemes.

(** A value [json.loads] returns. *)
Inductive Json : Type :=
| JNull
| JBool (b : bool)
| JInt (z : Z)
| JFloat (x : float)
| JStr (s : string)
| JList (l : list Json)
| JObj (members : list (string * Json)).

#[local] Set Elimination Schemes.

(** What the sanitizer returns. *)
Record Sanitized : Type := {
  s_risk_level : string;
  s_executive_summary : string;
  s_insights : list string;
  s_recommended_questions : list string;
  s_explanation : string
}.

(** What [analyze_invoice] returns. *)
Record Analysis : Type := {
  risk_level : string;
  executive_summary : string;
  insights : list string;
  recommended_questions : list string;
  explanation : string;
  ai_available : bool;
  model : option string;
  latency_ms : Z
}.

(** A call either returns or raises the exception of the given class
    name. *)
Inductive outcome (A : Type) : Type :=
| Returns (a : A)
| Raises (exception_name : string).

Arguments Returns {A} a.
Arguments Raises {A} exception_name.

(** How [json.loads] of a text ends: with the value, with
    [JSONDecodeError], which [analyze_invoice] catches, or with an
    exception of another class ([RecursionError] on deep nesting,
    [ValueError] on an integer beyond the digit limit), which it does not
    catch. *)
Inductive Loaded : Type :=
| Parsed (value : Json)
| JSONDecodeError
| Uncaught (exception_name : string).

(** One attempt at the chat completion: an exception of the given class
    name, or a message whose content may be [None]. *)
Inductive Reply : Type :=
| Failed (exception_name : string)
| Replied (content : option string).

(** The surroundings of one call of [analyze_invoice].  Building the
    client and the two prompts is taken to return: the prompts only read
    their arguments and serialise them with [default=str]. *)
Record World : Type := {
  (** the openai package could be imported *)
  OPENAI_AVAILABLE : bool;
  (** [os.environ.get("OPENAI_API_KEY", "")] *)
  api_key : string;
  (** the outcome of the n-th attempt, counted from 0 *)
  reply : nat -> Reply;
  (** [json.loads] of a text *)
  json_loads : string -> Loaded;
  (** [str(x)] of a value that is not a string *)
  str_of : Json -> string;
  (** the milliseconds measured around the attempts *)
  elapsed_ms : Z
}.

Definition MODEL : string := "gpt-4o-mini".
Definition MAX_RETRIES : nat := 1.
Definition VALID_RISK_LEVELS : list string :=
  ["low"; "medium"; "high"; "critical"].
Definition MAX_INSIGHTS : nat := 5.
Definition MAX_QUESTIONS : nat := 3.
Definition MAX_EXPLANATION_LEN : nat := 500.

Section WithLibraries.

Context {rt : Py.Runtime} {tx : Txt.Library}.
Variable world : World.

(** [str(x)] *)
Definition str (x : Json) : string :=
  match x with
  | JStr s => s
  | _ => str_of world x
  end.

(** [d.get(key, default)] *)
Definition get (key : string) (default : Json) (d : list (string * Json))
    : Json :=
  match VendorDb.dict_get key d with
  | Some v => v
  | None => default
  end.

(** [s if s else default] *)
Definition or_default (s default : string) : string :=
  if String.eqb s "" then default else s.

(** The list comprehension over insights and questions: of the first
    [cap] entries, the strings that are not blank, cut to their first 300
    characters. *)
Definition texts (cap : nat) (x : Json) : list string :=
  match x with
  | JList l =>
      flat_map
        (fun i =>
           match i with
           | JStr s =>
               if String.eqb (Py.strip s) "" then []
               else [Txt.take 300 s]
           | _ => []
           end)
        (firstn cap l)
  | _ => []
  end.

Definition _validate_and_sanitize (raw_response : Json)
    (algorithmic_status : string) : outcome Sanitized :=
  match raw_response with
  | JObj d =>
      let risk0 :=
        Py.strip (Txt.lower (str (get "risk_level" (JStr "medium") d))) in
      let risk1 := if str_in risk0 VALID_RISK_LEVELS then risk0 else "medium" in
      let risk2 :=
        if String.eqb algorithmic_status "FLAGGED" && String.eqb risk1 "low"
        then "medium" else risk1 in
      let summary :=
        Txt.take MAX_EXPLANATION_LEN
          (str (get "executive_summary" (JStr "") d)) in
      let explanation :=
        Txt.take MAX_EXPLANATION_LEN
          (str (get "explanation" (JStr "") d)) in
      Returns
        {| s_risk_level := risk2;
           s_executive_summary := or_default summary "No summary generated.";
           s_insights := texts MAX_INSIGHTS (get "insights" (JList []) d);
           s_recommended_questions :=
             texts MAX_QUESTIONS (get "recommended_questions" (JList []) d);
           s_explanation :=
             or_default explanation "No explanation generated." |}
  | _ =>
      (* [raw_response.get] on a value that is not a dict *)
      Raises "AttributeError"
  end.

(** The result used when the model is not asked or does not answer. *)
Definition fallback (invoice_data : InvoiceData) (algorithmic_status : string)
    (explanation : string) (latency : Z) : Analysis :=
  {| risk_level :=
       if String.eqb algorithmic_status "FLAGGED" then "medium" else "low";
     executive_summary :=
       ("Invoice " ++ Py.str_opt (invoice_number invoice_data) ++ " was "
        ++ algorithmic_status ++ " by the deterministic system.")%string;
     insights := [];
     recommended_questions := [];
     explanation := explanation;
     ai_available := false;
     model := None;
     latency_ms := latency |}.

(** The retry loop: the content of the first attempt that returns, or the
    exception name of the last one. *)
Fixpoint attempt (n : nat) (left : nat) : Reply :=
  match reply world n with
  | Replied content => Replied content
  | Failed name =>
      match left with
      | O => Failed name
      | S k => attempt (S n) k
      end
  end.

Definition analyze_invoice (invoice_data : InvoiceData)
    (decision_result : Decision) : outcome Analysis :=
  let algorithmic_status := status_name (d_status decision_result) in
  if negb (OPENAI_AVAILABLE world)
     || String.eqb (Py.strip (api_key world)) ""
  then
    let reason :=
      if negb (OPENAI_AVAILABLE world) then "openai package not installed"
      else "OPENAI_API_KEY not set" in
    Returns (fallback invoice_data algorithmic_status
               ("LLM analysis skipped (" ++ reason
                ++ "). Deterministic results only.")%string 0)
  else
    match attempt 0 MAX_RETRIES with
    | Failed name =>
        Returns (fallback invoice_data algorithmic_status
                   ("LLM call failed after "
                    ++ Py.str_Z (Z.of_nat (MAX_RETRIES + 1))
                    ++ " attempts: " ++ name)%string 0)
    | Replied None =>
        (* [json.loads(None)] raises [TypeError], which is caught *)
        Returns (fallback invoice_data algorithmic_status
                   "LLM returned invalid JSON. Deterministic results only."
                   (elapsed_ms world))
    | Replied (Some raw_text) =>
        match json_loads world raw_text with
        | JSONDecodeError =>
            Returns (fallback invoice_data algorithmic_status
                       "LLM returned invalid JSON. Deterministic results only."
                       (elapsed_ms world))
        | Uncaught name => Raises name
        | Parsed raw_response =>
            match _validate_and_sanitize raw_response algorithmic_status with
            | Returns s =>
                Returns {| risk_level := s_risk_level s;
                           executive_summary := s_executive_summary s;
                           insights := s_insights s;
                           recommended_questions := s_recommended_questions s;
                           explanation := s_explanation s;
                           ai_available := true;
                           model := Some MODEL;
                           latency_ms := elapsed_ms world |}
            | Raises name => Raises name
            end
        end
    end.

End WithLibraries.

End Analyzer.

(** ** report.py: the decision payload *)

Module Report.

Record Summary : Type := {
  line_items_checked : Z;
  items_in_range : Z;
  items_outside_range : Z;
  items_out_of_range : Z;
  items_no_contract : Z;
  math_issues : Z;
  tax_status : CheckStatus;
  shipping_status : CheckStatus
}.

Record AiSection : Type := {
  available : bool;
  model : option string;
  risk_level : string;
  executive_summary : string;
  insights : list string;
  recommended_questions : list string;
  explanation : string;
  latency_ms : Z;
  note : string
}.

Record Payload : Type := {
  invoice_number : option string;
  vendor_name_on_invoice : option string;
  matched_vendor : option string;
  vendor_match_confidence : float;
  invoice_date : option string;
  invoice_total : option float;
  status : DecisionStatus;
  variance_detected : bool;
  reason_codes : list string;
  clarifying_questions : list string;
  reconciliation_summary : Summary;
  ai_analysis : option AiSection
}.

End Report.

(** [sum(1 for c in line_comparisons if c["status"] == st)] *)
Definition count_status (st : LineStatus) (line_comparisons : list Comparison)
    : Z :=
  len (with_status st line_comparisons).

Definition build_json_payload (invoice_data : InvoiceData)
    (vendor_match : VendorMatch) (line_comparisons : list Comparison)
    (math_issues : list string) (tax_check shipping_check : Check)
    (decision_result : Decision) (ai : option Analyzer.Analysis)
    : Report.Payload :=
  let has_variance :=
    existsb
      (fun c =>
         LineStatus_eqb (status c) OUT_OF_RANGE
         || LineStatus_eqb (status c) OUTSIDE_RANGE
         || LineStatus_eqb (status c) NO_CONTRACT_RATE
         || LineStatus_eqb (status c) MISSING_PRICE)
      line_comparisons in
  {| Report.invoice_number := invoice_number invoice_data;
     Report.vendor_name_on_invoice := vendor_name invoice_data;
     Report.matched_vendor := canonical_name vendor_match;
     Report.vendor_match_confidence := confidence vendor_match;
     Report.invoice_date := invoice_date invoice_data;
     Report.invoice_total := total invoice_data;
     Report.status := d_status decision_result;
     Report.variance_detected := has_variance;
     Report.reason_codes := reason_codes decision_result;
     Report.clarifying_questions := clarifying_questions decision_result;
     Report.reconciliation_summary :=
       {| Report.line_items_checked := len line_comparisons;
          Report.items_in_range := count_status IN_RANGE line_comparisons;
          Report.items_outside_range :=
            count_status OUTSIDE_RANGE line_comparisons;
          Report.items_out_of_range :=
            count_status OUT_OF_RANGE line_comparisons;
          Report.items_no_contract :=
            count_status NO_CONTRACT_RATE line_comparisons;
          Report.math_issues := len math_issues;
          Report.tax_status := chk_status tax_check;
          Report.shipping_status := chk_status shipping_check |};
     Report.ai_analysis :=
       option_map
         (fun a =>
            {| Report.available := Analyzer.ai_available a;
               Report.model := Analyzer.model a;
               Report.risk_level := Analyzer.risk_level a;
               Report.executive_summary := Analyzer.executive_summary a;
               Report.insights := Analyzer.insights a;
               Report.recommended_questions :=
                 Analyzer.recommended_questions a;
               Report.explanation := Analyzer.explanation a;
               Report.latency_ms := Analyzer.latency_ms a;
               Report.note := "AI analysis is ADVISORY. Algorithmic flags are final and cannot be overridden by AI." |})
         ai |}.

(** ** extractor.py: locating a column *)

(** [kw in h] on strings. *)
Definition contains (kw h : string) : bool :=
  match String.index 0 kw h with
  | Some _ => true
  | None => false
  end.

(** The loop of [_find_col] from position [i] on. *)
Fixpoint find_col_from (i : nat) (headers keywords : list string)
    : option nat :=
  match headers with
  | [] => None
  | h :: rest =>
      if existsb (fun kw => contains kw h) keywords then Some i
      else find_col_from (S i) rest keywords
  end.

Definition _find_col (headers keywords : list string) : option nat :=
  find_col_from 0 headers keywords.

(** ** main.py: the pipeline *)

Module Main.

(** How a call of [process_invoice] ends: with the extraction error, with
    the payload, or with an exception of the comparison or the decision,
    of the advisory layer, or of the text reports and [save_outputs]. *)
Inductive ending : Type :=
| ExtractionError (error : string)
| Completed (json_payload : Report.Payload)
| Raised (e : Py.exn)
| AnalyzerRaised
| OutputRaised.

Section Pipeline.

Context {rt : Py.Runtime} {tx : Txt.Library}.

(** The tables of [vendor_data]. *)
Variable APPROVED_VENDORS : list (string * list string).
Variable ITEM_ALIASES : list (string * string).
Variable PRICE_HISTORY : list ((string * string) * list PriceRecord).
Variable SHIPPING_MAX_SEEN : list (string * float).

(** [invoice_data.get("error")] is passed apart from the other fields,
    and [outputs_saved] tells whether [build_reconciliation_report],
    [build_audit_trail] and [save_outputs] all return in this call: they
    write the output directory and never touch the learning store.  The
    statistics of step 6 only reach the prompt, which is part of [world];
    the instants read while the store is only consulted reach no result,
    so one clock serves the whole call. *)
Definition process_invoice (world : Analyzer.World) (clk : VendorDb.Clock)
    (outputs_saved : bool) (error : option string)
    (invoice_data : InvoiceData) (file : VendorDb.Store)
    : ending * VendorDb.Store :=
  match error with
  | Some (String a e) => (ExtractionError (String a e), file)
  | _ =>
      let vendor_match :=
        match_vendor APPROVED_VENDORS (vendor_name invoice_data) in
      let canonical_vendor := canonical_name vendor_match in
      let vendor := match canonical_vendor with
                    | Some v => v
                    | None => ""
                    end in
      match compare_line_items (normalize_item_name ITEM_ALIASES)
              PRICE_HISTORY clk file vendor (line_items invoice_data) with
      | Py.Raise e => (Raised e, file)
      | Py.Ok line_comparisons =>
          let math_issues :=
            check_math (line_items invoice_data) (subtotal invoice_data)
              (tax invoice_data) (shipping invoice_data)
              (total invoice_data) in
          let tax_check :=
            check_tax vendor (subtotal invoice_data) (tax invoice_data) in
          let shipping_check :=
            check_shipping SHIPPING_MAX_SEEN vendor (shipping invoice_data) in
          match decide vendor_match line_comparisons math_issues tax_check
                  shipping_check (warnings invoice_data) with
          | Py.Raise e => (Raised e, file)
          | Py.Ok decision_result =>
              match Analyzer.analyze_invoice world invoice_data
                      decision_result with
              | Analyzer.Raises _ => (AnalyzerRaised, file)
              | Analyzer.Returns ai =>
                  if outputs_saved then
                    (Completed
                       (build_json_payload invoice_data vendor_match
                          line_comparisons math_issues tax_check
                          shipping_check decision_result (Some ai)),
                     VendorDb.record_invoice clk invoice_data
                       (status_name (d_status decision_result)) vendor file)
                  else (OutputRaised, file)
              end
          end
      end
  end.

End Pipeline.

End Main.

(** ** A runtime to run the definitions on concrete invoices

    [Demo.runtime] stands in for the interpreter on the concrete inputs
    used below: sums are left-to-right additions, rounding and fixed-point
    formatting round the exact value of the float half to even, and [log2]
    is exact on powers of two and a series elsewhere. *)

Module Demo.

(** [x * 10^d] rounded to the nearest integer, ties to even, computed
    on the exact value of [x]; zero for NaN and the infinities. *)
Definition scaled (x : float) (d : Z) : Z :=
  match Prim2SF x with
  | S754_finite s m e =>
      let num := (Zpos m * 10 ^ d * 2 ^ Z.max e 0)%Z in
      let den := (2 ^ Z.max (- e) 0)%Z in
      let q := (num / den)%Z in
      let r := (num mod den)%Z in
      let n :=
        if (2 * r <? den)%Z then q
        else if (den <? 2 * r)%Z then (q + 1)%Z
        else if Z.even q then q else (q + 1)%Z in
      if s then (- n)%Z else n
  | _ => 0%Z
  end.

Definition is_negative (x : float) : bool :=
  match Prim2SF x with
  | S754_zero s | S754_infinity s | S754_finite s _ _ => s
  | S754_nan => false
  end.

(** [round(x, ndigits)] for [ndigits >= 0] and amounts as invoices carry
    them: the float nearest to the decimal nearest to [x].  The scaled
    value must stay below 2^63; magnitudes such as 1e20 are outside. *)
Definition round (x : float) (ndigits : Z) : float :=
  match Prim2SF x with
  | S754_finite _ _ _ =>
      let r := (Py.of_Z (scaled x ndigits) / Py.of_Z (10 ^ ndigits))%float in
      if is_negative x then (- abs r)%float else r
  | _ => x
  end.

Definition sum (l : list float) : float := fold_left PrimFloat.add l 0%float.

Fixpoint zeros (n : nat) : string :=
  match n with
  | O => ""
  | S k => String "0" (zeros k)
  end.

(** Left-pads [s] with zeros to [n] characters. *)
Definition pad (n : nat) (s : string) : string :=
  (zeros (n - String.length s) ++ s)%string.

Definition fixed (d : nat) (x : float) : string :=
  if is_nan x then "nan"
  else if is_infinity x then (if is_negative x then "-inf" else "inf")
  else
    let digits := pad (S d) (Py.str_Z (Z.abs (scaled x (Z.of_nat d)))) in
    let k := (String.length digits - d)%nat in
    ((if is_negative x then "-" else "")
     ++ substring 0 k digits
     ++ (if (d =? 0)%nat then "" else "." ++ substring k d digits))%string.

(** The least number of decimals, from [d] on, that give [x] back. *)
Fixpoint shortest (fuel d : nat) (x : float) : nat :=
  match fuel with
  | O => d
  | S k => if (round x (Z.of_nat d) =? x)%float then d else shortest k (S d) x
  end.

Definition repr (x : float) : string := fixed (shortest 16 1 x) x.

(** [math.log2] by a series: exact on the powers of two, elsewhere within
    a few units in the last place of the library's value (not correctly
    rounded). *)
Fixpoint atanh_series (k : nat) (t t2 term : float) (n : Z) : float :=
  match k with
  | O => 0%float
  | S k' =>
      (term / Py.of_Z n + atanh_series k' t t2 (term * t2) (n + 2))%float
  end.

Definition log2 (x : float) : Py.result float :=
  if is_nan x then Py.Ok x
  else if (x <=? 0)%float then Py.Raise Py.ValueError
  else if is_infinity x then Py.Ok x
  else
    let (m, e) := PrimFloat.frshiftexp x in
    (* x = 2m * 2^(e - shift - 1) with 1 <= 2m < 2 *)
    let y := (2 * m)%float in
    let t := ((y - 1) / (y + 1))%float in
    let ln_y := (2 * atanh_series 30 t (t * t) t 1)%float in
    Py.Ok (Py.of_Z (Uint63.to_Z e - FloatOps.shift - 1)
           + ln_y / 0.6931471805599453)%float.

Definition is_space (a : ascii) : bool :=
  let n := nat_of_ascii a in
  ((9 <=? n) && (n <=? 13) || (28 <=? n) && (n <=? 32))%nat.

Fixpoint lstrip (s : string) : string :=
  match s with
  | String a rest => if is_space a then lstrip rest else s
  | EmptyString => EmptyString
  end.

Fixpoint rstrip (s : string) : string :=
  match s with
  | String a rest =>
      match rstrip rest with
      | EmptyString => if is_space a then EmptyString else String a EmptyString
      | r => String a r
      end
  | EmptyString => EmptyString
  end.

Definition strip (s : string) : string := rstrip (lstrip s).

#[export] Instance runtime : Py.Runtime := {|
  Py.log2 := log2;
  Py.round := round;
  Py.sum := sum;
  Py.fixed := fixed;
  Py.repr := repr;
  Py.strip := strip
|}.

End Demo.


(** ** Concrete invoices *)

Module Sample.

(** The statistic of ("Acme Supplies Inc.", "A4 Paper Box") in
    [PRICE_HISTORY], rounded to cents. *)
Definition a4_rate : RateData :=
  {| rd_n := 3; rd_min := 24.19; rd_max := 88.72; rd_avg := 65.97;
     rd_avg_qty := 29.33; rd_prices := None; rd_source := None |}.


Definition item (desc : string) (q p t : option float) : LineItem :=
  {| description := desc; quantity := q; unit_price := p; line_total := t |}.

Definition comparison (name : string) (st : LineStatus)
    (p avg : option float) : Comparison :=
  {| c_description := name;
     canonical_item := name;
     c_quantity := Some 1%float;
     invoice_unit_price := p;
     invoice_line_total := p;
     contracted_range := option_map (fun _ => "$80.00 – $120.00") avg;
     contracted_avg := avg;
     variance_from_avg_pct := None;
     status := st;
     data_points := 3;
     rate_source := None;
     qty_adjustment := None;
     note := match st with
             | OUT_OF_RANGE => "OVERPRICED: far above the historical avg"
             | _ => ""
             end |}.

Definition in_range (name : string) : Comparison :=
  comparison name IN_RANGE (Some 100%float) (Some 100%float).
Definition out_of_range (name : string) : Comparison :=
  comparison name OUT_OF_RANGE (Some 200%float) (Some 100%float).
Definition outside_range (name : string) : Comparison :=
  comparison name OUTSIDE_RANGE (Some 140%float) (Some 100%float).
Definition no_rate (name : string) : Comparison :=
  comparison name NO_CONTRACT_RATE (Some 50%float) None.
Definition missing_price (name : string) : Comparison :=
  comparison name MISSING_PRICE None (Some 100%float).

(** Two price anomalies and nothing else. *)
Definition anomalies : list Comparison :=
  [out_of_range "Pens (Box)"; out_of_range "Staples Pack"].

(** An item without rate history, a price anomaly and a soft deviation. *)
Definition mixed : list Comparison :=
  [no_rate "Desk Lamp"; out_of_range "Pens (Box)";
   outside_range "Staples Pack"].

(** The same item twice, its price unreadable both times. *)
Definition repeated : list Comparison :=
  [missing_price "Pens (Box)"; missing_price "Pens (Box)"].

Definition vendor (mt : MatchType) : VendorMatch :=
  {| canonical_name := match mt with
                       | none => None
                       | _ => Some "Acme Supplies Inc."
                       end;
     match_type := mt;
     confidence := match mt with
                   | exact => 1.0
                   | alias => 0.95
                   | fuzzy => 0.9
                   | fuzzy_low_confidence => 0.7
                   | none => 0.0
                   end |}.

Definition tax_ok : Check :=
  {| chk_status := OK; effective_rate := Some 8.25%float;
     chk_note := "Tax rate 8.25% matches known rate 8.2%." |}.
Definition shipping_ok : Check :=
  {| chk_status := OK; effective_rate := None;
     chk_note := "No shipping charged." |}.

(** A line whose quantity could not be read. *)
Definition unreadable_quantity : LineItem :=
  item "A4 Paper Box" None (Some 20%float) None.


(** Two units at 3.00 with a line total read as zero. *)
Definition zero_total : LineItem :=
  item "Staples Pack" (Some 2%float) (Some 3%float) (Some 0%float).

(** One unit at 10.504 billed 10.00. *)
Definition half_cent : LineItem :=
  item "Fuel surcharge" (Some 1%float) (Some 10.504%float) (Some 10%float).

(** Two units at 3.00 billed 7.00. *)
Definition overbilled : LineItem :=
  item "Staples Pack" (Some 2%float) (Some 3%float) (Some 7%float).

(** The history of ("Acme Supplies Inc.", "A4 Paper Box"). *)
Definition PRICE_HISTORY : list ((string * string) * list PriceRecord) :=
  [(("Acme Supplies Inc.", "A4 Paper Box"),
    [ {| price := 88.72; qty := Some 24%float; invoice := "INV-20250003" |};
      {| price := 24.19; qty := Some 35%float; invoice := "INV-20250011" |};
      {| price := 84.99; qty := Some 29%float; invoice := "INV-20250018" |} ])].

Definition clock : VendorDb.Clock :=
  {| VendorDb.now_load := "2025-03-01T09:00:00+00:00";
     VendorDb.now_record := "2025-03-01T09:00:01+00:00";
     VendorDb.now_save := "2025-03-01T09:00:02+00:00" |}.

Definition invoice (number : option string) : InvoiceData :=
  {| vendor_name := Some "Acme Supplies Inc.";
     invoice_number := number;
     invoice_date := Some "2025-03-01";
     line_items :=
       [item "A4 Paper Box" (Some 24%float) (Some 90%float) (Some 2160%float)];
     subtotal := Some 2160%float;
     tax := Some 178.2%float;
     shipping := None;
     total := Some 2338.2%float;
     warnings := [] |}.

End Sample.

(** ** Concrete surroundings of the pipeline *)

Module Scenario.

Definition lower_ascii (a : ascii) : ascii :=
  let n := nat_of_ascii a in
  if ((65 <=? n) && (n <=? 90))%nat then ascii_of_nat (n + 32) else a.

(** [s.lower()] on ASCII letters. *)
Fixpoint lower (s : string) : string :=
  match s with
  | EmptyString => EmptyString
  | String a rest => String (lower_ascii a) (lower rest)
  end.

(** [s.replace(old, new)] from left to right; [skip] characters of a
    replaced occurrence are still to pass. *)
Fixpoint replace_from (skip : nat) (old new s : string) : string :=
  match s with
  | EmptyString => EmptyString
  | String a rest =>
      match skip with
      | S k => replace_from k old new rest
      | O =>
          if prefix old s
          then (new ++ replace_from (String.length old - 1) old new rest)%string
          else String a (replace_from 0 old new rest)
      end
  end.

Definition replace (s old new : string) : string :=
  if String.eqb old "" then s else replace_from 0 old new s.

(** The regular expression of [normalize_item_name], for texts whose
    white space is ASCII: the text is cut at the leftmost place where
    white space (if any), a hyphen or an en dash, white space (if any) and
    the first three letters of a month follow one another, provided no
    line break comes after. *)
Definition MONTHS : list string :=
  ["jan"; "feb"; "mar"; "apr"; "may"; "jun";
   "jul"; "aug"; "sep"; "oct"; "nov"; "dec"].

Fixpoint skip_spaces (s : string) : string :=
  match s with
  | String a rest => if Demo.is_space a then skip_spaces rest else s
  | EmptyString => EmptyString
  end.

(** What follows a leading hyphen or en dash. *)
Definition after_dash (s : string) : option string :=
  if prefix "-" s then Some (substring 1 (String.length s - 1) s)
  else if prefix "–" s then Some (substring 3 (String.length s - 3) s)
  else None.

Definition has_line_break (s : string) : bool :=
  match String.index 0 (String (ascii_of_nat 10) EmptyString) s with
  | Some _ => true
  | None => false
  end.

Definition context_starts (s : string) : bool :=
  match after_dash (skip_spaces s) with
  | Some rest =>
      existsb (fun m => prefix m (lower (skip_spaces rest))) MONTHS
      && negb (has_line_break rest)
  | None => false
  end.

Fixpoint strip_trailing_context (s : string) : string :=
  if context_starts s then EmptyString
  else
    match s with
    | String a rest => String a (strip_trailing_context rest)
    | EmptyString => EmptyString
    end.

(** A stand-in for [fuzz.ratio]: 100 for equal strings, 0 otherwise. *)
Definition fuzz_ratio (a b : string) : Z :=
  if String.eqb a b then 100%Z else 0%Z.

#[export] Instance library : Txt.Library := {|
  Txt.lower := lower;
  Txt.replace := replace;
  Txt.strip_trailing_context := strip_trailing_context;
  Txt.fuzz_ratio := fuzz_ratio
|}.

(** The first entries of the tables of [vendor_data]. *)
Definition APPROVED_VENDORS : list (string * list string) :=
  [("Acme Supplies Inc.",
    ["acme supplies"; "acme supplies inc"; "acme supplies inc.";
     "acme supply"]);
   ("BrightOffice LLC",
    ["brightoffice llc"; "brightoffice"; "bright office llc";
     "bright office"; "bright-office"])].

Definition ITEM_ALIASES : list (string * string) :=
  [("standing desk rental - nov", "Standing Desk Rental");
   ("standing desk rental", "Standing Desk Rental");
   ("cable mgmt kit", "Cable Management Kit");
   ("cable management kit", "Cable Management Kit");
   ("a4 paper box", "A4 Paper Box")].

Definition SHIPPING_MAX_SEEN : list (string * float) :=
  [("Acme Supplies Inc.", 60%float); ("BrightOffice LLC", 60%float)].

(** No package, no key: the model is never asked. *)
Definition offline : Analyzer.World :=
  {| Analyzer.OPENAI_AVAILABLE := false;
     Analyzer.api_key := "";
     Analyzer.reply := fun _ => Analyzer.Failed "APIConnectionError";
     Analyzer.json_loads := fun _ => Analyzer.JSONDecodeError;
     Analyzer.str_of := fun _ => "";
     Analyzer.elapsed_ms := 0 |}.

(** What a model that plays the invoice down answers. *)
Definition answer : Analyzer.Json :=
  Analyzer.JObj
    [("risk_level", Analyzer.JStr " LOW ");
     ("executive_summary", Analyzer.JStr "Nothing to see – all fine.");
     ("insights",
      Analyzer.JList [Analyzer.JStr "Prices match."; Analyzer.JInt 3;
                      Analyzer.JStr "  "]);
     ("recommended_questions", Analyzer.JList []);
     ("explanation", Analyzer.JNull)].

Definition online : Analyzer.World :=
  {| Analyzer.OPENAI_AVAILABLE := true;
     Analyzer.api_key := "sk-test";
     Analyzer.reply := fun _ => Analyzer.Replied (Some "answer");
     Analyzer.json_loads := fun _ => Analyzer.Parsed answer;
     Analyzer.str_of :=
       fun x => match x with
                | Analyzer.JNull => "None"
                | _ => ""
                end;
     Analyzer.elapsed_ms := 420 |}.

(** The invoice of [Sample], with a second line without description. *)
Definition with_blank_line (number : option string) : InvoiceData :=
  {| vendor_name := vendor_name (Sample.invoice number);
     invoice_number := number;
     invoice_date := invoice_date (Sample.invoice number);
     line_items :=
       line_items (Sample.invoice number)
       ++ [Sample.item "  " (Some 1%float) (Some 5%float) (Some 5%float)];
     subtotal := subtotal (Sample.invoice number);
     tax := tax (Sample.invoice number);
     shipping := shipping (Sample.invoice number);
     total := total (Sample.invoice number);
     warnings := [] |}.

(** The store after the invoice INV-1 of [Sample] was recorded into a
    store without file. *)
Definition learned : VendorDb.Store :=
  VendorDb.record_invoice (rt := Demo.runtime) Sample.clock
    (Sample.invoice (Some "INV-1")) "APPROVED" "Acme Supplies Inc." None.

Definition later : VendorDb.Clock :=
  {| VendorDb.now_load := "2025-04-01T09:00:00+00:00";
     VendorDb.now_record := "2025-04-01T09:00:01+00:00";
     VendorDb.now_save := "2025-04-01T09:00:02+00:00" |}.

(** A line without price. *)
Definition unpriced : LineItem :=
  Sample.item "A4 Paper Box" (Some 1%float) None None.

(** A line of an item without static history. *)
Definition desk_lamp : LineItem :=
  Sample.item "Desk Lamp" (Some 1%float) (Some 50%float) (Some 50%float).

(** A decision that flags a math issue. *)
Definition flagged : Decision :=
  {| d_status := FLAGGED;
     reason_codes := ["MATH_DISCREPANCY"];
     observations := [];
     clarifying_questions := [MATH_QUESTION] |}.

(** The pipeline on the tables above. *)
Definition process_invoice (world : Analyzer.World) (clk : VendorDb.Clock)
    (inv : InvoiceData) (file : VendorDb.Store)
    : Main.ending * VendorDb.Store :=
  Main.process_invoice (rt := Demo.runtime) (tx := library)
    APPROVED_VENDORS ITEM_ALIASES Sample.PRICE_HISTORY SHIPPING_MAX_SEEN
    world clk true None inv file.

End Scenario.


(** ** Tolerances of the math checks *)

(** [abs(x) > tol], the test [check_math] makes. *)
Definition exceeds (tol x : float) : bool := (tol <? abs x)%float.

(** [abs(x) <= tol].  On a NaN both [exceeds] and [within] are false. *)
Definition within (tol x : float) : bool := (abs x <=? tol)%float.

(** The deviation each check of [check_math] looks at, [None] where the
    check is skipped: the rounded product less the line total of a line
    whose three numbers are present and non-zero, the sum of the line
    totals less the subtotal, and subtotal + tax + shipping less the
    total. *)
Definition line_deviation {rt : Py.Runtime} (item : LineItem) : option float :=
  match quantity item, unit_price item, line_total item with
  | Some q, Some p, Some t =>
      if line_checked item then Some (line_expected q p - t)%float else None
  | _, _, _ => None
  end.

Definition subtotal_deviation {rt : Py.Runtime} (line_items : list LineItem)
    (subtotal : option float) : option float :=
  match subtotal with
  | Some st => Some (line_sum line_items - st)%float
  | None => None
  end.

Definition total_deviation (subtotal tax shipping total : option float)
    : option float :=
  match total, subtotal with
  | Some t, Some st => Some (expected_total st tax shipping - t)%float
  | _, _ => None
  end.

(** The check is skipped or its deviation is not above the tolerance. *)
Definition not_above (tol : float) (deviation : option float) : bool :=
  match deviation with
  | Some x => negb (exceeds tol x)
  | None => true
  end.

(** The check is skipped or its deviation is within the tolerance. *)
Definition within_tolerance (tol : float) (deviation : option float) : bool :=
  match deviation with
  | Some x => within tol x
  | None => true
  end.

(** The check is skipped or its deviation is a number (not NaN). *)
Definition is_number (deviation : option float) : bool :=
  match deviation with
  | Some x => negb (is_nan x)
  | None => true
  end.

(** The line is not checked, or its rounded product is within 0.50 of the
    line total. *)
Definition line_within {rt : Py.Runtime} (item : LineItem) : bool :=
  within_tolerance 0.50 (line_deviation item).

(** No subtotal, or the line totals sum to within 1.00 of it. *)
Definition subtotal_within {rt : Py.Runtime} (line_items : list LineItem)
    (subtotal : option float) : bool :=
  within_tolerance 1.00 (subtotal_deviation line_items subtotal).

(** No total or no subtotal, or subtotal + tax + shipping is within 1.00 of
    the total. *)
Definition total_within (subtotal tax shipping total : option float) : bool :=
  within_tolerance 1.00 (total_deviation subtotal tax shipping total).

(** ** What each step of [decide] contributes *)

Definition vendor_flags (vm : VendorMatch) : list string :=
  match match_type vm with
  | none => ["VENDOR_NOT_IN_APPROVED_LIST"]
  | fuzzy_low_confidence => ["VENDOR_LOW_CONFIDENCE_MATCH"]
  | _ => []
  end.

Definition no_rate_flags (vm : VendorMatch) (items_no_rate : list Comparison)
    : list string :=
  match items_no_rate with
  | [] => []
  | _ =>
      match match_type vm with
      | none => ["VENDOR_NOT_IN_APPROVED_LIST"]
      | _ => [("NEW_ITEMS_NO_RATE_HISTORY:"
               ++ Py.join ", " (map canonical_item items_no_rate))%string]
      end
  end.

Definition anomaly_flags (items_out_of_range : list Comparison) : list string :=
  map (fun c => ("PRICE_ANOMALY:" ++ canonical_item c)%string) items_out_of_range.

Definition outside_flags (items_outside_range : list Comparison) : list string :=
  map (fun c => ("PRICE_OUTSIDE_RANGE:" ++ canonical_item c)%string)
      items_outside_range.

Definition math_flags (math_issues : list string) : list string :=
  match math_issues with
  | [] => []
  | _ => ["MATH_DISCREPANCY"]
  end.

Definition extraction_flags (extraction_warnings : list string) : list string :=
  match filter (fun w => str_in w CRITICAL_WARNINGS) extraction_warnings with
  | [] => []
  | critical => [("EXTRACTION_FAILURE:" ++ Py.join ", " critical)%string]
  end.

(** All reason codes in the order [decide] appends them. *)
Definition all_flags (vm : VendorMatch) (comps : list Comparison)
    (math_issues extraction_warnings : list string) : list string :=
  vendor_flags vm
  ++ missing_price_flags comps
  ++ no_rate_flags vm (with_status NO_CONTRACT_RATE comps)
  ++ anomaly_flags (with_status OUT_OF_RANGE comps)
  ++ outside_flags (with_status OUTSIDE_RANGE comps)
  ++ math_flags math_issues
  ++ extraction_flags extraction_warnings.

(** The number of questions asked before the pattern detection: the vendor
    gate, the missing rate history and the price anomalies ask one each. *)
Definition earlier_questions (vm : VendorMatch) (comps : list Comparison) : nat :=
  (match match_type vm with
   | none | fuzzy_low_confidence => 1
   | _ => 0
   end
   + (match with_status NO_CONTRACT_RATE comps with [] => 0 | _ => 1 end)
   + (match with_status OUT_OF_RANGE comps with [] => 0 | _ => 1 end))%nat.

(** The first seven characters of a reason code tell its kind. *)
Definition kind (code : string) : string := substring 0 7 code.

(** ** Views of the learning store *)

(** The number of price points on file, all keys together. *)
Definition total_points {V : Type} (d : list (string * list V)) : nat :=
  list_sum (map (fun kv => List.length (snd kv)) d).

(** The points on file under a key ([[]] for a key not on file). *)
Definition points_of {V : Type} (k : string) (d : list (string * list V))
    : list V :=
  match VendorDb.dict_get k d with
  | Some l => l
  | None => []
  end.

(** The line is recorded: its stripped description is not empty. *)
Definition recorded {rt : Py.Runtime} (item : LineItem) : bool :=
  negb (String.eqb (Py.strip (description item)) "").

(** The prices on file for (vendor, item), oldest first. *)
Definition prices_on_file (vendor_name item_name : string)
    (file : VendorDb.Store) (clk : VendorDb.Clock) : list float :=
  present (map VendorDb.p_unit_price
             (points_of (vendor_name ++ "|" ++ item_name)%string
                (VendorDb.price_history (VendorDb._load_db clk file)))).

(** ** The state of the fuzzy loop of [match_vendor] *)

(** What the fuzzy loop keeps: either nothing scored above zero and there
    is no best match, or the best score is positive and the best match is
    an approved vendor. *)
Definition fuzzy_state_ok (APPROVED_VENDORS : list (string * list string))
    (best : Z * option string) : Prop :=
  (fst best = 0%Z /\ snd best = None)
  \/ ((0 < fst best)%Z
      /\ exists c, snd best = Some c /\ In c (map fst APPROVED_VENDORS)).

(** ** Well-formed comparisons *)

(** A comparison [decide] can put into words: an [OUT_OF_RANGE] item
    carries its price and the contracted average, an [OUTSIDE_RANGE] item
    its price.  Formatting a missing number raises [TypeError]. *)
Definition printable (c : Comparison) : bool :=
  match status c with
  | OUT_OF_RANGE =>
      match invoice_unit_price c, contracted_avg c with
      | Some _, Some _ => true
      | _, _ => false
      end
  | OUTSIDE_RANGE =>
      match invoice_unit_price c with
      | Some _ => true
      | None => false
      end
  | _ => true
  end.

(** ** Results about the error monad and the helpers *)

Lemma bind_ok {A B : Type} (m : Py.result A) (k : A -> Py.result B) (b : B) :
  Py.bind m k = Py.Ok b -> exists a, m = Py.Ok a /\ k a = Py.Ok b.
Proof.
  destruct m as [a | e]; simpl; intros H.
  - exists a. split; [reflexivity | exact H].
  - discriminate H.
Qed.

Lemma mapM_total {A B : Type} (f : A -> Py.result B) (l : list A) :
  (forall x, In x l -> exists y, f x = Py.Ok y) ->
  exists ys, Py.mapM f l = Py.Ok ys.
Proof.
  induction l as [| x xs IH]; intros Hall.
  - exists []. reflexivity.
  - destruct (Hall x (or_introl eq_refl)) as [y Hy].
    destruct IH as [ys Hys].
    + intros z Hz. apply Hall. right. exact Hz.
    + exists (y :: ys). simpl. rewrite Hy. simpl. rewrite Hys. reflexivity.
Qed.

Lemma LineStatus_eqb_eq (a b : LineStatus) :
  LineStatus_eqb a b = true <-> a = b.
Proof.
  destruct a, b; simpl; split; intros H; try reflexivity; discriminate H.
Qed.

Lemma with_status_In (st : LineStatus) (comps : list Comparison) (c : Comparison) :
  In c (with_status st comps) <-> In c comps /\ status c = st.
Proof.
  unfold with_status. rewrite filter_In, LineStatus_eqb_eq. reflexivity.
Qed.

Lemma len_zero_iff {A : Type} (l : list A) : (len l =? 0)%Z = true <-> l = [].
Proof.
  unfold len. destruct l; simpl; split; intros H;
    try reflexivity; try discriminate H.
Qed.

Section DecisionFacts.

Context {rt : Py.Runtime}.

Lemma anomaly_detail_total (c : Comparison) :
  printable c = true -> status c = OUT_OF_RANGE ->
  exists s, anomaly_detail c = Py.Ok s.
Proof.
  unfold printable, anomaly_detail. intros Hp Hs. rewrite Hs in Hp.
  destruct (invoice_unit_price c); [| discriminate Hp].
  destruct (contracted_avg c); [| discriminate Hp].
  simpl. eexists. reflexivity.
Qed.

Lemma outside_detail_total (c : Comparison) :
  printable c = true -> status c = OUTSIDE_RANGE ->
  exists s, outside_detail c = Py.Ok s.
Proof.
  unfold printable, outside_detail. intros Hp Hs. rewrite Hs in Hp.
  destruct (invoice_unit_price c); [| discriminate Hp].
  simpl. eexists. reflexivity.
Qed.

Lemma details_total (comps : list Comparison) :
  forallb printable comps = true ->
  (exists ds, Py.mapM anomaly_detail (with_status OUT_OF_RANGE comps) = Py.Ok ds)
  /\ (exists ds, Py.mapM outside_detail (with_status OUTSIDE_RANGE comps) = Py.Ok ds).
Proof.
  intros Hall. rewrite forallb_forall in Hall. split; apply mapM_total;
    intros c Hc; apply with_status_In in Hc; destruct Hc as [Hin Hst].
  - apply anomaly_detail_total; [apply Hall; exact Hin | exact Hst].
  - apply outside_detail_total; [apply Hall; exact Hin | exact Hst].
Qed.

(** [decide] gathers its three lists without raising on printable
    comparisons. *)
Lemma gather_total (vm : VendorMatch) (comps : list Comparison)
    (math_issues : list string) (tc sc : Check) (ws : list string) :
  forallb printable comps = true ->
  exists a, gather vm comps math_issues tc sc ws = Py.Ok a.
Proof.
  intros Hall. destruct (details_total comps Hall) as [[ds1 H1] [ds2 H2]].
  unfold gather, out_of_range_check, outside_range_check.
  destruct (with_status OUT_OF_RANGE comps) as [| c1 l1];
    destruct (with_status OUTSIDE_RANGE comps) as [| c2 l2];
    cbv beta iota zeta; rewrite ?H1; cbv beta iota delta [Py.bind];
    rewrite ?H2; eexists; reflexivity.
Qed.

Lemma decide_total (vm : VendorMatch) (comps : list Comparison)
    (math_issues : list string) (tc sc : Check) (ws : list string) :
  forallb printable comps = true ->
  exists d, decide vm comps math_issues tc sc ws = Py.Ok d.
Proof.
  intros Hall.
  destruct (gather_total vm comps math_issues tc sc ws Hall) as [a Ha].
  unfold decide. rewrite Ha. simpl. eexists. reflexivity.
Qed.

Lemma decide_inv (vm : VendorMatch) (comps : list Comparison)
    (math_issues : list string) (tc sc : Check) (ws : list string)
    (d : Decision) :
  decide vm comps math_issues tc sc ws = Py.Ok d ->
  exists a,
    gather vm comps math_issues tc sc ws = Py.Ok a
    /\ d_status d = (if (len (flags a) =? 0)%Z then APPROVED else FLAGGED)
    /\ reason_codes d = flags a
    /\ observations d = notes a
    /\ clarifying_questions d =
         firstn 3 (match questions a with
                   | [] => [DEFAULT_QUESTION]
                   | qs => qs
                   end).
Proof.
  unfold decide. intros H. apply bind_ok in H. destruct H as [a [Ha Hd]].
  exists a. injection Hd as <-. simpl. repeat split; try reflexivity. exact Ha.
Qed.

End DecisionFacts.

(** ** The decision record *)

Section DecisionRecord.

Context {rt : Py.Runtime}.

(** C1: for every combination of signals on which [decide] returns (that is,
    whenever the comparisons are printable), the record's status is FLAGGED
    exactly when its reason codes are non-empty, and APPROVED exactly when
    no reason code was accumulated. *)
Theorem decide_flagged_iff_reason_codes (vm : VendorMatch)
    (comps : list Comparison) (math_issues : list string) (tc sc : Check)
    (ws : list string) :
  forallb printable comps = true ->
  exists d,
    decide vm comps math_issues tc sc ws = Py.Ok d
    /\ (d_status d = FLAGGED <-> reason_codes d <> [])
    /\ (d_status d = APPROVED <-> reason_codes d = []).
Proof.
  intros Hall.
  destruct (decide_total vm comps math_issues tc sc ws Hall) as [d Hd].
  exists d. split; [exact Hd |].
  destruct (decide_inv _ _ _ _ _ _ _ Hd) as [a [_ [Hst [Hrc _]]]].
  rewrite Hst, Hrc.
  destruct (len (flags a) =? 0)%Z eqn:E.
  - apply len_zero_iff in E. rewrite E. split; split; intros H;
      try reflexivity; try discriminate H. exfalso. apply H. reflexivity.
  - assert (Hne : flags a <> []).
    { intros Hnil. apply len_zero_iff in Hnil. congruence. }
    split; split; intros H; try reflexivity; try exact Hne;
      try discriminate H. exfalso. apply Hne. exact H.
Qed.

(** C2: for every combination of signals on which [decide] returns, the
    record carries between one and three clarifying questions: the default
    sanity-check question alone when no step generated one, otherwise the
    first three generated questions in generation order. *)
Theorem decide_questions_between_1_and_3 (vm : VendorMatch)
    (comps : list Comparison) (math_issues : list string) (tc sc : Check)
    (ws : list string) :
  forallb printable comps = true ->
  exists d a,
    decide vm comps math_issues tc sc ws = Py.Ok d
    /\ gather vm comps math_issues tc sc ws = Py.Ok a
    /\ (1 <= List.length (clarifying_questions d) <= 3)%nat
    /\ (questions a = [] -> clarifying_questions d = [DEFAULT_QUESTION])
    /\ (questions a <> [] -> clarifying_questions d = firstn 3 (questions a)).
Proof.
  intros Hall.
  destruct (decide_total vm comps math_issues tc sc ws Hall) as [d Hd].
  destruct (decide_inv _ _ _ _ _ _ _ Hd) as [a [Ha [_ [_ [_ Hq]]]]].
  exists d, a. split; [exact Hd |]. split; [exact Ha |].
  rewrite Hq. destruct (questions a) as [| q qs].
  - simpl. repeat split; try lia. intros H. exfalso. apply H. reflexivity.
  - split; [| split; [intros H; discriminate H | reflexivity]].
    split.
    + simpl. lia.
    + apply firstn_le_length.
Qed.

End DecisionRecord.

(** An invoice with one price anomaly is flagged with one reason code. *)
Lemma decide_flagged_iff_reason_codes_witness :
  forallb printable [Sample.out_of_range "Pens (Box)"] = true
  /\ exists d,
       decide (rt := Demo.runtime) (Sample.vendor exact)
         [Sample.out_of_range "Pens (Box)"] [] Sample.tax_ok
         Sample.shipping_ok [] = Py.Ok d
       /\ (d_status d = FLAGGED <-> reason_codes d <> [])
       /\ (d_status d = APPROVED <-> reason_codes d = []).
Proof.
  split; [reflexivity |].
  apply (decide_flagged_iff_reason_codes (rt := Demo.runtime)). reflexivity.
Defined.

(** The all-clear invoice still carries one question. *)
Lemma decide_questions_between_1_and_3_witness :
  forallb printable [Sample.in_range "Pens (Box)"] = true
  /\ exists d a,
       decide (rt := Demo.runtime) (Sample.vendor exact)
         [Sample.in_range "Pens (Box)"] [] Sample.tax_ok
         Sample.shipping_ok [] = Py.Ok d
       /\ gather (rt := Demo.runtime) (Sample.vendor exact)
            [Sample.in_range "Pens (Box)"] [] Sample.tax_ok
            Sample.shipping_ok [] = Py.Ok a
       /\ (1 <= List.length (clarifying_questions d) <= 3)%nat
       /\ (questions a = [] -> clarifying_questions d = [DEFAULT_QUESTION])
       /\ (questions a <> [] -> clarifying_questions d = firstn 3 (questions a)).
Proof.
  split; [reflexivity |].
  apply (decide_questions_between_1_and_3 (rt := Demo.runtime)). reflexivity.
Defined.

(** ** Range evaluation *)

Section RangeEvaluation.

Context {rt : Py.Runtime}.
Variable normalize_item_name : string -> string.



Lemma evaluate_price_gate (item : LineItem) (name : string)
    (rd : RateData) (src : string) (p q : float) (w : Window) :
  price_window rd q = Py.Ok w ->
  within_window w p = false ->
  ratio_gate w p = true ->
  exists c, evaluate_price item name rd src p q = Py.Ok c
            /\ status c = OUT_OF_RANGE.
Proof.
  intros Hw Hin Hg. unfold evaluate_price. rewrite Hw. simpl Py.bind.
  rewrite Hin, Hg.
  destruct (MAX_PRICE_RATIO_HIGH <? price_ratio w p)%float;
    eexists; split; reflexivity.
Qed.




End RangeEvaluation.



(** ** Quantity adjustment *)

Section QuantityAdjustment.

Context {rt : Py.Runtime}.

(** An absent or zero quantity reaches the adjuster as the number 1, so
    the adjuster never sees a false [invoice_qty] from [compare_line_items]. *)
Lemma absent_quantity_is_one (item : LineItem) :
  Py.truthy (quantity item) = false ->
  Py.or_else (quantity item) 1 = 1%float.
Proof.
  unfold Py.truthy, Py.or_else. destruct (quantity item) as [q |].
  - destruct (q =? 0)%float; [reflexivity | discriminate].
  - reflexivity.
Qed.

(** C4 (the code at the failing input): a line of "A4 Paper Box" without a
    quantity, priced 20.00, is compared as an order of one unit against an
    average quantity of 29.33, so the adjustment factor is 2.0 and not 1.0;
    the adjusted minimum doubles and the item is OUT_OF_RANGE, although
    20.00 lies inside the unadjusted buffered range. *)
Theorem absent_quantity_is_adjusted (normalize_item_name : string -> string)
    (vendor : string) :
  Py.log2 0.1 = Py.Ok (-3.321928094887362)%float ->
  exists w c,
    price_window Sample.a4_rate
      (Py.or_else (quantity Sample.unreadable_quantity) 1) = Py.Ok w
    /\ qty_factor w = 2%float
    /\ (qty_factor w =? 1.0)%float = false
    /\ classify_item normalize_item_name vendor Sample.unreadable_quantity
         (Some Sample.a4_rate) "historical" = Py.Ok c
    /\ status c = OUT_OF_RANGE
    /\ ((rd_min Sample.a4_rate * (1 - sample_buffer w) <=? 20)
        && (20 <=? rd_max Sample.a4_rate * (1 + sample_buffer w)))%float
       = true.
Proof.
  intros Hlog.
  assert (Hq : _quantity_adjustment_factor 1 29.33 = Py.Ok 2%float).
  { unfold _quantity_adjustment_factor.
    replace (Py.max (1 / 29.33) 0.1)%float with 0.1%float by reflexivity.
    rewrite Hlog. reflexivity. }
  pose (sb := (PRICE_RANGE_BUFFER + Py.max 0 (Py.of_Z (5 - 3) * 0.10))%float).
  pose (w0 := {| sample_buffer := sb;
                 qty_factor := 2;
                 adjusted_min := 24.19 * (1 - sb) * 2;
                 adjusted_max := 88.72 * (1 + sb) * Py.max 2 1.0;
                 adjusted_avg := 65.97 * 2 |}).
  assert (Hw : price_window Sample.a4_rate
                 (Py.or_else (quantity Sample.unreadable_quantity) 1)
               = Py.Ok w0).
  { unfold price_window.
    change (Py.or_else (quantity Sample.unreadable_quantity) 1) with 1%float.
    change (rd_avg_qty Sample.a4_rate) with 29.33%float.
    rewrite Hq. reflexivity. }
  destruct (evaluate_price_gate Sample.unreadable_quantity
              (normalize_item_name (description Sample.unreadable_quantity))
              Sample.a4_rate "historical" 20 _ w0 Hw eq_refl eq_refl)
    as [c [Hc Hst]].
  exists w0, c. repeat split; try reflexivity; assumption.
Qed.

End QuantityAdjustment.

(** With the logarithm of the demonstration runtime the unreadable
    quantity doubles the expected price. *)
Lemma absent_quantity_is_adjusted_witness :
  Py.log2 (Runtime := Demo.runtime) 0.1 = Py.Ok (-3.321928094887362)%float
  /\ exists w c,
       price_window (rt := Demo.runtime) Sample.a4_rate
         (Py.or_else (quantity Sample.unreadable_quantity) 1) = Py.Ok w
       /\ qty_factor w = 2%float
       /\ (qty_factor w =? 1.0)%float = false
       /\ classify_item (rt := Demo.runtime) (fun s => s) "Acme Supplies Inc."
            Sample.unreadable_quantity (Some Sample.a4_rate) "historical"
          = Py.Ok c
       /\ status c = OUT_OF_RANGE
       /\ ((rd_min Sample.a4_rate * (1 - sample_buffer w) <=? 20)
           && (20 <=? rd_max Sample.a4_rate * (1 + sample_buffer w)))%float
          = true.
Proof.
  split; [reflexivity |].
  apply (absent_quantity_is_adjusted (rt := Demo.runtime)). reflexivity.
Defined.

(** ** The learning store *)

Lemma opt_str_eqb_refl (x : option string) : opt_str_eqb x x = true.
Proof.
  destruct x as [s |]; simpl; [apply String.eqb_refl | reflexivity].
Qed.

Section LearningStore.

Context {rt : Py.Runtime}.

Import VendorDb.

(** A number already on file makes the duplicate test succeed. *)
Lemma recorded_number_is_found (id : option string) (entries : list InvoiceEntry)
    (e : InvoiceEntry) :
  e_invoice_number e = id ->
  existsb (opt_str_eqb id) (map e_invoice_number (entries ++ [e])) = true.
Proof.
  intros He. rewrite map_app, existsb_app. simpl.
  rewrite He, opt_str_eqb_refl. rewrite orb_true_r. reflexivity.
Qed.

(** The outcome of an APPROVED call: nothing when the invoice number is on
    file, otherwise a saved document with one more invoice entry. *)
Lemma record_invoice_approved (clk : Clock) (inv : InvoiceData)
    (vendor : string) (file : Store) :
  (record_invoice clk inv "APPROVED" vendor file = file
   /\ existsb (opt_str_eqb (invoice_number inv))
        (map e_invoice_number (invoices (_load_db clk file))) = true)
  \/ (exists db e,
        record_invoice clk inv "APPROVED" vendor file = Some db
        /\ invoices db = invoices (_load_db clk file) ++ [e]
        /\ e_invoice_number e = invoice_number inv
        /\ existsb (opt_str_eqb (invoice_number inv))
             (map e_invoice_number (invoices (_load_db clk file))) = false).
Proof.
  unfold record_invoice. simpl negb. cbv iota.
  destruct (existsb (opt_str_eqb (invoice_number inv))
              (map e_invoice_number (invoices (_load_db clk file)))) eqn:E.
  - left. split; reflexivity.
  - right. unfold _save_db. eexists. eexists.
    split; [reflexivity |]. simpl. repeat split; reflexivity.
Qed.

(** C8: a second APPROVED call with the same invoice number (whatever the
    rest of the payload, the vendor and the time) leaves the store exactly
    as the first call left it: no invoice entry and no price point is
    added. *)
Theorem record_invoice_idempotent (clk1 clk2 : Clock) (inv1 inv2 : InvoiceData)
    (vendor1 vendor2 : string) (file : Store) :
  invoice_number inv2 = invoice_number inv1 ->
  record_invoice clk2 inv2 "APPROVED" vendor2
    (record_invoice clk1 inv1 "APPROVED" vendor1 file)
  = record_invoice clk1 inv1 "APPROVED" vendor1 file.
Proof.
  intros Hnum.
  destruct (record_invoice_approved clk1 inv1 vendor1 file)
    as [[Hsame Hdup] | (db & e & Hnew & Hinv & He & _)].
  - rewrite Hsame. destruct file as [db |].
    + destruct (record_invoice_approved clk2 inv2 vendor2 (Some db))
        as [[H2 _] | (db' & e' & _ & _ & _ & Hfresh)]; [exact H2 |].
      rewrite Hnum in Hfresh. simpl in Hdup, Hfresh. congruence.
    + simpl in Hdup. discriminate Hdup.
  - rewrite Hnew.
    destruct (record_invoice_approved clk2 inv2 vendor2 (Some db))
      as [[H2 _] | (db' & e' & _ & _ & _ & Hfresh)]; [exact H2 |].
    simpl in Hfresh. rewrite Hinv, Hnum in Hfresh.
    rewrite (recorded_number_is_found _ _ e He) in Hfresh.
    discriminate Hfresh.
Qed.

(** C9: with any decision status other than APPROVED the call returns
    before it reads the file: the store is unchanged. *)
Theorem record_invoice_not_approved (clk : Clock) (inv : InvoiceData)
    (decision_status vendor : string) (file : Store) :
  decision_status <> "APPROVED" ->
  record_invoice clk inv decision_status vendor file = file.
Proof.
  intros Hne. unfold record_invoice.
  destruct (String.eqb decision_status "APPROVED") eqn:E.
  - apply String.eqb_eq in E. contradiction.
  - reflexivity.
Qed.

End LearningStore.

(** Recording invoice INV-1 twice into an empty store. *)
Lemma record_invoice_idempotent_witness :
  invoice_number (Sample.invoice (Some "INV-1"))
  = invoice_number (Sample.invoice (Some "INV-1"))
  /\ VendorDb.record_invoice (rt := Demo.runtime) Sample.clock
       (Sample.invoice (Some "INV-1")) "APPROVED" "Acme Supplies Inc."
       (VendorDb.record_invoice (rt := Demo.runtime) Sample.clock
          (Sample.invoice (Some "INV-1")) "APPROVED" "Acme Supplies Inc." None)
     = VendorDb.record_invoice (rt := Demo.runtime) Sample.clock
         (Sample.invoice (Some "INV-1")) "APPROVED" "Acme Supplies Inc." None.
Proof.
  split; [reflexivity |].
  apply (record_invoice_idempotent (rt := Demo.runtime)). reflexivity.
Defined.

(** A FLAGGED invoice leaves an empty store empty. *)
Lemma record_invoice_not_approved_witness :
  status_name FLAGGED <> "APPROVED"
  /\ VendorDb.record_invoice (rt := Demo.runtime) Sample.clock
       (Sample.invoice (Some "INV-1")) (status_name FLAGGED)
       "Acme Supplies Inc." None
     = None.
Proof.
  split; [discriminate |].
  apply (record_invoice_not_approved (rt := Demo.runtime)). discriminate.
Defined.

(** ** Math and tax checks *)

(** Comparing in the other order gives the opposite answer. *)
Lemma SFcompare_antisym (a b : spec_float) :
  SFcompare b a = option_map CompOpp (SFcompare a b).
Proof.
  destruct a as [sa | sa | | sa ma ea], b as [sb | sb | | sb mb eb];
    try destruct sa; try destruct sb; try reflexivity; simpl.
  - rewrite (Z.compare_antisym eb ea).
    destruct (eb ?= ea)%Z; simpl; try reflexivity.
    rewrite (Pos.compare_cont_antisym ma mb Eq).
    reflexivity.
  - rewrite (Z.compare_antisym eb ea).
    destruct (eb ?= ea)%Z; simpl; try reflexivity.
    rewrite (Pos.compare_cont_antisym ma mb Eq). simpl.
    reflexivity.
Qed.

Lemma is_nan_false_spec (x : float) :
  is_nan x = false -> Prim2SF x <> S754_nan.
Proof.
  unfold is_nan. rewrite FloatAxioms.eqb_spec. unfold SFeqb.
  intros H E. rewrite E in H. discriminate H.
Qed.

(** For numbers, [not (abs x > tol)] is [abs x <= tol]. *)
Lemma float_not_above_iff_within (tol x : float) :
  is_nan tol = false -> is_nan x = false ->
  negb (tol <? abs x)%float = (abs x <=? tol)%float.
Proof.
  intros Ht Hx. apply is_nan_false_spec in Ht, Hx.
  rewrite FloatAxioms.ltb_spec, FloatAxioms.leb_spec.
  unfold SFltb, SFleb. rewrite (SFcompare_antisym (Prim2SF tol)).
  rewrite FloatAxioms.abs_spec.
  destruct (Prim2SF tol) as [st | st | | st mt et];
    destruct (Prim2SF x) as [sx | sx | | sx mx ex];
    try congruence; simpl; try destruct st; try reflexivity.
  all: try (destruct (et ?= ex)%Z; try reflexivity).
  all: destruct (Pos.compare_cont Eq mt mx); reflexivity.
Qed.

Lemma float_within_not_above (tol x : float) :
  (abs x <=? tol)%float = true -> (tol <? abs x)%float = false.
Proof.
  rewrite FloatAxioms.ltb_spec, FloatAxioms.leb_spec.
  unfold SFltb, SFleb. rewrite (SFcompare_antisym (Prim2SF tol)).
  destruct (SFcompare (Prim2SF tol) (Prim2SF (abs x))) as [[| |] |];
    simpl; intros H; try reflexivity; discriminate H.
Qed.

Section PolicyChecks.

Context {rt : Py.Runtime}.

Lemma line_issue_nil_iff (item : LineItem) :
  line_issue item = [] <-> not_above 0.50 (line_deviation item) = true.
Proof.
  unfold line_issue, line_deviation, not_above, exceeds.
  destruct (quantity item) as [q |]; [| split; reflexivity].
  destruct (unit_price item) as [p |]; [| split; reflexivity].
  destruct (line_total item) as [t |]; [| split; reflexivity].
  destruct (line_checked item); simpl; [| split; reflexivity].
  destruct (0.50 <? abs (line_expected q p - t))%float; simpl;
    split; intros H; try reflexivity; discriminate H.
Qed.

Lemma subtotal_issue_nil_iff (line_items : list LineItem)
    (subtotal : option float) :
  subtotal_issue line_items subtotal = []
  <-> not_above 1.00 (subtotal_deviation line_items subtotal) = true.
Proof.
  unfold subtotal_issue, subtotal_deviation, not_above, exceeds.
  destruct subtotal as [st |]; [| split; reflexivity].
  destruct (1.00 <? abs (line_sum line_items - st))%float; simpl;
    split; intros H; try reflexivity; discriminate H.
Qed.

Lemma total_issue_nil_iff (subtotal tax shipping total : option float) :
  total_issue subtotal tax shipping total = []
  <-> not_above 1.00 (total_deviation subtotal tax shipping total) = true.
Proof.
  unfold total_issue, total_deviation, not_above, exceeds.
  destruct total as [t |]; [| split; reflexivity].
  destruct subtotal as [st |]; [| split; reflexivity].
  destruct (1.00 <? abs (expected_total st tax shipping - t))%float; simpl;
    split; intros H; try reflexivity; discriminate H.
Qed.

(** A deviation within the tolerance is not above it; for a deviation
    that is a number the two are the same. *)
Lemma within_not_above (tol : float) (d : option float) :
  within_tolerance tol d = true -> not_above tol d = true.
Proof.
  destruct d as [x |]; [| reflexivity]. unfold within_tolerance, not_above.
  intros H. unfold exceeds. rewrite (float_within_not_above tol x H).
  reflexivity.
Qed.

Lemma not_above_within (tol : float) (d : option float) :
  is_nan tol = false -> is_number d = true ->
  not_above tol d = true -> within_tolerance tol d = true.
Proof.
  destruct d as [x |]; [| intros; reflexivity].
  unfold is_number, not_above, within_tolerance, exceeds, within.
  intros Ht Hx H. apply negb_true_iff in Hx.
  rewrite <- (float_not_above_iff_within tol x Ht Hx). exact H.
Qed.

Lemma flat_map_nil_iff {A B : Type} (f : A -> list B) (l : list A) :
  flat_map f l = [] <-> forall x, In x l -> f x = [].
Proof.
  induction l as [| a l IH]; simpl.
  - split; [intros _ x [] | reflexivity].
  - split.
    + intros H. apply app_eq_nil in H. destruct H as [Ha Hl].
      intros x [<- | Hx]; [exact Ha | apply IH; assumption].
    + intros H. rewrite (H a (or_introl eq_refl)).
      apply IH. intros x Hx. apply H. right. exact Hx.
Qed.

(** C6 (amended): a line whose quantity, unit price and line total are all
    present and non-zero, and whose product rounded to cents differs from
    the line total by more than 0.50, gets a line-math issue.  The
    returned list is empty exactly when no check finds its deviation above
    its tolerance: 0.50 for such a line, 1.00 for the subtotal (if
    present) against the sum of the line totals, 1.00 for the total (if
    present together with the subtotal) against subtotal + tax + shipping.
    A deviation that is NaN is never above a tolerance and never within
    it.  So the list is empty whenever every deviation is within its
    tolerance, and, when the deviations are numbers, only then. *)
Theorem check_math_reports_checked_lines (line_items : list LineItem)
    (subtotal tax shipping total : option float) :
  (forall item q p t,
     In item line_items ->
     quantity item = Some q -> unit_price item = Some p ->
     line_total item = Some t ->
     line_checked item = true ->
     exceeds 0.50 (line_expected q p - t) = true ->
     exists msg,
       line_issue item = [msg]
       /\ In msg (check_math line_items subtotal tax shipping total))
  /\ (check_math line_items subtotal tax shipping total = []
      <-> (forall item, In item line_items ->
                        not_above 0.50 (line_deviation item) = true)
          /\ not_above 1.00 (subtotal_deviation line_items subtotal) = true
          /\ not_above 1.00
               (total_deviation subtotal tax shipping total) = true)
  /\ ((forall item, In item line_items -> line_within item = true)
      /\ subtotal_within line_items subtotal = true
      /\ total_within subtotal tax shipping total = true ->
      check_math line_items subtotal tax shipping total = [])
  /\ ((forall item, In item line_items ->
                    is_number (line_deviation item) = true) ->
      is_number (subtotal_deviation line_items subtotal) = true ->
      is_number (total_deviation subtotal tax shipping total) = true ->
      check_math line_items subtotal tax shipping total = [] ->
      (forall item, In item line_items -> line_within item = true)
      /\ subtotal_within line_items subtotal = true
      /\ total_within subtotal tax shipping total = true).
Proof.
  assert (Hiff : check_math line_items subtotal tax shipping total = []
                 <-> (forall item, In item line_items ->
                                   not_above 0.50 (line_deviation item) = true)
                     /\ not_above 1.00
                          (subtotal_deviation line_items subtotal) = true
                     /\ not_above 1.00
                          (total_deviation subtotal tax shipping total)
                        = true).
  { unfold check_math. split.
    - intros H. apply app_eq_nil in H. destruct H as [H1 H].
      apply app_eq_nil in H. destruct H as [H2 H3].
      split; [| split].
      + intros item Hin. apply line_issue_nil_iff.
        apply (proj1 (flat_map_nil_iff line_issue line_items) H1 item Hin).
      + apply subtotal_issue_nil_iff. exact H2.
      + apply total_issue_nil_iff. exact H3.
    - intros [H1 [H2 H3]].
      apply subtotal_issue_nil_iff in H2. apply total_issue_nil_iff in H3.
      rewrite H2, H3, !app_nil_r.
      apply flat_map_nil_iff. intros item Hin.
      apply line_issue_nil_iff. apply H1. exact Hin. }
  split; [| split; [exact Hiff | split]].
  - intros item q p t Hin Hq Hp Ht Hc Hx.
    assert (Hmsg : exists msg, line_issue item = [msg]).
    { unfold line_issue. rewrite Hq, Hp, Ht, Hc.
      unfold exceeds in Hx. rewrite Hx. eexists. reflexivity. }
    destruct Hmsg as [msg Hmsg]. exists msg. split; [exact Hmsg |].
    unfold check_math. apply in_or_app. left.
    apply in_flat_map. exists item. split; [exact Hin |].
    rewrite Hmsg. left. reflexivity.
  - intros [H1 [H2 H3]]. apply Hiff. split; [| split].
    + intros item Hin. apply within_not_above. exact (H1 item Hin).
    + apply within_not_above. exact H2.
    + apply within_not_above. exact H3.
  - intros N1 N2 N3 H. apply Hiff in H. destruct H as [H1 [H2 H3]].
    split; [| split].
    + intros item Hin.
      apply not_above_within; [reflexivity | exact (N1 item Hin) |].
      exact (H1 item Hin).
    + apply not_above_within; [reflexivity | exact N2 | exact H2].
    + apply not_above_within; [reflexivity | exact N3 | exact H3].
Qed.

(** C10: a tax amount of zero is always an OBSERVATION, although 0.0 is
    one of the recognised rates; OK is returned only for a non-zero tax
    whose effective rate is within [TAX_TOLERANCE] of a strictly positive
    recognised rate. *)
Theorem check_tax_zero_is_observation (vendor : string)
    (subtotal tax : option float) :
  (forall t, tax = Some t -> (t =? 0)%float = true ->
             chk_status (check_tax vendor subtotal tax) = OBSERVATION)
  /\ In 0.0%float VALID_TAX_RATES
  /\ (chk_status (check_tax vendor subtotal tax) = OK ->
      exists st t r,
        subtotal = Some st /\ tax = Some t
        /\ (t =? 0)%float = false
        /\ In r VALID_TAX_RATES
        /\ (0 <? r)%float = true
        /\ (abs ((if (0 <? st)%float then t / st else 0) - r)
            <=? TAX_TOLERANCE)%float = true).
Proof.
  split; [| split].
  - intros t -> Hz. unfold check_tax.
    destruct subtotal as [st |]; [| reflexivity].
    rewrite Hz. reflexivity.
  - left. reflexivity.
  - unfold check_tax.
    destruct subtotal as [st |]; [| intros H; discriminate H].
    destruct tax as [t |]; [| intros H; discriminate H].
    destruct (t =? 0)%float eqn:Hz; [intros H; discriminate H |].
    destruct (find _ VALID_TAX_RATES) as [r |] eqn:Hf;
      [| intros H; discriminate H].
    intros _. apply find_some in Hf. destruct Hf as [Hin Hm].
    unfold rate_matches in Hm. apply andb_true_iff in Hm.
    destruct Hm as [Hpos Htol].
    exists st, t, r. repeat split; assumption.
Qed.

End PolicyChecks.

(** C6 (as stated) fails: a line of 2 x 3.00 with a line total of zero is
    off by 6.00 and yet not reported, on any runtime; and a line of
    1 x 10.504 billed 10.00 is off by more than 0.50, but its product
    rounds to 10.50 and is not reported either. *)
Lemma check_math_skips_zero_total :
  (quantity Sample.zero_total = Some 2%float
   /\ unit_price Sample.zero_total = Some 3%float
   /\ line_total Sample.zero_total = Some 0%float
   /\ (0.50 <? abs (2 * 3 - 0))%float = true
   /\ forall rt : Py.Runtime,
        check_math (rt := rt) [Sample.zero_total] None None None None = [])
  /\ (quantity Sample.half_cent = Some 1%float
      /\ unit_price Sample.half_cent = Some 10.504%float
      /\ line_total Sample.half_cent = Some 10%float
      /\ (0.50 <? abs (1 * 10.504 - 10))%float = true
      /\ forall rt : Py.Runtime,
           Py.round 10.504%float 2 = 10.5%float ->
           check_math (rt := rt) [Sample.half_cent] None None None None = []).
Proof.
  split; (split; [reflexivity |]); (split; [reflexivity |]);
    (split; [reflexivity |]); (split; [reflexivity |]).
  { intros rt0. reflexivity. }
  intros rt0 Hround. unfold check_math, line_issue, line_expected.
  simpl. rewrite Hround. reflexivity.
Qed.

(** A line total that is NaN is reported nowhere: each deviation it enters
    is NaN, which is neither above its tolerance nor within it. *)
Example check_math_is_silent_on_nan :
  check_math (rt := Demo.runtime)
    [Sample.item "Pens (Box)" (Some 1%float) (Some 5%float) (Some nan)]
    (Some 5%float) None None (Some 5%float) = []
  /\ line_within (rt := Demo.runtime)
       (Sample.item "Pens (Box)" (Some 1%float) (Some 5%float) (Some nan))
     = false
  /\ subtotal_within (rt := Demo.runtime)
       [Sample.item "Pens (Box)" (Some 1%float) (Some 5%float) (Some nan)]
       (Some 5%float)
     = false.
Proof.
  repeat split; reflexivity.
Qed.

(** A line of 2 x 3.00 billed 7.00 is reported. *)
Lemma check_math_reports_checked_lines_witness :
  (exists msg,
     line_issue (rt := Demo.runtime) Sample.overbilled = [msg]
     /\ In msg (check_math (rt := Demo.runtime) [Sample.overbilled]
                  None None None None))
  /\ check_math (rt := Demo.runtime)
       (line_items (Sample.invoice (Some "INV-1")))
       (subtotal (Sample.invoice (Some "INV-1")))
       (tax (Sample.invoice (Some "INV-1")))
       (shipping (Sample.invoice (Some "INV-1")))
       (total (Sample.invoice (Some "INV-1"))) = []
  /\ ((forall item, In item (line_items (Sample.invoice (Some "INV-1"))) ->
                    line_within (rt := Demo.runtime) item = true)
      /\ subtotal_within (rt := Demo.runtime)
           (line_items (Sample.invoice (Some "INV-1")))
           (subtotal (Sample.invoice (Some "INV-1"))) = true
      /\ total_within (subtotal (Sample.invoice (Some "INV-1")))
           (tax (Sample.invoice (Some "INV-1")))
           (shipping (Sample.invoice (Some "INV-1")))
           (total (Sample.invoice (Some "INV-1"))) = true).
Proof.
  split.
  - apply (proj1 (check_math_reports_checked_lines (rt := Demo.runtime)
                    [Sample.overbilled] None None None None)
             Sample.overbilled 2%float 3%float 7%float);
      first [reflexivity | left; reflexivity].
  - split; [reflexivity |].
    apply (proj2 (proj2 (proj2
             (check_math_reports_checked_lines (rt := Demo.runtime)
                (line_items (Sample.invoice (Some "INV-1")))
                (subtotal (Sample.invoice (Some "INV-1")))
                (tax (Sample.invoice (Some "INV-1")))
                (shipping (Sample.invoice (Some "INV-1")))
                (total (Sample.invoice (Some "INV-1"))))))).
    + intros item [<- | []]. reflexivity.
    + reflexivity.
    + reflexivity.
    + reflexivity.
Defined.

(** A tax of 178.20 on 2160.00 is 8.25%: OK. *)
Example check_tax_known_rate :
  chk_status (check_tax (rt := Demo.runtime) "Acme Supplies Inc."
                (Some 2160%float) (Some 178.2%float)) = OK.
Proof. reflexivity. Qed.

(** ** The lists [decide] accumulates *)

Section Accumulation.

Context {rt : Py.Runtime}.

Lemma vendor_check_flags (vm : VendorMatch) (a : Acc) :
  flags (vendor_check vm a) = flags a ++ vendor_flags vm.
Proof.
  unfold vendor_check, vendor_flags.
  destruct (match_type vm); simpl; rewrite ?app_nil_r; reflexivity.
Qed.

Lemma vendor_check_questions (vm : VendorMatch) (a : Acc) :
  exists qs,
    questions (vendor_check vm a) = questions a ++ qs
    /\ List.length qs = match match_type vm with
                        | none | fuzzy_low_confidence => 1%nat
                        | _ => 0%nat
                        end.
Proof.
  unfold vendor_check.
  destruct (match_type vm); simpl;
    first [ exists []; rewrite app_nil_r; split; reflexivity
          | eexists; split; reflexivity ].
Qed.

Lemma _assess_unknown_items_flags (items : list Comparison) (a : Acc) :
  flags (_assess_unknown_items items a) = flags a.
Proof.
  unfold _assess_unknown_items.
  destruct (flat_map _ items); destruct (flat_map _ items); reflexivity.
Qed.

Lemma _assess_unknown_items_questions (items : list Comparison) (a : Acc) :
  questions (_assess_unknown_items items a)
  = questions a ++ [UNKNOWN_VENDOR_QUESTION].
Proof.
  unfold _assess_unknown_items.
  destruct (flat_map _ items); destruct (flat_map _ items); reflexivity.
Qed.

Lemma no_rate_check_flags (vm : VendorMatch) (items : list Comparison) (a : Acc) :
  flags (no_rate_check vm items a) = flags a ++ no_rate_flags vm items.
Proof.
  unfold no_rate_check, no_rate_flags.
  destruct items as [| c l]; [rewrite app_nil_r; reflexivity |].
  destruct (match_type vm); try reflexivity.
  rewrite _assess_unknown_items_flags. reflexivity.
Qed.

Lemma no_rate_check_questions (vm : VendorMatch) (items : list Comparison)
    (a : Acc) :
  exists qs,
    questions (no_rate_check vm items a) = questions a ++ qs
    /\ List.length qs = match items with [] => 0%nat | _ => 1%nat end.
Proof.
  unfold no_rate_check.
  destruct items as [| c l].
  - exists []. rewrite app_nil_r. split; reflexivity.
  - destruct (match_type vm);
      try (eexists; split; reflexivity).
    rewrite _assess_unknown_items_questions. eexists. split; reflexivity.
Qed.

Lemma out_of_range_check_inv (items : list Comparison) (a a' : Acc) :
  out_of_range_check items a = Py.Ok a' ->
  flags a' = flags a ++ anomaly_flags items
  /\ exists qs,
       questions a' = questions a ++ qs
       /\ List.length qs = match items with [] => 0%nat | _ => 1%nat end.
Proof.
  unfold out_of_range_check, anomaly_flags.
  destruct items as [| c l].
  - intros H. injection H as <-. rewrite !app_nil_r.
    split; [reflexivity |]. exists []. rewrite app_nil_r. split; reflexivity.
  - intros H. apply bind_ok in H. destruct H as [ds [_ H]].
    injection H as <-. split; [reflexivity |].
    eexists. split; reflexivity.
Qed.

Lemma outside_range_check_inv (comps items : list Comparison) (a a' : Acc) :
  outside_range_check comps items a = Py.Ok a' ->
  flags a' = flags a ++ outside_flags items
  /\ questions a' =
       questions a
       ++ match items with
          | [] => []
          | _ => if all_outside comps then [SYSTEMIC_QUESTION] else []
          end.
Proof.
  unfold outside_range_check, outside_flags.
  destruct items as [| c l].
  - intros H. injection H as <-. rewrite !app_nil_r. split; reflexivity.
  - intros H. apply bind_ok in H. destruct H as [ds [_ H]].
    injection H as <-. destruct (all_outside comps); simpl;
      rewrite ?app_nil_r; split; reflexivity.
Qed.

Lemma math_check_flags (math_issues : list string) (a : Acc) :
  flags (math_check math_issues a) = flags a ++ math_flags math_issues.
Proof.
  unfold math_check, math_flags.
  destruct math_issues; [rewrite app_nil_r |]; reflexivity.
Qed.

Lemma math_check_questions (math_issues : list string) (a : Acc) :
  exists qs, questions (math_check math_issues a) = questions a ++ qs.
Proof.
  unfold math_check. destruct math_issues.
  - exists []. rewrite app_nil_r. reflexivity.
  - eexists. reflexivity.
Qed.

Lemma observe_keeps (label : string) (chk : Check) (a : Acc) :
  flags (observe label chk a) = flags a
  /\ questions (observe label chk a) = questions a.
Proof.
  unfold observe. destruct (chk_status chk); split; reflexivity.
Qed.

Lemma extraction_check_flags (ws : list string) (a : Acc) :
  flags (extraction_check ws a) = flags a ++ extraction_flags ws.
Proof.
  unfold extraction_check, extraction_flags.
  destruct (filter (fun w => str_in w CRITICAL_WARNINGS) ws) as [| w l];
    match goal with
    | |- context [filter ?f ws] => destruct (filter f ws)
    end; simpl; rewrite ?app_nil_r; reflexivity.
Qed.

Lemma extraction_check_questions (ws : list string) (a : Acc) :
  questions (extraction_check ws a) = questions a.
Proof.
  unfold extraction_check.
  destruct (filter (fun w => str_in w CRITICAL_WARNINGS) ws) as [| w l];
    match goal with
    | |- context [filter ?f ws] => destruct (filter f ws)
    end; reflexivity.
Qed.

(** The reason codes [decide] returns are [all_flags], and its questions
    start with the earlier questions, followed by the systemic question
    when the pattern detection fires. *)
Lemma gather_inv (vm : VendorMatch) (comps : list Comparison)
    (math_issues : list string) (tc sc : Check) (ws : list string) (a : Acc) :
  gather vm comps math_issues tc sc ws = Py.Ok a ->
  flags a = all_flags vm comps math_issues ws
  /\ exists pre post,
       questions a =
         pre
         ++ match with_status OUTSIDE_RANGE comps with
            | [] => []
            | _ => if all_outside comps then [SYSTEMIC_QUESTION] else []
            end
         ++ post
       /\ List.length pre = earlier_questions vm comps.
Proof.
  unfold gather. intros H.
  apply bind_ok in H. destruct H as [a4 [H4 H]].
  apply bind_ok in H. destruct H as [a5 [H5 H]].
  injection H as <-.
  apply out_of_range_check_inv in H4. destruct H4 as [F4 [q4 [Q4 L4]]].
  apply outside_range_check_inv in H5. destruct H5 as [F5 Q5].
  split.
  - rewrite extraction_check_flags.
    rewrite (proj1 (observe_keeps _ _ _)), (proj1 (observe_keeps _ _ _)).
    rewrite math_check_flags, F5, F4, no_rate_check_flags.
    simpl flags. rewrite vendor_check_flags. simpl flags.
    unfold all_flags. rewrite <- !app_assoc. reflexivity.
  - rewrite extraction_check_questions.
    rewrite (proj2 (observe_keeps _ _ _)), (proj2 (observe_keeps _ _ _)).
    destruct (math_check_questions math_issues a5) as [qm Qm].
    rewrite Qm, Q5, Q4.
    match goal with
    | |- context [no_rate_check vm ?items ?acc] =>
        destruct (no_rate_check_questions vm items acc) as [qn [Qn Ln]]
    end.
    rewrite Qn. simpl questions.
    destruct (vendor_check_questions vm
                {| flags := []; notes := []; questions := [] |})
      as [qv [Qv Lv]].
    rewrite Qv. simpl questions.
    exists (qv ++ qn ++ q4), qm. split.
    + rewrite <- !app_assoc. reflexivity.
    + rewrite !length_app, Lv, Ln, L4. unfold earlier_questions. lia.
Qed.

End Accumulation.

(** ** Pattern detection *)

Lemma priced_counts (comps : list Comparison) :
  (List.length (with_status OUTSIDE_RANGE comps)
   + List.length (with_status OUT_OF_RANGE comps)
   <= List.length (filter priced comps))%nat
  /\ ((List.length (with_status OUTSIDE_RANGE comps)
       + List.length (with_status OUT_OF_RANGE comps)
       = List.length (filter priced comps))%nat
      <-> forall c, In c comps -> priced c = true ->
                    status c = OUT_OF_RANGE \/ status c = OUTSIDE_RANGE).
Proof.
  unfold with_status, priced.
  induction comps as [| c l [IHle IHeq]].
  - simpl. split; [lia |]. split; [intros _ c [] | reflexivity].
  - simpl. destruct (status c) eqn:Hst; simpl; (split; [lia |]); split.
    + intros H. exfalso. lia.
    + intros H. destruct (H c (or_introl eq_refl)) as [E | E];
        [rewrite Hst; reflexivity | |]; rewrite Hst in E; discriminate E.
    + intros H x [<- | Hx]; [intros _; right; exact Hst |].
      apply IHeq; [lia | exact Hx].
    + intros H. assert (H' := proj2 IHeq (fun x Hx => H x (or_intror Hx))). lia.
    + intros H x [<- | Hx]; [intros _; left; exact Hst |].
      apply IHeq; [lia | exact Hx].
    + intros H. assert (H' := proj2 IHeq (fun x Hx => H x (or_intror Hx))). lia.
    + intros H x [<- | Hx]; [rewrite Hst; discriminate |].
      apply IHeq; [lia | exact Hx].
    + intros H. assert (H' := proj2 IHeq (fun x Hx => H x (or_intror Hx))). lia.
    + intros H x [<- | Hx]; [rewrite Hst; discriminate |].
      apply IHeq; [lia | exact Hx].
    + intros H. assert (H' := proj2 IHeq (fun x Hx => H x (or_intror Hx))). lia.
Qed.

(** [all_outside] says what its comment says: every priced item is out of
    or outside its range, and more than one item is priced. *)
Lemma all_outside_iff (comps : list Comparison) :
  all_outside comps = true
  <-> (forall c, In c comps -> priced c = true ->
                 status c = OUT_OF_RANGE \/ status c = OUTSIDE_RANGE)
      /\ (1 < List.length (filter priced comps))%nat.
Proof.
  unfold all_outside, len.
  rewrite andb_true_iff, Z.eqb_eq, Z.ltb_lt.
  rewrite <- (proj2 (priced_counts comps)). lia.
Qed.

Lemma In_firstn_app {A : Type} (n : nat) (pre post : list A) (x : A) :
  (List.length pre < n)%nat -> In x (firstn n (pre ++ x :: post)).
Proof.
  revert n. induction pre as [| y pre IH]; intros n Hlt.
  - destruct n; [lia |]. simpl. left. reflexivity.
  - destruct n; [simpl in Hlt; lia |]. simpl. right. apply IH.
    simpl in Hlt. lia.
Qed.

Section PatternDetection.

Context {rt : Py.Runtime}.

(** C5 (amended): when at least one item is OUTSIDE_RANGE, every priced
    item is OUT_OF_RANGE or OUTSIDE_RANGE, more than one item is priced,
    and fewer than three questions were asked before (by the vendor gate,
    the missing rate history and the price anomalies), the decision record
    carries the systemic-pricing question. *)
Theorem systemic_question_emitted (vm : VendorMatch)
    (comps : list Comparison) (math_issues : list string) (tc sc : Check)
    (ws : list string) :
  forallb printable comps = true ->
  (exists c, In c comps /\ status c = OUTSIDE_RANGE) ->
  (forall c, In c comps -> priced c = true ->
             status c = OUT_OF_RANGE \/ status c = OUTSIDE_RANGE) ->
  (1 < List.length (filter priced comps))%nat ->
  (earlier_questions vm comps < 3)%nat ->
  exists d,
    decide vm comps math_issues tc sc ws = Py.Ok d
    /\ In SYSTEMIC_QUESTION (clarifying_questions d).
Proof.
  intros Hall [c0 [Hin0 Hst0]] Hpriced Hmany Hearly.
  destruct (decide_total vm comps math_issues tc sc ws Hall) as [d Hd].
  exists d. split; [exact Hd |].
  destruct (decide_inv _ _ _ _ _ _ _ Hd) as [a [Ha [_ [_ [_ Hq]]]]].
  destruct (gather_inv _ _ _ _ _ _ _ Ha) as [_ [pre [post [Hqs Hlen]]]].
  assert (Hne : with_status OUTSIDE_RANGE comps <> []).
  { intros Hnil. assert (Hc : In c0 (with_status OUTSIDE_RANGE comps))
      by (apply with_status_In; split; assumption).
    rewrite Hnil in Hc. destruct Hc. }
  assert (Hfire : all_outside comps = true)
    by (apply all_outside_iff; split; assumption).
  rewrite Hfire in Hqs.
  destruct (with_status OUTSIDE_RANGE comps) as [| c1 l1]; [congruence |].
  rewrite Hq, Hqs. simpl app.
  destruct (pre ++ SYSTEMIC_QUESTION :: post) as [| q qs] eqn:E.
  - destruct pre; discriminate E.
  - rewrite <- E. apply In_firstn_app. rewrite Hlen. exact Hearly.
Qed.

End PatternDetection.

(** C5 (as stated) fails twice over.  Two OUT_OF_RANGE items and no
    OUTSIDE_RANGE item: every priced item is out of range and two items are
    priced, yet the pattern detection is never reached.  And a
    low-confidence vendor with an item without rate history, a price
    anomaly and an OUTSIDE_RANGE item: the systemic question is the fourth
    one generated and the cap of three drops it. *)
Lemma systemic_question_not_always_emitted :
  ((forall c, In c Sample.anomalies -> priced c = true ->
              status c = OUT_OF_RANGE \/ status c = OUTSIDE_RANGE)
   /\ (1 < List.length (filter priced Sample.anomalies))%nat
   /\ forall rt : Py.Runtime,
        exists d,
          decide (rt := rt) (Sample.vendor exact) Sample.anomalies []
            Sample.tax_ok Sample.shipping_ok [] = Py.Ok d
          /\ ~ In SYSTEMIC_QUESTION (clarifying_questions d))
  /\ ((forall c, In c Sample.mixed -> priced c = true ->
                 status c = OUT_OF_RANGE \/ status c = OUTSIDE_RANGE)
      /\ (1 < List.length (filter priced Sample.mixed))%nat
      /\ forall rt : Py.Runtime,
           exists d,
             decide (rt := rt) (Sample.vendor fuzzy_low_confidence)
               Sample.mixed [] Sample.tax_ok Sample.shipping_ok [] = Py.Ok d
             /\ ~ In SYSTEMIC_QUESTION (clarifying_questions d)).
Proof.
  split; (split; [| split]).
  - intros c [<- | [<- | []]] _; left; reflexivity.
  - simpl. lia.
  - intros rt0. eexists. split; [reflexivity |].
    simpl. intros [H | []]. discriminate H.
  - intros c [<- | [<- | [<- | []]]] Hp;
      [discriminate Hp | left; reflexivity | right; reflexivity].
  - simpl. lia.
  - intros rt0. eexists. split; [reflexivity |].
    simpl. intros [H | [H | [H | []]]]; discriminate H.
Qed.

(** Three soft deviations from an exactly matched vendor. *)
Lemma systemic_question_emitted_witness :
  exists d,
    decide (rt := Demo.runtime) (Sample.vendor exact)
      [Sample.outside_range "Pens (Box)"; Sample.outside_range "Staples Pack";
       Sample.out_of_range "A4 Paper Box"; Sample.missing_price "Desk Lamp"]
      [] Sample.tax_ok Sample.shipping_ok [] = Py.Ok d
    /\ In SYSTEMIC_QUESTION (clarifying_questions d).
Proof.
  apply (systemic_question_emitted (rt := Demo.runtime)).
  - reflexivity.
  - eexists. split; [left; reflexivity | reflexivity].
  - intros c [<- | [<- | [<- | [<- | []]]]] Hp;
      first [discriminate Hp | left; reflexivity | right; reflexivity].
  - cbv. lia.
  - cbv. lia.
Defined.

(** ** Reason codes *)

Lemma append_inj (p a b : string) :
  (p ++ a)%string = (p ++ b)%string -> a = b.
Proof.
  induction p as [| ch p IH]; simpl; intros H.
  - exact H.
  - injection H as H. apply IH. exact H.
Qed.

Lemma NoDup_map_prefix {A : Type} (prefix : string) (g : A -> string)
    (l : list A) :
  NoDup (map g l) -> NoDup (map (fun x => (prefix ++ g x)%string) l).
Proof.
  induction l as [| a l IH]; simpl; intros H.
  - constructor.
  - apply NoDup_cons_iff in H. destruct H as [Hnot Hnd].
    constructor; [| apply IH; exact Hnd].
    intros Hin. apply in_map_iff in Hin. destruct Hin as [x [Hx Hxl]].
    apply append_inj in Hx. apply Hnot. rewrite <- Hx.
    apply in_map. exact Hxl.
Qed.

Lemma Forall_kind_map {A : Type} (prefix k : string) (g : A -> string)
    (l : list A) :
  (forall s, kind (prefix ++ s) = k) ->
  Forall (fun code => kind code = k)
         (map (fun x => (prefix ++ g x)%string) l).
Proof.
  intros Hk. apply Forall_forall. intros code Hin.
  apply in_map_iff in Hin. destruct Hin as [x [<- _]]. apply Hk.
Qed.

(** Prepending a group of one kind to codes of other kinds keeps the codes
    distinct. *)
Lemma NoDup_app_kind (k : string) (ks : list string) (l1 l2 : list string) :
  Forall (fun code => kind code = k) l1 ->
  Forall (fun code => In (kind code) ks) l2 ->
  ~ In k ks ->
  NoDup l1 -> NoDup l2 ->
  NoDup (l1 ++ l2)
  /\ Forall (fun code => In (kind code) (k :: ks)) (l1 ++ l2).
Proof.
  intros H1 H2 Hk N1 N2. rewrite Forall_forall in H1, H2. split.
  - apply NoDup_app; try assumption.
    intros code Hin1 Hin2. apply Hk. rewrite <- (H1 code Hin1).
    apply H2. exact Hin2.
  - apply Forall_forall. intros code Hin. apply in_app_or in Hin.
    destruct Hin as [Hin | Hin].
    + left. symmetry. apply H1. exact Hin.
    + right. apply H2. exact Hin.
Qed.

Lemma NoDup_at_most_one {A : Type} (l : list A) :
  (List.length l <= 1)%nat -> NoDup l.
Proof.
  destruct l as [| x [| y l]]; simpl; intros H.
  - constructor.
  - constructor; [intros [] | constructor].
  - lia.
Qed.

(** Closes [~ In k ks] for literal kinds. *)
Ltac distinct_kind :=
  simpl; intros H;
  repeat (destruct H as [H | H]; [discriminate H |]); exact H.

(** The reason codes are distinct as soon as no two items flagged for the
    same reason share a canonical name, and an unmatched vendor comes
    without items lacking rate history. *)
Lemma all_flags_NoDup (vm : VendorMatch) (comps : list Comparison)
    (math_issues ws : list string) :
  NoDup (map canonical_item (with_status MISSING_PRICE comps)) ->
  NoDup (map canonical_item (with_status OUT_OF_RANGE comps)) ->
  NoDup (map canonical_item (with_status OUTSIDE_RANGE comps)) ->
  (match_type vm = none -> with_status NO_CONTRACT_RATE comps = []) ->
  NoDup (all_flags vm comps math_issues ws).
Proof.
  intros Nm Na No Hv. unfold all_flags.
  assert (E : Forall (fun code => kind code = "EXTRACT") (extraction_flags ws)
              /\ NoDup (extraction_flags ws)).
  { unfold extraction_flags. destruct (filter _ ws).
    - split; constructor.
    - split; [repeat constructor | apply NoDup_at_most_one; simpl; lia]. }
  assert (M : Forall (fun code => kind code = "MATH_DI") (math_flags math_issues)
              /\ NoDup (math_flags math_issues)).
  { unfold math_flags. destruct math_issues.
    - split; constructor.
    - split; [repeat constructor | apply NoDup_at_most_one; simpl; lia]. }
  assert (O : Forall (fun code => kind code = "PRICE_O")
                (outside_flags (with_status OUTSIDE_RANGE comps))
              /\ NoDup (outside_flags (with_status OUTSIDE_RANGE comps))).
  { split; [apply Forall_kind_map; reflexivity
           | apply NoDup_map_prefix; exact No]. }
  assert (A : Forall (fun code => kind code = "PRICE_A")
                (anomaly_flags (with_status OUT_OF_RANGE comps))
              /\ NoDup (anomaly_flags (with_status OUT_OF_RANGE comps))).
  { split; [apply Forall_kind_map; reflexivity
           | apply NoDup_map_prefix; exact Na]. }
  assert (N : Forall (fun code => kind code = "NEW_ITE")
                (no_rate_flags vm (with_status NO_CONTRACT_RATE comps))
              /\ NoDup (no_rate_flags vm (with_status NO_CONTRACT_RATE comps))).
  { unfold no_rate_flags.
    destruct (with_status NO_CONTRACT_RATE comps) as [| c l] eqn:El.
    - split; constructor.
    - destruct (match_type vm) eqn:Emt;
        try (split; [repeat constructor | apply NoDup_at_most_one; simpl; lia]).
      specialize (Hv eq_refl). discriminate Hv. }
  assert (P : Forall (fun code => kind code = "MISSING")
                (missing_price_flags comps)
              /\ NoDup (missing_price_flags comps)).
  { split; [apply Forall_kind_map; reflexivity
           | apply NoDup_map_prefix; exact Nm]. }
  assert (V : Forall (fun code => kind code = "VENDOR_") (vendor_flags vm)
              /\ NoDup (vendor_flags vm)).
  { unfold vendor_flags. destruct (match_type vm);
      (split; [repeat constructor | apply NoDup_at_most_one; simpl; lia]). }
  destruct E as [Ek En], M as [Mk Mn], O as [Ok On], A as [Ak An],
           N as [Nk Nn], P as [Pk Pn], V as [Vk Vn].
  assert (Ek' : Forall (fun code => In (kind code) ["EXTRACT"])
                  (extraction_flags ws)).
  { eapply Forall_impl; [| exact Ek]. intros code H. left. symmetry. exact H. }
  destruct (NoDup_app_kind _ _ _ _ Mk Ek' ltac:(distinct_kind) Mn En)
    as [N1 K1].
  destruct (NoDup_app_kind _ _ _ _ Ok K1 ltac:(distinct_kind) On N1)
    as [N2 K2].
  destruct (NoDup_app_kind _ _ _ _ Ak K2 ltac:(distinct_kind) An N2)
    as [N3 K3].
  destruct (NoDup_app_kind _ _ _ _ Nk K3 ltac:(distinct_kind) Nn N3)
    as [N4 K4].
  destruct (NoDup_app_kind _ _ _ _ Pk K4 ltac:(distinct_kind) Pn N4)
    as [N5 K5].
  destruct (NoDup_app_kind _ _ _ _ Vk K5 ltac:(distinct_kind) Vn N5)
    as [N6 _].
  exact N6.
Qed.

Section ReasonCodes.

Context {rt : Py.Runtime}.

(** C7 (amended): the reason codes of the decision record contain no
    duplicate whenever no two MISSING_PRICE items, no two OUT_OF_RANGE items
    and no two OUTSIDE_RANGE items share a canonical name, and an unmatched
    vendor comes without items lacking rate history. *)
Theorem reason_codes_distinct (vm : VendorMatch)
    (comps : list Comparison) (math_issues : list string) (tc sc : Check)
    (ws : list string) :
  forallb printable comps = true ->
  NoDup (map canonical_item (with_status MISSING_PRICE comps)) ->
  NoDup (map canonical_item (with_status OUT_OF_RANGE comps)) ->
  NoDup (map canonical_item (with_status OUTSIDE_RANGE comps)) ->
  (match_type vm = none -> with_status NO_CONTRACT_RATE comps = []) ->
  exists d,
    decide vm comps math_issues tc sc ws = Py.Ok d
    /\ NoDup (reason_codes d).
Proof.
  intros Hall Nm Na No Hv.
  destruct (decide_total vm comps math_issues tc sc ws Hall) as [d Hd].
  exists d. split; [exact Hd |].
  destruct (decide_inv _ _ _ _ _ _ _ Hd) as [a [Ha [_ [Hrc _]]]].
  destruct (gather_inv _ _ _ _ _ _ _ Ha) as [Hf _].
  rewrite Hrc, Hf. apply all_flags_NoDup; assumption.
Qed.

End ReasonCodes.

(** C7 (as stated) fails: two lines of the same item with an unreadable
    price yield the same reason code twice, on any runtime. *)
Lemma reason_codes_can_repeat :
  forallb printable Sample.repeated = true
  /\ forall rt : Py.Runtime,
       exists d,
         decide (rt := rt) (Sample.vendor exact) Sample.repeated []
           Sample.tax_ok Sample.shipping_ok [] = Py.Ok d
         /\ reason_codes d = ["MISSING_PRICE:Pens (Box)";
                              "MISSING_PRICE:Pens (Box)"]
         /\ ~ NoDup (reason_codes d).
Proof.
  split; [reflexivity |]. intros rt0. eexists.
  split; [reflexivity |]. split; [reflexivity |].
  simpl. intros H. apply NoDup_cons_iff in H. destruct H as [H _].
  apply H. left. reflexivity.
Qed.

(** An unmatched vendor whose item has no rate history is given the code
    VENDOR_NOT_IN_APPROVED_LIST by the vendor gate and once more by the
    rate-history step. *)
Example unmatched_vendor_is_flagged_twice :
  forall rt : Py.Runtime,
    exists d,
      decide (rt := rt) (Sample.vendor none) [Sample.no_rate "Desk Lamp"] []
        Sample.tax_ok Sample.shipping_ok [] = Py.Ok d
      /\ reason_codes d = ["VENDOR_NOT_IN_APPROVED_LIST";
                           "VENDOR_NOT_IN_APPROVED_LIST"].
Proof.
  intros rt0. eexists. split; reflexivity.
Qed.

(** One item per kind of flag: five distinct reason codes. *)
Lemma reason_codes_distinct_witness :
  exists d,
    decide (rt := Demo.runtime) (Sample.vendor fuzzy_low_confidence)
      (Sample.missing_price "Pens (Box)" :: Sample.mixed)
      ["Subtotal: lines sum to $10.00, invoice shows $20.00"]
      Sample.tax_ok Sample.shipping_ok ["MISSING_TOTAL"] = Py.Ok d
    /\ NoDup (reason_codes d).
Proof.
  apply (reason_codes_distinct (rt := Demo.runtime)).
  - reflexivity.
  - apply NoDup_at_most_one. cbv. lia.
  - apply NoDup_at_most_one. cbv. lia.
  - apply NoDup_at_most_one. cbv. lia.
  - intros H. discriminate H.
Defined.

(** ** From the comparator to the decision *)

Lemma mapM_Forall {A B : Type} (f : A -> Py.result B) (P : B -> Prop)
    (l : list A) (ys : list B) :
  (forall x y, f x = Py.Ok y -> P y) ->
  Py.mapM f l = Py.Ok ys -> Forall P ys.
Proof.
  intros Hf. revert ys. induction l as [| x xs IH]; simpl; intros ys H.
  - injection H as <-. constructor.
  - apply bind_ok in H. destruct H as [y [Hy H]].
    apply bind_ok in H. destruct H as [ys' [Hys H]].
    injection H as <-. constructor; [eapply Hf; exact Hy | apply IH; exact Hys].
Qed.

Section Pipeline.

Context {rt : Py.Runtime}.
Variable normalize_item_name : string -> string.
Variable PRICE_HISTORY : list ((string * string) * list PriceRecord).

Lemma evaluate_price_printable (item : LineItem) (name : string)
    (rd : RateData) (src : string) (p q : float) (c : Comparison) :
  evaluate_price item name rd src p q = Py.Ok c -> printable c = true.
Proof.
  unfold evaluate_price. intros H.
  apply bind_ok in H. destruct H as [w [_ H]].
  destruct (within_window w p).
  - injection H as <-. reflexivity.
  - destruct (ratio_gate w p).
    + destruct (MAX_PRICE_RATIO_HIGH <? price_ratio w p)%float;
        injection H as <-; reflexivity.
    + apply bind_ok in H. destruct H as [x [_ H]].
      injection H as <-. reflexivity.
Qed.

Lemma classify_item_printable (vendor : string) (item : LineItem)
    (rate_data : option RateData) (src : string) (c : Comparison) :
  classify_item normalize_item_name vendor item rate_data src = Py.Ok c ->
  printable c = true.
Proof.
  unfold classify_item. destruct rate_data as [rd |].
  - destruct (unit_price item) as [p |].
    + apply evaluate_price_printable.
    + intros H. injection H as <-. reflexivity.
  - intros H. injection H as <-. reflexivity.
Qed.

(** Every list [compare_line_items] returns is printable. *)
Lemma compare_line_items_printable (clk : VendorDb.Clock)
    (file : VendorDb.Store) (vendor : string) (line_items : list LineItem)
    (comps : list Comparison) :
  compare_line_items normalize_item_name PRICE_HISTORY clk file vendor
    line_items = Py.Ok comps ->
  forallb printable comps = true.
Proof.
  unfold compare_line_items. intros H. apply forallb_forall.
  apply Forall_forall.
  apply (mapM_Forall _ (fun c => printable c = true) _ _) in H; [exact H |].
  intros item c Hc. unfold compare_item in Hc.
  apply bind_ok in Hc. destruct Hc as [found [_ Hc]].
  eapply classify_item_printable. exact Hc.
Qed.

(** [decide] never raises on the comparisons of [compare_line_items]. *)
Corollary decide_after_compare (clk : VendorDb.Clock) (file : VendorDb.Store)
    (vm : VendorMatch) (vendor : string) (line_items : list LineItem)
    (comps : list Comparison) (math_issues : list string) (tc sc : Check)
    (ws : list string) :
  compare_line_items normalize_item_name PRICE_HISTORY clk file vendor
    line_items = Py.Ok comps ->
  exists d, decide vm comps math_issues tc sc ws = Py.Ok d.
Proof.
  intros H. apply decide_total.
  eapply compare_line_items_printable. exact H.
Qed.

End Pipeline.

(** ** The scenarios of the specification *)

(** "A4 Paper Box" from Acme at 90.00 for 24 units is IN_RANGE; at 200.00
    it is OUT_OF_RANGE and the invoice is FLAGGED with PRICE_ANOMALY. *)
Example scenario_in_range :
  exists c,
    compare_line_items (rt := Demo.runtime) (fun s => s) Sample.PRICE_HISTORY
      Sample.clock None "Acme Supplies Inc."
      [Sample.item "A4 Paper Box" (Some 24%float) (Some 90%float)
         (Some 2160%float)]
    = Py.Ok [c]
    /\ status c = IN_RANGE /\ qty_adjustment c = None.
Proof. eexists. split; [reflexivity | split; reflexivity]. Qed.

Example scenario_out_of_range :
  exists c d,
    compare_line_items (rt := Demo.runtime) (fun s => s) Sample.PRICE_HISTORY
      Sample.clock None "Acme Supplies Inc."
      [Sample.item "A4 Paper Box" (Some 24%float) (Some 200%float)
         (Some 4800%float)]
    = Py.Ok [c]
    /\ status c = OUT_OF_RANGE
    /\ decide (rt := Demo.runtime) (Sample.vendor exact) [c] []
         Sample.tax_ok Sample.shipping_ok [] = Py.Ok d
    /\ d_status d = FLAGGED
    /\ reason_codes d = ["PRICE_ANOMALY:A4 Paper Box"].
Proof.
  eexists. eexists. split; [reflexivity |]. split; [reflexivity |].
  split; [reflexivity |]. split; reflexivity.
Qed.

(** The same item without a quantity, priced 20.00, through the table:
    the factor 2.0 is recorded and the item is OUT_OF_RANGE. *)
Example scenario_absent_quantity :
  exists c,
    compare_line_items (rt := Demo.runtime) (fun s => s) Sample.PRICE_HISTORY
      Sample.clock None "Acme Supplies Inc." [Sample.unreadable_quantity]
    = Py.Ok [c]
    /\ status c = OUT_OF_RANGE /\ qty_adjustment c = Some 2%float.
Proof. eexists. split; [reflexivity | split; reflexivity]. Qed.

(** An invoice without any flag is APPROVED with the default question. *)
Example scenario_all_clear :
  decide (rt := Demo.runtime) (Sample.vendor exact)
    [Sample.in_range "Pens (Box)"] [] Sample.tax_ok Sample.shipping_ok []
  = Py.Ok {| d_status := APPROVED;
             reason_codes := [];
             observations :=
               ["Tax: Tax rate 8.25% matches known rate 8.2%.";
                "Shipping: No shipping charged."];
             clarifying_questions := [DEFAULT_QUESTION] |}.
Proof. reflexivity. Qed.

(** Line totals of 500.00 against a subtotal of 510.00 are reported. *)
Example scenario_subtotal_mismatch :
  check_math (rt := Demo.runtime)
    [Sample.item "Office Cleaning" (Some 1%float) (Some 500%float)
       (Some 500%float)]
    (Some 510%float) None None None
  = ["Subtotal: lines sum to $500.00, invoice shows $510.00"].
Proof. reflexivity. Qed.

(** ** When [decide] raises *)

Lemma mapM_cases {A B : Type} (f : A -> Py.result B) (e0 : Py.exn)
    (l : list A) :
  (forall x e, f x = Py.Raise e -> e = e0) ->
  (exists ys, Py.mapM f l = Py.Ok ys /\ forall x, In x l -> exists y, f x = Py.Ok y)
  \/ (Py.mapM f l = Py.Raise e0 /\ exists x, In x l /\ f x = Py.Raise e0).
Proof.
  intros He. induction l as [| x xs IH]; simpl.
  - left. exists []. split; [reflexivity | intros x []].
  - destruct (f x) as [y | e] eqn:Hx; simpl.
    + destruct IH as [[ys [Hys Hall]] | [Hr [z [Hz Hfz]]]].
      * left. rewrite Hys. simpl. eexists. split; [reflexivity |].
        intros z [<- | Hz]; [exists y; exact Hx | apply Hall; exact Hz].
      * right. rewrite Hr. simpl. split; [reflexivity |].
        exists z. split; [right; exact Hz | exact Hfz].
    + right. pose proof (He x e Hx) as ->. split; [reflexivity |].
      exists x. split; [left; reflexivity | exact Hx].
Qed.

Lemma forallb_false_exists {A : Type} (f : A -> bool) (l : list A) :
  forallb f l = false -> exists x, In x l /\ f x = false.
Proof.
  induction l as [| a l IH]; simpl; intros H; [discriminate H |].
  destruct (f a) eqn:Ha.
  - destruct (IH H) as [x [Hx Hfx]]. exists x. split; [right |]; assumption.
  - exists a. split; [left; reflexivity | exact Ha].
Qed.

Section Raising.

Context {rt : Py.Runtime}.

Lemma anomaly_detail_raises (c : Comparison) (e : Py.exn) :
  anomaly_detail c = Py.Raise e -> e = Py.TypeError.
Proof.
  unfold anomaly_detail, money_opt.
  destruct (invoice_unit_price c); simpl; [| congruence].
  destruct (contracted_avg c); simpl; congruence.
Qed.

Lemma outside_detail_raises (c : Comparison) (e : Py.exn) :
  outside_detail c = Py.Raise e -> e = Py.TypeError.
Proof.
  unfold outside_detail, money_opt.
  destruct (invoice_unit_price c); simpl; congruence.
Qed.

Lemma anomaly_detail_ok (c : Comparison) (s : string) :
  anomaly_detail c = Py.Ok s ->
  exists p avg, invoice_unit_price c = Some p /\ contracted_avg c = Some avg.
Proof.
  unfold anomaly_detail, money_opt.
  destruct (invoice_unit_price c) as [p |]; simpl; [| discriminate].
  destruct (contracted_avg c) as [avg |]; simpl; [| discriminate].
  intros _. exists p, avg. split; reflexivity.
Qed.

Lemma outside_detail_ok (c : Comparison) (s : string) :
  outside_detail c = Py.Ok s -> exists p, invoice_unit_price c = Some p.
Proof.
  unfold outside_detail, money_opt.
  destruct (invoice_unit_price c) as [p |]; simpl; [| discriminate].
  intros _. exists p. reflexivity.
Qed.

(** [decide] returns a record exactly on printable comparisons: an
    OUT_OF_RANGE or OUTSIDE_RANGE item without the numbers its question
    prints makes the formatting raise [TypeError]. *)
Lemma decide_raises (vm : VendorMatch) (comps : list Comparison)
    (math_issues : list string) (tc sc : Check) (ws : list string) :
  forallb printable comps = false ->
  decide vm comps math_issues tc sc ws = Py.Raise Py.TypeError.
Proof.
  intros Hbad. apply forallb_false_exists in Hbad.
  destruct Hbad as [c [Hin Hc]].
  unfold decide, gather, out_of_range_check, outside_range_check.
  destruct (mapM_cases anomaly_detail Py.TypeError
              (with_status OUT_OF_RANGE comps) anomaly_detail_raises)
    as [[ds1 [H1 Hall1]] | [H1 _]].
  - destruct (mapM_cases outside_detail Py.TypeError
                (with_status OUTSIDE_RANGE comps) outside_detail_raises)
      as [[ds2 [H2 Hall2]] | [H2 _]].
    + exfalso. unfold printable in Hc.
      destruct (status c) eqn:Hst; try discriminate Hc.
      * destruct (Hall2 c) as [s Hs];
          [apply with_status_In; split; assumption |].
        apply outside_detail_ok in Hs. destruct Hs as [p Hp].
        rewrite Hp in Hc. discriminate Hc.
      * destruct (Hall1 c) as [s Hs];
          [apply with_status_In; split; assumption |].
        apply anomaly_detail_ok in Hs. destruct Hs as [p [avg [Hp Havg]]].
        rewrite Hp, Havg in Hc. discriminate Hc.
    + destruct (with_status OUTSIDE_RANGE comps) as [| c2 l2];
        [discriminate H2 |].
      destruct (with_status OUT_OF_RANGE comps) as [| c1 l1];
        cbv beta iota zeta; rewrite ?H1; cbv beta iota delta [Py.bind];
        rewrite H2; reflexivity.
  - destruct (with_status OUT_OF_RANGE comps) as [| c1 l1];
      [discriminate H1 |].
    cbv beta iota zeta. rewrite H1. reflexivity.
Qed.

End Raising.

(** ** Further properties of the comparator *)

Lemma float_ltb_leb (x y : float) :
  (x <? y)%float = true -> (x <=? y)%float = true.
Proof.
  rewrite FloatAxioms.ltb_spec, FloatAxioms.leb_spec.
  unfold SFltb, SFleb.
  destruct (SFcompare (Prim2SF x) (Prim2SF y)) as [[| |] |];
    intros H; try reflexivity; discriminate H.
Qed.

Lemma mapM_map {A B C : Type} (f : A -> Py.result B) (g : B -> C) (h : A -> C)
    (l : list A) (ys : list B) :
  (forall x y, f x = Py.Ok y -> g y = h x) ->
  Py.mapM f l = Py.Ok ys -> map g ys = map h l.
Proof.
  intros Hf. revert ys. induction l as [| x xs IH]; simpl; intros ys H.
  - injection H as <-. reflexivity.
  - apply bind_ok in H. destruct H as [y [Hy H]].
    apply bind_ok in H. destruct H as [ys' [Hys H]].
    injection H as <-. simpl. rewrite (Hf x y Hy), (IH ys' Hys). reflexivity.
Qed.

Lemma mapM_nth_error {A B : Type} (f : A -> Py.result B) (l : list A)
    (ys : list B) (i : nat) (x : A) :
  Py.mapM f l = Py.Ok ys -> nth_error l i = Some x ->
  exists y, nth_error ys i = Some y /\ f x = Py.Ok y.
Proof.
  revert ys i. induction l as [| a l IH]; simpl; intros ys i H Hi.
  - destruct i; discriminate Hi.
  - apply bind_ok in H. destruct H as [y [Hy H]].
    apply bind_ok in H. destruct H as [ys' [Hys H]].
    injection H as <-. destruct i as [| i]; simpl in Hi |- *.
    + injection Hi as <-. exists y. split; [reflexivity | exact Hy].
    + exact (IH ys' i Hys Hi).
Qed.

Section ComparatorFacts.

Context {rt : Py.Runtime}.
Variable normalize_item_name : string -> string.
Variable PRICE_HISTORY : list ((string * string) * list PriceRecord).

(** The quantity adjustment factor, whenever one is returned, lies between
    0.4 and 2.0, whatever the quantities and whatever the logarithm returns
    (NaN and infinities included). *)
Theorem quantity_factor_bounded (invoice_qty historical_avg_qty f : float) :
  _quantity_adjustment_factor invoice_qty historical_avg_qty = Py.Ok f ->
  (0.4 <=? f)%float = true /\ (f <=? 2.0)%float = true.
Proof.
  unfold _quantity_adjustment_factor.
  destruct (_ || _ || _)%bool.
  - intros H. injection H as <-. split; reflexivity.
  - destruct (_ && _)%bool.
    + intros H. injection H as <-. split; reflexivity.
    + intros H. apply bind_ok in H. destruct H as [l [_ H]].
      apply bind_ok in H. destruct H as [adj [_ H]].
      injection H as <-. unfold Py.min.
      destruct (adj <? 2.0)%float eqn:Hhi.
      * unfold Py.max. destruct (0.4 <? adj)%float eqn:Hlo.
        -- split; apply float_ltb_leb; assumption.
        -- split; reflexivity.
      * split; reflexivity.
Qed.

Lemma evaluate_price_echo (item : LineItem) (name : string) (rd : RateData)
    (src : string) (p q : float) (c : Comparison) :
  evaluate_price item name rd src p q = Py.Ok c ->
  c_description c = description item
  /\ canonical_item c = name
  /\ c_quantity c = quantity item
  /\ invoice_unit_price c = Some p
  /\ invoice_line_total c = line_total item
  /\ contracted_avg c = Some (rd_avg rd)
  /\ data_points c = rd_n rd
  /\ rate_source c = Some src
  /\ (status c = IN_RANGE \/ status c = OUT_OF_RANGE
      \/ status c = OUTSIDE_RANGE).
Proof.
  unfold evaluate_price. intros H.
  apply bind_ok in H. destruct H as [w [_ H]].
  destruct (within_window w p).
  - injection H as <-. simpl. repeat split; try reflexivity. left. reflexivity.
  - destruct (ratio_gate w p).
    + destruct (MAX_PRICE_RATIO_HIGH <? price_ratio w p)%float;
        injection H as <-; simpl; repeat split; try reflexivity;
        right; left; reflexivity.
    + apply bind_ok in H. destruct H as [x [_ H]].
      injection H as <-. simpl. repeat split; try reflexivity.
      right; right; reflexivity.
Qed.

(** The status tells how far the comparison got: NO_CONTRACT_RATE exactly
    when no rate was resolved (whether or not the price is readable),
    MISSING_PRICE exactly when a rate was resolved and the price is absent;
    the invoice price is passed on unchanged. *)
Theorem classify_item_status (vendor : string) (item : LineItem)
    (rate_data : option RateData) (src : string) (c : Comparison) :
  classify_item normalize_item_name vendor item rate_data src = Py.Ok c ->
  (status c = NO_CONTRACT_RATE <-> rate_data = None)
  /\ (status c = MISSING_PRICE <->
      rate_data <> None /\ unit_price item = None)
  /\ invoice_unit_price c = unit_price item.
Proof.
  unfold classify_item. destruct rate_data as [rd |].
  - destruct (unit_price item) as [p |] eqn:Hp.
    + intros H. apply evaluate_price_echo in H.
      destruct H as (_ & _ & _ & Hprice & _ & _ & _ & _ & Hst).
      split; [| split; [| exact Hprice]]; split; intros H.
      * destruct Hst as [E | [E | E]]; rewrite E in H; discriminate H.
      * discriminate H.
      * destruct Hst as [E | [E | E]]; rewrite E in H; discriminate H.
      * destruct H as [_ H]. discriminate H.
    + intros H. injection H as <-. simpl.
      split; [| split; [| reflexivity]]; split; intros H.
      * discriminate H.
      * discriminate H.
      * split; [intros E; discriminate E | reflexivity].
      * reflexivity.
  - intros H. injection H as <-. simpl.
    split; [| split; [| reflexivity]]; split; intros H.
    + reflexivity.
    + reflexivity.
    + discriminate H.
    + destruct H as [H _]. exfalso. apply H. reflexivity.
Qed.

Lemma compare_item_echo (clk : VendorDb.Clock) (file : VendorDb.Store)
    (vendor : string) (item : LineItem) (c : Comparison) :
  compare_item normalize_item_name PRICE_HISTORY clk file vendor item
  = Py.Ok c ->
  c_description c = description item
  /\ canonical_item c = normalize_item_name (description item)
  /\ c_quantity c = quantity item
  /\ invoice_unit_price c = unit_price item
  /\ invoice_line_total c = line_total item.
Proof.
  unfold compare_item. intros H.
  apply bind_ok in H. destruct H as [found [_ H]].
  unfold classify_item in H. destruct (fst found) as [rd |].
  - destruct (unit_price item) as [p |] eqn:Hp.
    + apply evaluate_price_echo in H.
      destruct H as (H1 & H2 & H3 & H4 & H5 & _). repeat split; assumption.
    + injection H as <-. simpl. repeat split; congruence.
  - injection H as <-. simpl. repeat split; reflexivity.
Qed.

(** [compare_line_items] returns one comparison per line item, in the order
    of the invoice; each comparison carries the description, the canonical
    name, the quantity, the unit price and the line total of its line. *)
Theorem compare_line_items_echo (clk : VendorDb.Clock) (file : VendorDb.Store)
    (vendor : string) (line_items : list LineItem) (comps : list Comparison) :
  compare_line_items normalize_item_name PRICE_HISTORY clk file vendor
    line_items = Py.Ok comps ->
  List.length comps = List.length line_items
  /\ map c_description comps = map description line_items
  /\ map canonical_item comps
     = map (fun i => normalize_item_name (description i)) line_items
  /\ map c_quantity comps = map quantity line_items
  /\ map invoice_unit_price comps = map unit_price line_items
  /\ map invoice_line_total comps = map line_total line_items.
Proof.
  unfold compare_line_items. intros H.
  assert (Hd : map c_description comps = map description line_items).
  { eapply mapM_map; [| exact H]. intros x y Hxy.
    apply compare_item_echo in Hxy. tauto. }
  split; [| split; [exact Hd |]].
  - rewrite <- (length_map c_description), Hd. apply length_map.
  - repeat split; (eapply mapM_map; [| exact H]); intros x y Hxy;
      apply compare_item_echo in Hxy; tauto.
Qed.

(** A static price history takes precedence: where [PRICE_HISTORY] has
    points for (vendor, item), the comparison does not depend on the
    learning store (nor on the clock). *)
Theorem static_history_takes_precedence (clk1 clk2 : VendorDb.Clock)
    (file1 file2 : VendorDb.Store) (vendor : string) (item : LineItem)
    (r : PriceRecord) (rs : list PriceRecord) :
  price_history_get PRICE_HISTORY vendor
    (normalize_item_name (description item)) = Some (r :: rs) ->
  compare_item normalize_item_name PRICE_HISTORY clk1 file1 vendor item
  = compare_item normalize_item_name PRICE_HISTORY clk2 file2 vendor item.
Proof.
  intros H. unfold compare_item, resolve_rate. rewrite H. reflexivity.
Qed.

(** A line whose item has no static history (no entry, or an empty one)
    and no learned rate is NO_CONTRACT_RATE, whatever its price and
    quantity and whatever the other lines of the invoice are: its own
    comparison does not raise, and in every list [compare_line_items]
    returns for an invoice that holds the line, the comparison at the
    position of the line has that status.  While the learning store has no
    file there is no learned rate for any item. *)
Theorem unknown_items_have_no_rate (clk : VendorDb.Clock)
    (file : VendorDb.Store) (vendor : string) (item : LineItem) :
  price_history_get PRICE_HISTORY vendor
    (normalize_item_name (description item)) = None
  \/ price_history_get PRICE_HISTORY vendor
       (normalize_item_name (description item)) = Some [] ->
  file = None
  \/ VendorDb.get_learned_rate clk vendor
       (normalize_item_name (description item)) file = None ->
  (exists c,
     compare_item normalize_item_name PRICE_HISTORY clk file vendor item
     = Py.Ok c
     /\ status c = NO_CONTRACT_RATE)
  /\ (forall line_items comps i,
        compare_line_items normalize_item_name PRICE_HISTORY clk file vendor
          line_items = Py.Ok comps ->
        nth_error line_items i = Some item ->
        exists c, nth_error comps i = Some c /\ status c = NO_CONTRACT_RATE).
Proof.
  intros Hstatic Hlearned.
  assert (Hl : VendorDb.get_learned_rate clk vendor
                 (normalize_item_name (description item)) file = None).
  { destruct Hlearned as [-> | H]; [reflexivity | exact H]. }
  assert (Hitem : exists c,
            compare_item normalize_item_name PRICE_HISTORY clk file vendor
              item = Py.Ok c
            /\ status c = NO_CONTRACT_RATE).
  { unfold compare_item, resolve_rate.
    destruct Hstatic as [-> | ->]; rewrite Hl; simpl;
      eexists; (split; [reflexivity | reflexivity]). }
  split; [exact Hitem |].
  intros line_items comps i Hc Hi. unfold compare_line_items in Hc.
  destruct (mapM_nth_error _ _ _ i item Hc Hi) as [y [Hy Hfy]].
  destruct Hitem as [c [Hci Hst]].
  exists y. split; [exact Hy |]. congruence.
Qed.

End ComparatorFacts.

(** ** Further properties of the policy checks *)

Section PolicyFacts.

Context {rt : Py.Runtime}.

Lemma line_issue_at_most_one (item : LineItem) :
  (List.length (line_issue item) <= 1)%nat.
Proof.
  unfold line_issue.
  destruct (quantity item); [| simpl; lia].
  destruct (unit_price item); [| simpl; lia].
  destruct (line_total item); [| simpl; lia].
  destruct (line_checked item); [| simpl; lia].
  destruct (0.50 <? _)%float; simpl; lia.
Qed.

(** [check_math] reports at most one issue per line item, one for the
    subtotal and one for the total; without a subtotal neither the subtotal
    nor the total is checked, whatever the stated total. *)
Theorem check_math_bounded (line_items : list LineItem)
    (subtotal tax shipping total : option float) :
  (List.length (check_math line_items subtotal tax shipping total)
   <= List.length line_items + 2)%nat
  /\ (subtotal = None ->
      check_math line_items subtotal tax shipping total
      = flat_map line_issue line_items).
Proof.
  unfold check_math. split.
  - rewrite !length_app.
    assert (H1 : (List.length (flat_map line_issue line_items)
                  <= List.length line_items)%nat).
    { induction line_items as [| i l IH]; simpl; [lia |].
      rewrite length_app. pose proof (line_issue_at_most_one i). lia. }
    assert (H2 : (List.length (subtotal_issue line_items subtotal) <= 1)%nat).
    { unfold subtotal_issue. destruct subtotal; [| simpl; lia].
      destruct (1.00 <? _)%float; simpl; lia. }
    assert (H3 : (List.length (total_issue subtotal tax shipping total)
                  <= 1)%nat).
    { unfold total_issue. destruct total; [| simpl; lia].
      destruct subtotal; [| simpl; lia].
      destruct (1.00 <? _)%float; simpl; lia. }
    lia.
  - intros ->. unfold subtotal_issue, total_issue.
    destruct total; rewrite !app_nil_r; reflexivity.
Qed.

(** Shipping is OK exactly when it is present and either zero or at most
    the vendor's maximum on record; a vendor without a maximum on record is
    never OK for a non-zero shipping charge. *)
Theorem check_shipping_ok_iff (SHIPPING_MAX_SEEN : list (string * float))
    (vendor : string) (shipping : option float) :
  chk_status (check_shipping SHIPPING_MAX_SEEN vendor shipping) = OK
  <-> exists sh,
        shipping = Some sh
        /\ ((sh =? 0)%float = true
            \/ exists m,
                 VendorDb.dict_get vendor SHIPPING_MAX_SEEN = Some m
                 /\ (sh <=? m)%float = true).
Proof.
  unfold check_shipping. destruct shipping as [sh |].
  - destruct (sh =? 0)%float eqn:Hz.
    + split; [| reflexivity]. intros _. exists sh. split; [reflexivity |].
      left. exact Hz.
    + destruct (VendorDb.dict_get vendor SHIPPING_MAX_SEEN) as [m |].
      * destruct (sh <=? m)%float eqn:Hle; simpl.
        -- split; [| reflexivity]. intros _. exists sh.
           split; [reflexivity |]. right. exists m. split; [reflexivity |].
           exact Hle.
        -- split; [intros H; discriminate H |].
           intros [s [Hs [Hzero | [m' [Hm Hle']]]]];
             injection Hs as <-; [congruence |].
           injection Hm as <-. congruence.
      * simpl. split; [intros H; discriminate H |].
        intros [s [Hs [Hzero | [m' [Hm _]]]]];
          injection Hs as <-; [congruence | discriminate Hm].
  - simpl. split; [intros H; discriminate H |].
    intros [s [Hs _]]. discriminate Hs.
Qed.

End PolicyFacts.

(** ** Further properties of the learning store *)

Lemma opt_str_eqb_eq (x y : option string) :
  opt_str_eqb x y = true <-> x = y.
Proof.
  destruct x as [a |], y as [b |]; simpl.
  - rewrite String.eqb_eq. split; [intros -> | intros H; injection H as ->];
      reflexivity.
  - split; intros H; discriminate H.
  - split; intros H; discriminate H.
  - split; reflexivity.
Qed.

Lemma existsb_opt_str_In (x : option string) (l : list (option string)) :
  existsb (opt_str_eqb x) l = true <-> In x l.
Proof.
  rewrite existsb_exists. split.
  - intros [y [Hy He]]. apply opt_str_eqb_eq in He. subst y. exact Hy.
  - intros H. exists x. split; [exact H | apply opt_str_eqb_refl].
Qed.

Module StoreFacts.

Import VendorDb.

Lemma dict_get_set_same {V : Type} (k : string) (v : V)
    (d : list (string * V)) :
  dict_get k (dict_set k v d) = Some v.
Proof.
  unfold dict_get. induction d as [| [k' v'] d IH]; simpl.
  - rewrite String.eqb_refl. reflexivity.
  - destruct (String.eqb k' k) eqn:E; simpl; rewrite E; [reflexivity |].
    exact IH.
Qed.

Lemma dict_get_set_other {V : Type} (k k0 : string) (v : V)
    (d : list (string * V)) :
  k0 <> k -> dict_get k0 (dict_set k v d) = dict_get k0 d.
Proof.
  intros Hne. unfold dict_get. induction d as [| [k' v'] d IH]; simpl.
  - destruct (String.eqb k k0) eqn:E; [| reflexivity].
    apply String.eqb_eq in E. congruence.
  - destruct (String.eqb k' k) eqn:E; simpl.
    + apply String.eqb_eq in E. subst k'.
      destruct (String.eqb k k0) eqn:E0; [| reflexivity].
      apply String.eqb_eq in E0. congruence.
    + destruct (String.eqb k' k0); [reflexivity | exact IH].
Qed.

Lemma total_points_dict_set {V : Type} (k : string) (v : list V)
    (d : list (string * list V)) :
  (total_points (dict_set k v d) + List.length (points_of k d)
   = total_points d + List.length v)%nat.
Proof.
  unfold total_points, points_of, dict_get.
  induction d as [| [k' l'] d IH]; simpl.
  - lia.
  - destruct (String.eqb k' k) eqn:E; simpl; [lia |].
    rewrite <- Nat.add_assoc, IH. lia.
Qed.

Lemma fold_min_In (l : list float) (x : float) :
  In (fold_left Py.min l x) (x :: l).
Proof.
  revert x. induction l as [| y l IH]; intros x; simpl.
  - left. reflexivity.
  - assert (Hc : Py.min x y = x \/ Py.min x y = y)
      by (unfold Py.min; destruct (y <? x)%float; [right | left]; reflexivity).
    destruct (IH (Py.min x y)) as [H | H].
    + rewrite <- H. destruct Hc as [-> | ->]; [left | right; left]; reflexivity.
    + right. right. exact H.
Qed.

Lemma fold_max_In (l : list float) (x : float) :
  In (fold_left Py.max l x) (x :: l).
Proof.
  revert x. induction l as [| y l IH]; intros x; simpl.
  - left. reflexivity.
  - assert (Hc : Py.max x y = x \/ Py.max x y = y)
      by (unfold Py.max; destruct (x <? y)%float; [right | left]; reflexivity).
    destruct (IH (Py.max x y)) as [H | H].
    + rewrite <- H. destruct Hc as [-> | ->]; [left | right; left]; reflexivity.
    + right. right. exact H.
Qed.

Lemma len_pos {A : Type} (x : A) (l : list A) : (1 <= len (x :: l))%Z.
Proof. unfold len. simpl List.length. lia. Qed.

Section WithRuntime.

Context {rt : Py.Runtime}.

Lemma get_learned_rate_cases (clk : Clock) (vendor_name item_name : string)
    (file : Store) :
  (get_learned_rate clk vendor_name item_name file = None
   <-> prices_on_file vendor_name item_name file clk = [])
  /\ (forall rd,
        get_learned_rate clk vendor_name item_name file = Some rd ->
        rd_n rd = len (prices_on_file vendor_name item_name file clk)
        /\ (1 <= rd_n rd)%Z
        /\ In (rd_min rd) (prices_on_file vendor_name item_name file clk)
        /\ In (rd_max rd) (prices_on_file vendor_name item_name file clk)
        /\ rd_source rd = Some "learned_db").
Proof.
  unfold get_learned_rate, prices_on_file, points_of.
  destruct (present (map p_unit_price _)) as [| x l] eqn:E.
  - simpl. split; [split; reflexivity | intros rd H; discriminate H].
  - simpl min_list. simpl max_list. cbv iota. split.
    + split; intros H; discriminate H.
    + intros rd H. injection H as <-. simpl.
      split; [reflexivity |]. split; [apply len_pos |].
      split; [apply fold_min_In | split; [apply fold_max_In | reflexivity]].
Qed.

(** [get_learned_rate] finds a rate exactly when some point on file for
    the key carries a unit price; the rate then counts the priced points,
    its minimum and maximum are prices on file, and its source is
    "learned_db". *)
Theorem get_learned_rate_spec (clk : Clock) (vendor_name item_name : string)
    (file : Store) :
  (get_learned_rate clk vendor_name item_name file = None
   <-> prices_on_file vendor_name item_name file clk = [])
  /\ (forall rd,
        get_learned_rate clk vendor_name item_name file = Some rd ->
        rd_n rd = len (prices_on_file vendor_name item_name file clk)
        /\ (1 <= rd_n rd)%Z
        /\ In (rd_min rd) (prices_on_file vendor_name item_name file clk)
        /\ In (rd_max rd) (prices_on_file vendor_name item_name file clk)
        /\ rd_source rd = Some "learned_db").
Proof.
  apply get_learned_rate_cases.
Qed.

Lemma record_item_keeps (inv : InvoiceData) (vendor : string)
    (hist : list (string * list PricePoint)) (item : LineItem)
    (k : string) (pts : list PricePoint) :
  dict_get k hist = Some pts ->
  exists more, dict_get k (record_item inv vendor hist item)
               = Some (pts ++ more).
Proof.
  intros Hk. unfold record_item.
  destruct (String.eqb (Py.strip (description item)) "").
  - exists []. rewrite app_nil_r. exact Hk.
  - destruct (String.eqb k (vendor ++ "|" ++ Py.strip (description item)))
      eqn:E.
    + apply String.eqb_eq in E. subst k. rewrite Hk.
      rewrite dict_get_set_same. eexists. reflexivity.
    + apply String.eqb_neq in E. rewrite dict_get_set_other by exact E.
      exists []. rewrite app_nil_r. exact Hk.
Qed.

Lemma record_items_keep (inv : InvoiceData) (vendor : string)
    (items : list LineItem) (hist : list (string * list PricePoint))
    (k : string) (pts : list PricePoint) :
  dict_get k hist = Some pts ->
  exists more,
    dict_get k (fold_left (record_item inv vendor) items hist)
    = Some (pts ++ more).
Proof.
  revert hist pts. induction items as [| item l IH]; intros hist pts Hk; simpl.
  - exists []. rewrite app_nil_r. exact Hk.
  - destruct (record_item_keeps inv vendor hist item k pts Hk) as [m1 H1].
    destruct (IH _ _ H1) as [m2 H2].
    exists (m1 ++ m2). rewrite H2, app_assoc. reflexivity.
Qed.

(** The store is append-only: whatever the status and the payload, a call
    on an existing store keeps every invoice entry and, under every key,
    every price point already on file, in place and in order; new entries
    and points only follow them.  The creation date is kept. *)
Theorem record_invoice_append_only (clk : Clock) (inv : InvoiceData)
    (decision_status vendor : string) (db : Db) :
  exists db',
    record_invoice clk inv decision_status vendor (Some db) = Some db'
    /\ (exists es, invoices db' = invoices db ++ es)
    /\ (forall k pts,
          dict_get k (price_history db) = Some pts ->
          exists more, dict_get k (price_history db') = Some (pts ++ more))
    /\ created (metadata db') = created (metadata db).
Proof.
  assert (Hsame : exists db',
            Some db = Some db'
            /\ (exists es, invoices db' = invoices db ++ es)
            /\ (forall k pts,
                  dict_get k (price_history db) = Some pts ->
                  exists more,
                    dict_get k (price_history db') = Some (pts ++ more))
            /\ created (metadata db') = created (metadata db)).
  { exists db. split; [reflexivity |].
    split; [exists []; rewrite app_nil_r; reflexivity |].
    split; [| reflexivity].
    intros k pts H. exists []. rewrite app_nil_r. exact H. }
  unfold record_invoice.
  destruct (negb (String.eqb decision_status "APPROVED")); [exact Hsame |].
  simpl _load_db.
  destruct (existsb _ _); [exact Hsame |].
  unfold _save_db. eexists. split; [reflexivity |]. simpl.
  split; [eexists; reflexivity |]. split; [| reflexivity].
  intros k pts H. apply record_items_keep. exact H.
Qed.

Lemma record_item_total (inv : InvoiceData) (vendor : string)
    (hist : list (string * list PricePoint)) (item : LineItem) :
  total_points (record_item inv vendor hist item)
  = (total_points hist + (if recorded item then 1 else 0))%nat.
Proof.
  unfold record_item, recorded.
  destruct (String.eqb (Py.strip (description item)) ""); simpl; [lia |].
  match goal with
  | |- total_points (dict_set ?k ?v hist) = _ =>
      pose proof (total_points_dict_set k v hist) as H
  end.
  unfold points_of in H. rewrite length_app in H. simpl in H. lia.
Qed.

Lemma record_items_total (inv : InvoiceData) (vendor : string)
    (items : list LineItem) (hist : list (string * list PricePoint)) :
  total_points (fold_left (record_item inv vendor) items hist)
  = (total_points hist + List.length (filter recorded items))%nat.
Proof.
  revert hist. induction items as [| item l IH]; intros hist; simpl.
  - lia.
  - rewrite IH, record_item_total. destruct (recorded item); simpl; lia.
Qed.

(** An APPROVED invoice whose number is not on file adds exactly one
    invoice entry, carrying that number and the vendor, and exactly one
    price point per line item whose stripped description is not empty;
    lines with a blank description add nothing. *)
Theorem record_invoice_adds (clk : Clock) (inv : InvoiceData)
    (vendor : string) (file : Store) :
  ~ In (invoice_number inv)
       (map e_invoice_number (invoices (_load_db clk file))) ->
  exists db' e,
    record_invoice clk inv "APPROVED" vendor file = Some db'
    /\ invoices db' = invoices (_load_db clk file) ++ [e]
    /\ e_invoice_number e = invoice_number inv
    /\ e_vendor e = vendor
    /\ total_points (price_history db')
       = (total_points (price_history (_load_db clk file))
          + List.length (filter recorded (line_items inv)))%nat
    /\ last_updated (metadata db') = Some (now_save clk).
Proof.
  intros Hnew. unfold record_invoice. simpl negb. cbv iota.
  destruct (existsb _ _) eqn:E.
  - apply existsb_opt_str_In in E. contradiction.
  - unfold _save_db. eexists. eexists. split; [reflexivity |]. simpl.
    split; [reflexivity |]. split; [reflexivity |]. split; [reflexivity |].
    split; [apply record_items_total | reflexivity].
Qed.

(** Invoice numbers stay unique: if no two entries on file share an
    invoice number, none do after a call, whatever its arguments. *)
Theorem record_invoice_keeps_numbers_unique (clk clk' : Clock)
    (inv : InvoiceData) (decision_status vendor : string) (file : Store) :
  NoDup (map e_invoice_number (invoices (_load_db clk file))) ->
  NoDup (map e_invoice_number
           (invoices (_load_db clk'
                        (record_invoice clk inv decision_status vendor file)))).
Proof.
  intros Hnd.
  assert (Hfile : NoDup (map e_invoice_number (invoices (_load_db clk' file)))).
  { destruct file; [exact Hnd | constructor]. }
  unfold record_invoice.
  destruct (negb (String.eqb decision_status "APPROVED")); [exact Hfile |].
  destruct (existsb _ _) eqn:E; [exact Hfile |].
  unfold _save_db. simpl. rewrite map_app. simpl.
  apply NoDup_app; [exact Hnd | apply NoDup_at_most_one; simpl; lia |].
  intros x Hx [<- | []].
  assert (Hin : existsb (opt_str_eqb (invoice_number inv))
                  (map e_invoice_number (invoices (_load_db clk file))) = true)
    by (apply existsb_opt_str_In; exact Hx).
  congruence.
Qed.

Lemma record_item_adds_point (inv : InvoiceData) (vendor : string)
    (hist : list (string * list PricePoint)) (item : LineItem) :
  recorded item = true ->
  exists pts,
    dict_get (vendor ++ "|" ++ Py.strip (description item))%string
      (record_item inv vendor hist item)
    = Some (pts ++ [{| p_unit_price := unit_price item;
                       p_quantity := quantity item;
                       p_line_total := line_total item;
                       p_date := invoice_date inv;
                       p_invoice_id := invoice_number inv |}]).
Proof.
  unfold recorded, record_item. intros H.
  destruct (String.eqb (Py.strip (description item)) ""); [discriminate H |].
  rewrite dict_get_set_same. eexists. reflexivity.
Qed.

Lemma record_items_add_point (inv : InvoiceData) (vendor : string)
    (items : list LineItem) (hist : list (string * list PricePoint))
    (item : LineItem) :
  In item items -> recorded item = true ->
  exists pts,
    dict_get (vendor ++ "|" ++ Py.strip (description item))%string
      (fold_left (record_item inv vendor) items hist) = Some pts
    /\ In {| p_unit_price := unit_price item;
             p_quantity := quantity item;
             p_line_total := line_total item;
             p_date := invoice_date inv;
             p_invoice_id := invoice_number inv |} pts.
Proof.
  revert hist. induction items as [| i l IH]; intros hist Hin Hrec.
  - destruct Hin.
  - simpl. destruct Hin as [-> | Hin].
    + destruct (record_item_adds_point inv vendor hist item Hrec) as [pts Hp].
      destruct (record_items_keep inv vendor l _ _ _ Hp) as [more Hm].
      eexists. split; [exact Hm |].
      apply in_or_app. left. apply in_or_app. right. left. reflexivity.
    + apply IH; assumption.
Qed.

Lemma present_In {A : Type} (l : list (option A)) (x : A) :
  In (Some x) l -> In x (present l).
Proof.
  induction l as [| [y |] l IH]; simpl; intros H.
  - destruct H.
  - destruct H as [H | H]; [injection H as ->; left; reflexivity |].
    right. apply IH. exact H.
  - destruct H as [H | H]; [discriminate H | apply IH; exact H].
Qed.

(** What is recorded can be looked up: after an APPROVED invoice whose
    number was not on file, every line with a non-blank description and a
    unit price has a learned rate under (vendor, stripped description), and
    its price is among the prices on file for that key. *)
Theorem recorded_price_is_learned (clk clk' : Clock) (inv : InvoiceData)
    (vendor : string) (file : Store) (item : LineItem) (p : float) :
  ~ In (invoice_number inv)
       (map e_invoice_number (invoices (_load_db clk file))) ->
  In item (line_items inv) ->
  recorded item = true ->
  unit_price item = Some p ->
  exists rd,
    get_learned_rate clk' vendor (Py.strip (description item))
      (record_invoice clk inv "APPROVED" vendor file) = Some rd
    /\ (1 <= rd_n rd)%Z
    /\ In p (prices_on_file vendor (Py.strip (description item))
               (record_invoice clk inv "APPROVED" vendor file) clk').
Proof.
  intros Hnew Hin Hrec Hp.
  assert (Hfile : In p (prices_on_file vendor (Py.strip (description item))
                          (record_invoice clk inv "APPROVED" vendor file) clk')).
  { unfold record_invoice. simpl negb. cbv iota.
    destruct (existsb _ _) eqn:E;
      [apply existsb_opt_str_In in E; contradiction |].
    unfold _save_db, prices_on_file, points_of.
    cbn [_load_db price_history].
    destruct (record_items_add_point inv vendor (line_items inv)
                (price_history (_load_db clk file)) item Hin Hrec)
      as [pts [Hpts Hpt]].
    rewrite Hpts. apply present_In. rewrite <- Hp.
    apply (in_map p_unit_price) in Hpt. exact Hpt. }
  destruct (get_learned_rate_cases clk' vendor (Py.strip (description item))
              (record_invoice clk inv "APPROVED" vendor file))
    as [Hnone Hsome].
  destruct (get_learned_rate clk' vendor (Py.strip (description item))
              (record_invoice clk inv "APPROVED" vendor file)) as [rd |].
  - exists rd. split; [reflexivity |].
    destruct (Hsome rd eq_refl) as (_ & Hn & _). split; assumption.
  - exfalso. rewrite (proj1 Hnone eq_refl) in Hfile. destruct Hfile.
Qed.

End WithRuntime.

End StoreFacts.

(** ** Further properties of the decision *)

Lemma with_status_nil_iff (st : LineStatus) (comps : list Comparison) :
  with_status st comps = [] <-> forall c, In c comps -> status c <> st.
Proof.
  split.
  - intros Hnil c Hin Hst.
    assert (H : In c (with_status st comps))
      by (apply with_status_In; split; assumption).
    rewrite Hnil in H. destruct H.
  - intros H. destruct (with_status st comps) as [| c l] eqn:E;
      [reflexivity |].
    assert (Hc : In c (with_status st comps)) by (rewrite E; left; reflexivity).
    apply with_status_In in Hc. destruct Hc as [Hin Hst].
    exfalso. exact (H c Hin Hst).
Qed.

Lemma all_in_range_iff (comps : list Comparison) :
  (forall c, In c comps -> status c = IN_RANGE)
  <-> with_status MISSING_PRICE comps = []
      /\ with_status NO_CONTRACT_RATE comps = []
      /\ with_status OUT_OF_RANGE comps = []
      /\ with_status OUTSIDE_RANGE comps = [].
Proof.
  rewrite !with_status_nil_iff. split.
  - intros H. repeat split; intros c Hin Hst; rewrite (H c Hin) in Hst;
      discriminate Hst.
  - intros (H1 & H2 & H3 & H4) c Hin.
    destruct (status c) eqn:E; try reflexivity; exfalso.
    + exact (H4 c Hin E).
    + exact (H3 c Hin E).
    + exact (H2 c Hin E).
    + exact (H1 c Hin E).
Qed.

Lemma no_critical_iff (ws : list string) :
  filter (fun w => str_in w CRITICAL_WARNINGS) ws = []
  <-> forall w, In w ws -> ~ In w CRITICAL_WARNINGS.
Proof.
  split.
  - intros Hnil w Hin Hcrit.
    assert (H : In w (filter (fun w => str_in w CRITICAL_WARNINGS) ws)).
    { apply filter_In. split; [exact Hin |].
      unfold str_in. apply existsb_exists. exists w.
      split; [exact Hcrit | apply String.eqb_refl]. }
    rewrite Hnil in H. destruct H.
  - intros H.
    destruct (filter (fun w => str_in w CRITICAL_WARNINGS) ws) as [| w l] eqn:E;
      [reflexivity |].
    assert (Hw : In w (filter (fun w => str_in w CRITICAL_WARNINGS) ws))
      by (rewrite E; left; reflexivity).
    apply filter_In in Hw. destruct Hw as [Hin Hc].
    unfold str_in in Hc. apply existsb_exists in Hc.
    destruct Hc as [x [Hx He]]. apply String.eqb_eq in He. subst x.
    exfalso. exact (H w Hin Hx).
Qed.

(** No reason code at all: the vendor is matched well enough, every item
    is IN_RANGE, the math holds and no warning is critical. *)
Lemma all_flags_nil_iff (vm : VendorMatch) (comps : list Comparison)
    (math_issues ws : list string) :
  all_flags vm comps math_issues ws = []
  <-> (match_type vm = exact \/ match_type vm = alias
       \/ match_type vm = fuzzy)
      /\ (forall c, In c comps -> status c = IN_RANGE)
      /\ math_issues = []
      /\ (forall w, In w ws -> ~ In w CRITICAL_WARNINGS).
Proof.
  rewrite all_in_range_iff, <- no_critical_iff. unfold all_flags. split.
  - intros H.
    apply app_eq_nil in H. destruct H as [Hv H].
    apply app_eq_nil in H. destruct H as [Hm H].
    apply app_eq_nil in H. destruct H as [Hn H].
    apply app_eq_nil in H. destruct H as [Ha H].
    apply app_eq_nil in H. destruct H as [Ho H].
    apply app_eq_nil in H. destruct H as [Hmath He].
    split; [| split; [repeat split | split]].
    + unfold vendor_flags in Hv. destruct (match_type vm);
        try discriminate Hv; tauto.
    + unfold missing_price_flags in Hm. apply map_eq_nil in Hm. exact Hm.
    + unfold no_rate_flags in Hn.
      destruct (with_status NO_CONTRACT_RATE comps); [reflexivity |].
      destruct (match_type vm); discriminate Hn.
    + unfold anomaly_flags in Ha. apply map_eq_nil in Ha. exact Ha.
    + unfold outside_flags in Ho. apply map_eq_nil in Ho. exact Ho.
    + unfold math_flags in Hmath. destruct math_issues;
        [reflexivity | discriminate Hmath].
    + unfold extraction_flags in He.
      destruct (filter _ ws); [reflexivity | discriminate He].
  - intros (Hv & (Hm & Hn & Ha & Ho) & Hmath & He).
    unfold missing_price_flags, no_rate_flags, anomaly_flags, outside_flags,
      math_flags, extraction_flags.
    rewrite Hm, Hn, Ha, Ho, Hmath, He. simpl.
    unfold vendor_flags. destruct Hv as [-> | [-> | ->]]; reflexivity.
Qed.

Section DecisionMore.

Context {rt : Py.Runtime}.

(** [decide] returns a record exactly on printable comparisons and raises
    [TypeError] on all others: an OUT_OF_RANGE item without price or
    contracted average, or an OUTSIDE_RANGE item without price, cannot be
    put into the question. *)
Theorem decide_returns_iff_printable (vm : VendorMatch)
    (comps : list Comparison) (math_issues : list string) (tc sc : Check)
    (ws : list string) :
  ((exists d, decide vm comps math_issues tc sc ws = Py.Ok d)
   <-> forallb printable comps = true)
  /\ (decide vm comps math_issues tc sc ws = Py.Raise Py.TypeError
      <-> forallb printable comps = false).
Proof.
  destruct (forallb printable comps) eqn:E.
  - destruct (decide_total vm comps math_issues tc sc ws E) as [d Hd].
    split; split; intros H.
    + reflexivity.
    + exists d. exact Hd.
    + rewrite Hd in H. discriminate H.
    + discriminate H.
  - pose proof (decide_raises vm comps math_issues tc sc ws E) as Hr.
    split; split; intros H.
    + destruct H as [d Hd]. rewrite Hr in Hd. discriminate Hd.
    + discriminate H.
    + reflexivity.
    + exact Hr.
Qed.

Lemma approved_when (vm : VendorMatch)
    (comps : list Comparison) (math_issues : list string) (tc sc : Check)
    (ws : list string) (d : Decision) :
  decide vm comps math_issues tc sc ws = Py.Ok d ->
  (d_status d = APPROVED
   <-> (match_type vm = exact \/ match_type vm = alias
        \/ match_type vm = fuzzy)
       /\ (forall c, In c comps -> status c = IN_RANGE)
       /\ math_issues = []
       /\ (forall w, In w ws -> ~ In w CRITICAL_WARNINGS)).
Proof.
  intros Hd.
  destruct (decide_inv _ _ _ _ _ _ _ Hd) as [a [Ha [Hst _]]].
  destruct (gather_inv _ _ _ _ _ _ _ Ha) as [Hf _].
  rewrite <- all_flags_nil_iff, <- Hf, Hst.
  destruct (len (flags a) =? 0)%Z eqn:E.
  - apply len_zero_iff in E. split; [intros _; exact E | reflexivity].
  - split; [intros H; discriminate H |].
    intros H. apply len_zero_iff in H. congruence.
Qed.

(** An invoice is APPROVED exactly when the vendor match is exact, alias or
    fuzzy, every line item is IN_RANGE, there is no math issue and no
    extraction warning is critical. *)
Theorem approved_iff (vm : VendorMatch)
    (comps : list Comparison) (math_issues : list string) (tc sc : Check)
    (ws : list string) (d : Decision) :
  decide vm comps math_issues tc sc ws = Py.Ok d ->
  (d_status d = APPROVED
   <-> (match_type vm = exact \/ match_type vm = alias
        \/ match_type vm = fuzzy)
       /\ (forall c, In c comps -> status c = IN_RANGE)
       /\ math_issues = []
       /\ (forall w, In w ws -> ~ In w CRITICAL_WARNINGS)).
Proof.
  intros Hd. apply approved_when with (tc := tc) (sc := sc). exact Hd.
Qed.

(** The steps of [decide] ask nothing when the vendor is matched well
    enough, no item lacks a rate or is OUT_OF_RANGE, the pattern detection
    does not fire and the math holds. *)
Lemma gather_asks_nothing (vm : VendorMatch) (comps : list Comparison)
    (tc sc : Check) (ws : list string) (a : Acc) :
  (match_type vm = exact \/ match_type vm = alias \/ match_type vm = fuzzy) ->
  with_status NO_CONTRACT_RATE comps = [] ->
  with_status OUT_OF_RANGE comps = [] ->
  all_outside comps = false ->
  gather vm comps [] tc sc ws = Py.Ok a ->
  questions a = [].
Proof.
  intros Hv Hn Ho Hall Ha.
  destruct (gather_inv _ _ _ _ _ _ _ Ha) as [_ [pre [post [Hq Hlen]]]].
  unfold earlier_questions in Hlen. rewrite Hn, Ho in Hlen.
  assert (Hpre : pre = []).
  { destruct pre; [reflexivity |].
    destruct Hv as [E | [E | E]]; rewrite E in Hlen; simpl in Hlen; lia. }
  subst pre. rewrite Hall in Hq. simpl in Hq.
  assert (Hmid : match with_status OUTSIDE_RANGE comps with
                 | [] => []
                 | _ :: _ => @nil string
                 end = []) by (destruct (with_status OUTSIDE_RANGE comps);
                               reflexivity).
  rewrite Hmid in Hq. simpl in Hq.
  (* the remaining questions come from the math check alone *)
  unfold gather in Ha.
  apply bind_ok in Ha. destruct Ha as [a4 [H4 Ha]].
  apply bind_ok in Ha. destruct Ha as [a5 [H5 Ha]].
  injection Ha as <-.
  rewrite extraction_check_questions.
  rewrite (proj2 (observe_keeps _ _ _)), (proj2 (observe_keeps _ _ _)).
  simpl math_check.
  apply outside_range_check_inv in H5. destruct H5 as [_ Q5].
  apply out_of_range_check_inv in H4. destruct H4 as [_ [q4 [Q4 L4]]].
  rewrite Q5, Hall, Q4. rewrite Ho in L4.
  destruct q4; [| simpl in L4; lia].
  destruct (no_rate_check_questions vm (with_status NO_CONTRACT_RATE comps)
              (add_flags (missing_price_flags comps)
                 (vendor_check vm
                    {| flags := []; notes := []; questions := [] |})))
    as [qn [Qn Ln]].
  rewrite Qn. rewrite Hn in Ln. destruct qn; [| simpl in Ln; lia].
  simpl questions.
  destruct (vendor_check_questions vm
              {| flags := []; notes := []; questions := [] |})
    as [qv [Qv Lv]].
  rewrite Qv.
  assert (Hqv : qv = []).
  { destruct qv; [reflexivity |].
    destruct Hv as [E | [E | E]]; rewrite E in Lv; simpl in Lv; lia. }
  subst qv. rewrite Hmid. reflexivity.
Qed.

(** An APPROVED invoice carries exactly one question, the default
    sanity check. *)
Theorem approved_has_default_question (vm : VendorMatch)
    (comps : list Comparison) (math_issues : list string) (tc sc : Check)
    (ws : list string) (d : Decision) :
  decide vm comps math_issues tc sc ws = Py.Ok d ->
  d_status d = APPROVED ->
  clarifying_questions d = [DEFAULT_QUESTION].
Proof.
  intros Hd Hst.
  apply (proj1 (approved_when _ _ _ _ _ _ _ Hd)) in Hst.
  destruct Hst as (Hv & Hin & Hmath & _). subst math_issues.
  apply all_in_range_iff in Hin. destruct Hin as (_ & Hn & Ho & Hs).
  destruct (decide_inv _ _ _ _ _ _ _ Hd) as [a [Ha [_ [_ [_ Hq]]]]].
  assert (Hall : all_outside comps = false).
  { unfold all_outside. rewrite Hs, Ho. unfold len. simpl List.length.
    destruct (filter priced comps) as [| c [| c' l]]; reflexivity. }
  rewrite (gather_asks_nothing vm comps tc sc ws a Hv Hn Ho Hall Ha) in Hq.
  exact Hq.
Qed.

(** A single soft deviation, an unreadable price or a critical extraction
    warning flags the invoice without asking anything: the record is
    FLAGGED and still carries the default question alone, which says that
    the invoice passed all automated checks. *)
Theorem flagged_with_default_question (vm : VendorMatch)
    (comps : list Comparison) (tc sc : Check) (ws : list string) :
  forallb printable comps = true ->
  (match_type vm = exact \/ match_type vm = alias \/ match_type vm = fuzzy) ->
  with_status NO_CONTRACT_RATE comps = [] ->
  with_status OUT_OF_RANGE comps = [] ->
  all_outside comps = false ->
  ((exists c, In c comps /\ status c <> IN_RANGE)
   \/ exists w, In w ws /\ In w CRITICAL_WARNINGS) ->
  exists d,
    decide vm comps [] tc sc ws = Py.Ok d
    /\ d_status d = FLAGGED
    /\ clarifying_questions d = [DEFAULT_QUESTION].
Proof.
  intros Hp Hv Hn Ho Hall Hflag.
  destruct (decide_total vm comps [] tc sc ws Hp) as [d Hd].
  exists d. split; [exact Hd |].
  destruct (decide_inv _ _ _ _ _ _ _ Hd) as [a [Ha [_ [_ [_ Hq]]]]].
  rewrite (gather_asks_nothing vm comps tc sc ws a Hv Hn Ho Hall Ha) in Hq.
  split; [| exact Hq].
  destruct (d_status d) eqn:Hst; [| reflexivity].
  apply (proj1 (approved_when _ _ _ _ _ _ _ Hd)) in Hst.
  destruct Hst as (_ & Hin & _ & Hw).
  destruct Hflag as [[c [Hc Hne]] | [w [Hin' Hcrit]]].
  - exfalso. apply Hne. apply Hin. exact Hc.
  - exfalso. exact (Hw w Hin' Hcrit).
Qed.

End DecisionMore.

(** ** Observations and reason codes are complete *)

Section Completeness.

Context {rt : Py.Runtime}.

Lemma extraction_check_notes (ws : list string) (a : Acc) :
  exists os, notes (extraction_check ws a) = notes a ++ os.
Proof.
  unfold extraction_check.
  destruct (filter (fun w => str_in w CRITICAL_WARNINGS) ws) as [| w l];
    match goal with
    | |- context [filter ?f ws] => destruct (filter f ws)
    end; simpl;
    first [ exists []; rewrite app_nil_r; reflexivity
          | eexists; reflexivity ].
Qed.

(** The accumulator after the price checks, which the later steps only
    extend. *)
Lemma gather_split (vm : VendorMatch) (comps : list Comparison)
    (math_issues : list string) (tc sc : Check) (ws : list string) (a : Acc) :
  gather vm comps math_issues tc sc ws = Py.Ok a ->
  exists a5,
    a = extraction_check ws
          (observe "Shipping" sc
             (observe "Tax" tc (math_check math_issues a5)))
    /\ forall math_issues' tc' sc' ws',
         gather vm comps math_issues' tc' sc' ws'
         = Py.Ok (extraction_check ws'
                    (observe "Shipping" sc'
                       (observe "Tax" tc' (math_check math_issues' a5)))).
Proof.
  unfold gather. intros H.
  apply bind_ok in H. destruct H as [a4 [H4 H]].
  apply bind_ok in H. destruct H as [a5 [H5 H]].
  injection H as <-. exists a5. split; [reflexivity |].
  intros mi' tc' sc' ws'. rewrite H4. simpl Py.bind. rewrite H5. reflexivity.
Qed.

(** Tax and shipping never flag: replacing the tax and shipping checks by
    any others leaves the status, the reason codes and the clarifying
    questions of the decision as they are. *)
Theorem tax_and_shipping_never_flag (vm : VendorMatch)
    (comps : list Comparison) (math_issues : list string)
    (tc sc tc' sc' : Check) (ws : list string) (d : Decision) :
  decide vm comps math_issues tc sc ws = Py.Ok d ->
  exists d',
    decide vm comps math_issues tc' sc' ws = Py.Ok d'
    /\ d_status d' = d_status d
    /\ reason_codes d' = reason_codes d
    /\ clarifying_questions d' = clarifying_questions d.
Proof.
  intros Hd.
  destruct (decide_inv _ _ _ _ _ _ _ Hd) as [a [Ha [Hst [Hrc [_ Hq]]]]].
  destruct (gather_split _ _ _ _ _ _ _ Ha) as [a5 [Ea Hany]].
  unfold decide. rewrite (Hany math_issues tc' sc' ws). simpl Py.bind.
  eexists. split; [reflexivity |]. simpl.
  rewrite Hst, Hrc, Hq, Ea.
  rewrite !extraction_check_flags, !extraction_check_questions.
  rewrite !(proj1 (observe_keeps _ _ _)), !(proj2 (observe_keeps _ _ _)).
  repeat split; reflexivity.
Qed.

(** Observations are never dropped: every math issue, the tax note and the
    shipping note are among the observations of the decision, whatever its
    status and however many questions were asked. *)
Theorem observations_complete (vm : VendorMatch)
    (comps : list Comparison) (math_issues : list string) (tc sc : Check)
    (ws : list string) (d : Decision) :
  decide vm comps math_issues tc sc ws = Py.Ok d ->
  (forall issue, In issue math_issues ->
                 In ("Math issue: " ++ issue)%string (observations d))
  /\ In ("Tax: " ++ chk_note tc)%string (observations d)
  /\ In ("Shipping: " ++ chk_note sc)%string (observations d).
Proof.
  intros Hd.
  destruct (decide_inv _ _ _ _ _ _ _ Hd) as [a [Ha [_ [_ [Hobs _]]]]].
  destruct (gather_split _ _ _ _ _ _ _ Ha) as [a5 [Ea _]].
  rewrite Hobs, Ea.
  destruct (extraction_check_notes ws
              (observe "Shipping" sc
                 (observe "Tax" tc (math_check math_issues a5)))) as [oe He].
  rewrite He.
  assert (Hship : notes (observe "Shipping" sc
                           (observe "Tax" tc (math_check math_issues a5)))
                  = notes (math_check math_issues a5)
                    ++ [("Tax: " ++ chk_note tc)%string]
                    ++ [("Shipping: " ++ chk_note sc)%string]).
  { unfold observe. destruct (chk_status sc), (chk_status tc); simpl;
      rewrite <- app_assoc; reflexivity. }
  rewrite Hship. split; [| split].
  - intros issue Hin. apply in_or_app. left. apply in_or_app. left.
    unfold math_check. destruct math_issues as [| i l]; [destruct Hin |].
    simpl. apply in_or_app. right.
    apply (in_map (fun issue => ("Math issue: " ++ issue)%string)) in Hin.
    exact Hin.
  - apply in_or_app. left. apply in_or_app. right. left. reflexivity.
  - apply in_or_app. left. apply in_or_app. right. right. left. reflexivity.
Qed.

(** Reason codes are never dropped: every MISSING_PRICE, OUT_OF_RANGE and
    OUTSIDE_RANGE item has its own code, an item without rate history is
    covered by the vendor code or by the new-items code, and a math issue
    and a critical extraction warning each leave their code. *)
Theorem reason_codes_complete (vm : VendorMatch)
    (comps : list Comparison) (math_issues : list string) (tc sc : Check)
    (ws : list string) (d : Decision) :
  decide vm comps math_issues tc sc ws = Py.Ok d ->
  (forall c, In c comps ->
     (status c = MISSING_PRICE ->
      In ("MISSING_PRICE:" ++ canonical_item c)%string (reason_codes d))
     /\ (status c = OUT_OF_RANGE ->
         In ("PRICE_ANOMALY:" ++ canonical_item c)%string (reason_codes d))
     /\ (status c = OUTSIDE_RANGE ->
         In ("PRICE_OUTSIDE_RANGE:" ++ canonical_item c)%string
            (reason_codes d))
     /\ (status c = NO_CONTRACT_RATE ->
         In "VENDOR_NOT_IN_APPROVED_LIST" (reason_codes d)
         \/ In ("NEW_ITEMS_NO_RATE_HISTORY:"
                ++ Py.join ", "
                     (map canonical_item
                          (with_status NO_CONTRACT_RATE comps)))%string
               (reason_codes d)))
  /\ (math_issues <> [] -> In "MATH_DISCREPANCY" (reason_codes d))
  /\ (forall w, In w ws -> In w CRITICAL_WARNINGS ->
        In ("EXTRACTION_FAILURE:"
            ++ Py.join ", "
                 (filter (fun w => str_in w CRITICAL_WARNINGS) ws))%string
           (reason_codes d)).
Proof.
  intros Hd.
  destruct (decide_inv _ _ _ _ _ _ _ Hd) as [a [Ha [_ [Hrc _]]]].
  destruct (gather_inv _ _ _ _ _ _ _ Ha) as [Hf _].
  rewrite Hrc, Hf. unfold all_flags. split; [| split].
  - intros c Hin. repeat split; intros Hst.
    + apply in_or_app. right. apply in_or_app. left.
      unfold missing_price_flags.
      apply (in_map (fun c => ("MISSING_PRICE:" ++ canonical_item c)%string)).
      apply with_status_In. split; assumption.
    + apply in_or_app. right. apply in_or_app. right. apply in_or_app. right.
      apply in_or_app. left. unfold anomaly_flags.
      apply (in_map (fun c => ("PRICE_ANOMALY:" ++ canonical_item c)%string)).
      apply with_status_In. split; assumption.
    + apply in_or_app. right. apply in_or_app. right. apply in_or_app. right.
      apply in_or_app. right. apply in_or_app. left. unfold outside_flags.
      apply (in_map
               (fun c => ("PRICE_OUTSIDE_RANGE:" ++ canonical_item c)%string)).
      apply with_status_In. split; assumption.
    + assert (Hc : In c (with_status NO_CONTRACT_RATE comps))
        by (apply with_status_In; split; assumption).
      unfold no_rate_flags.
      destruct (with_status NO_CONTRACT_RATE comps) as [| c0 l0] eqn:E;
        [destruct Hc |].
      destruct (match_type vm) eqn:Emt;
        try (right; apply in_or_app; right; apply in_or_app; right;
             apply in_or_app; left; left; reflexivity).
      left. apply in_or_app. left. unfold vendor_flags. rewrite Emt.
      left. reflexivity.
  - intros Hne. do 5 (apply in_or_app; right). apply in_or_app. left.
    unfold math_flags. destruct math_issues; [congruence |].
    left. reflexivity.
  - intros w Hin Hcrit. do 6 (apply in_or_app; right).
    unfold extraction_flags.
    destruct (filter (fun w => str_in w CRITICAL_WARNINGS) ws) as [| x l] eqn:E.
    + exfalso. exact (proj1 (no_critical_iff ws) E w Hin Hcrit).
    + left. reflexivity.
Qed.

End Completeness.

(** ** Vendor and item matching *)

Section MatcherFacts.

Context {rt : Py.Runtime} {tx : Txt.Library}.
Variable APPROVED_VENDORS : list (string * list string).
Variable ITEM_ALIASES : list (string * string).

Lemma score_against_ok (name_lower canonical candidate : string)
    (best : Z * option string) :
  In canonical (map fst APPROVED_VENDORS) ->
  fuzzy_state_ok APPROVED_VENDORS best ->
  fuzzy_state_ok APPROVED_VENDORS
    (score_against name_lower canonical candidate best).
Proof.
  intros Hin Hok. unfold score_against.
  destruct (fst best <? Txt.fuzz_ratio name_lower candidate)%Z eqn:E;
    [| exact Hok].
  apply Z.ltb_lt in E. right. simpl. split.
  - destruct Hok as [[H0 _] | [Hpos _]]; lia.
  - exists canonical. split; [reflexivity | exact Hin].
Qed.

Lemma score_vendor_ok (name_lower : string) (best : Z * option string)
    (entry : string * list string) :
  In (fst entry) (map fst APPROVED_VENDORS) ->
  fuzzy_state_ok APPROVED_VENDORS best ->
  fuzzy_state_ok APPROVED_VENDORS (score_vendor name_lower best entry).
Proof.
  intros Hin Hok. unfold score_vendor.
  assert (H1 := score_against_ok name_lower (fst entry)
                  (Txt.lower (fst entry)) best Hin Hok).
  revert H1. generalize (score_against name_lower (fst entry)
                           (Txt.lower (fst entry)) best).
  induction (snd entry) as [| a l IH]; intros b Hb; simpl; [exact Hb |].
  apply IH. apply score_against_ok; assumption.
Qed.

Lemma fuzzy_loop_ok (name_lower : string) (entries : list (string * list string))
    (best : Z * option string) :
  (forall e, In e entries -> In (fst e) (map fst APPROVED_VENDORS)) ->
  fuzzy_state_ok APPROVED_VENDORS best ->
  fuzzy_state_ok APPROVED_VENDORS
    (fold_left (score_vendor name_lower) entries best).
Proof.
  revert best. induction entries as [| e l IH]; intros best Hall Hok; simpl.
  - exact Hok.
  - apply IH.
    + intros x Hx. apply Hall. right. exact Hx.
    + apply score_vendor_ok; [apply Hall; left; reflexivity | exact Hok].
Qed.

(** The three facts about the result of [match_vendor], for later use. *)
Lemma match_vendor_cases (invoice_vendor_name : option string) :
  let m := match_vendor APPROVED_VENDORS invoice_vendor_name in
  (canonical_name m = None <-> match_type m = none)
  /\ (forall c, canonical_name m = Some c ->
                In c (map fst APPROVED_VENDORS))
  /\ match match_type m with
     | exact => confidence m = 1.0%float
     | alias => confidence m = 0.95%float
     | fuzzy =>
         exists score, (85 <= score)%Z
                       /\ confidence m = (Py.of_Z score / 100)%float
     | fuzzy_low_confidence =>
         exists score, (60 <= score < 85)%Z
                       /\ confidence m = (Py.of_Z score / 100)%float
     | none => confidence m = 0.0%float
     end.
Proof.
  assert (Hnone : (canonical_name no_match = None
                   <-> match_type no_match = none)
                  /\ (forall c, canonical_name no_match = Some c ->
                                In c (map fst APPROVED_VENDORS))
                  /\ confidence no_match = 0.0%float).
  { simpl. repeat split; try reflexivity. intros c H. discriminate H. }
  unfold match_vendor.
  destruct invoice_vendor_name as [raw |]; [| exact Hnone].
  destruct (String.eqb raw ""); [exact Hnone |].
  destruct (find _ APPROVED_VENDORS) as [e |] eqn:Hexact.
  { apply find_some in Hexact. destruct Hexact as [Hin _]. simpl.
    split; [split; intros H; discriminate H |]. split; [| reflexivity].
    intros c H. injection H as <-. apply in_map. exact Hin. }
  clear Hexact.
  destruct (find _ APPROVED_VENDORS) as [e |] eqn:Halias.
  { apply find_some in Halias. destruct Halias as [Hin _]. simpl.
    split; [split; intros H; discriminate H |]. split; [| reflexivity].
    intros c H. injection H as <-. apply in_map. exact Hin. }
  pose proof (fuzzy_loop_ok (Txt.lower (Py.strip raw)) APPROVED_VENDORS
                (0%Z, None)
                (fun e He => in_map fst _ _ He)
                (or_introl (conj eq_refl eq_refl))) as Hok.
  destruct (fold_left _ APPROVED_VENDORS (0%Z, None)) as [score best_match].
  unfold fuzzy_state_ok in Hok. simpl fst in *. simpl snd in *.
  destruct (85 <=? score)%Z eqn:E85.
  { apply Z.leb_le in E85.
    destruct Hok as [[H0 _] | [_ [c [Hc Hin]]]]; [lia |]. simpl in *.
    subst best_match.
    split; [split; intros H; discriminate H |]. split.
    - intros c' H. injection H as <-. exact Hin.
    - exists score. split; [exact E85 | reflexivity]. }
  destruct (60 <=? score)%Z eqn:E60; [| exact Hnone].
  apply Z.leb_le in E60. apply Z.leb_gt in E85.
  destruct Hok as [[H0 _] | [_ [c [Hc Hin]]]]; [lia |]. simpl in *.
  subst best_match.
  split; [split; intros H; discriminate H |]. split.
  - intros c' H. injection H as <-. exact Hin.
  - exists score. split; [lia | reflexivity].
Qed.

(** [match_vendor] names a vendor exactly when the match type is not
    "none", the vendor it names is always a key of [APPROVED_VENDORS], and
    the confidence goes with the match type: 1.0 for exact, 0.95 for alias,
    score/100 with a score of at least 85 for fuzzy and of 60 to 84 for
    fuzzy_low_confidence, 0.0 for none. *)
Theorem match_vendor_shape (invoice_vendor_name : option string) :
  let m := match_vendor APPROVED_VENDORS invoice_vendor_name in
  (canonical_name m = None <-> match_type m = none)
  /\ (forall c, canonical_name m = Some c ->
                In c (map fst APPROVED_VENDORS))
  /\ match match_type m with
     | exact => confidence m = 1.0%float
     | alias => confidence m = 0.95%float
     | fuzzy =>
         exists score, (85 <= score)%Z
                       /\ confidence m = (Py.of_Z score / 100)%float
     | fuzzy_low_confidence =>
         exists score, (60 <= score < 85)%Z
                       /\ confidence m = (Py.of_Z score / 100)%float
     | none => confidence m = 0.0%float
     end.
Proof.
  apply match_vendor_cases.
Qed.

(** A name that, once stripped, is a key of [APPROVED_VENDORS] is always
    an exact match with confidence 1.0, to a vendor equal to it up to
    letter case; no alias or fuzzy score is consulted. *)
Theorem approved_name_matches_exactly (raw : string) :
  raw <> "" ->
  In (Py.strip raw) (map fst APPROVED_VENDORS) ->
  exists c,
    match_vendor APPROVED_VENDORS (Some raw)
    = {| canonical_name := Some c; match_type := exact;
         confidence := 1.0 |}
    /\ In c (map fst APPROVED_VENDORS)
    /\ (Py.strip raw = c
        \/ Txt.lower (Py.strip raw) = Txt.lower c).
Proof.
  intros Hne Hin. unfold match_vendor.
  destruct (String.eqb raw "") eqn:E;
    [apply String.eqb_eq in E; contradiction |].
  destruct (find _ APPROVED_VENDORS) as [e |] eqn:Hf.
  - apply find_some in Hf. destruct Hf as [He Hp].
    exists (fst e). split; [reflexivity |].
    split; [apply in_map; exact He |].
    apply orb_true_iff in Hp. destruct Hp as [Hp | Hp];
      apply String.eqb_eq in Hp; [left | right]; exact Hp.
  - exfalso. apply in_map_iff in Hin. destruct Hin as [e [He Hin]].
    pose proof (find_none _ _ Hf e Hin) as Hn. simpl in Hn.
    rewrite He, String.eqb_refl in Hn. discriminate Hn.
Qed.

(** [normalize_item_name] never invents a name: it returns a value of
    [ITEM_ALIASES] or the stripped description (the empty description
    stays empty); and a description whose stripped, lower-case form is a
    key of [ITEM_ALIASES] gets that key's value. *)
Theorem normalize_item_name_result (description : string) :
  (In (normalize_item_name ITEM_ALIASES description) (map snd ITEM_ALIASES)
   \/ normalize_item_name ITEM_ALIASES description = Py.strip description
   \/ (description = ""
       /\ normalize_item_name ITEM_ALIASES description = ""))
  /\ (forall canonical,
        description <> "" ->
        VendorDb.dict_get (Txt.lower (Py.strip description)) ITEM_ALIASES
        = Some canonical ->
        normalize_item_name ITEM_ALIASES description = canonical).
Proof.
  assert (Hval : forall k v, VendorDb.dict_get k ITEM_ALIASES = Some v ->
                             In v (map snd ITEM_ALIASES)).
  { intros k v H. unfold VendorDb.dict_get in H.
    destruct (find _ ITEM_ALIASES) as [kv |] eqn:Hf; [| discriminate H].
    injection H as <-. apply find_some in Hf. apply in_map. tauto. }
  unfold normalize_item_name. split.
  - destruct (String.eqb description "") eqn:E.
    + apply String.eqb_eq in E. right. right. split; assumption.
    + destruct (VendorDb.dict_get (Txt.lower _) ITEM_ALIASES)
        as [v |] eqn:H1; [left; eapply Hval; exact H1 |].
      destruct (VendorDb.dict_get (Txt.strip_trailing_context _) ITEM_ALIASES)
        as [v |] eqn:H2; [left; eapply Hval; exact H2 |].
      destruct (VendorDb.dict_get (Txt.replace _ _ _) ITEM_ALIASES)
        as [v |] eqn:H3; [left; eapply Hval; exact H3 |].
      right. left. reflexivity.
  - intros canonical Hne Hk.
    destruct (String.eqb description "") eqn:E;
      [apply String.eqb_eq in E; contradiction |].
    rewrite Hk. reflexivity.
Qed.

End MatcherFacts.

(** ** Statistics of the learning store *)

Lemma nodup_length_le (l : list string) :
  (List.length (nodup string_dec l) <= List.length l)%nat.
Proof.
  induction l as [| x l IH]; simpl; [lia |].
  destruct (in_dec string_dec x l); simpl; lia.
Qed.

Lemma nodup_snoc_length (l : list string) (v : string) :
  List.length (nodup string_dec (l ++ [v]))
  = if in_dec string_dec v l
    then List.length (nodup string_dec l)
    else S (List.length (nodup string_dec l)).
Proof.
  induction l as [| x l IH]; simpl.
  - reflexivity.
  - destruct (in_dec string_dec x (l ++ [v])) as [Hx | Hx];
      destruct (in_dec string_dec x l) as [Hxl | Hxl].
    + rewrite IH. destruct (string_dec x v) as [-> | Hne].
      * destruct (in_dec string_dec v l); [reflexivity | contradiction].
      * destruct (in_dec string_dec v l); reflexivity.
    + apply in_app_or in Hx. destruct Hx as [Hx | [<- | []]];
        [contradiction |].
      rewrite IH. destruct (string_dec v v) as [_ | Hne]; [| congruence].
      destruct (in_dec string_dec v l); [contradiction | reflexivity].
    + exfalso. apply Hx. apply in_or_app. left. exact Hxl.
    + simpl. rewrite IH. destruct (string_dec x v) as [-> | Hne].
      * exfalso. apply Hx. apply in_or_app. right. left. reflexivity.
      * destruct (in_dec string_dec v l); reflexivity.
Qed.

Lemma dict_set_length {V : Type} (k : string) (v : V) (d : list (string * V)) :
  (List.length d <= List.length (VendorDb.dict_set k v d))%nat.
Proof.
  induction d as [| [k' v'] d IH]; simpl; [lia |].
  destruct (String.eqb k' k); simpl; lia.
Qed.

Section Statistics.

Context {rt : Py.Runtime}.

Import VendorDb.

(** The statistics are consistent: there are never more distinct vendors
    than invoices, no count is negative, and a store without file counts
    nothing. *)
Theorem get_db_stats_bounds (DB_PATH : string) (clk : Clock) (file : Store) :
  (0 <= unique_vendors (get_db_stats DB_PATH clk file)
     <= total_invoices (get_db_stats DB_PATH clk file))%Z
  /\ (0 <= unique_items_tracked (get_db_stats DB_PATH clk file))%Z
  /\ (file = None ->
      total_invoices (get_db_stats DB_PATH clk file) = 0%Z
      /\ unique_vendors (get_db_stats DB_PATH clk file) = 0%Z
      /\ unique_items_tracked (get_db_stats DB_PATH clk file) = 0%Z).
Proof.
  unfold get_db_stats, count_distinct, len. simpl. split; [| split].
  - pose proof (nodup_length_le (map e_vendor (invoices (_load_db clk file)))).
    rewrite length_map in H. lia.
  - lia.
  - intros ->. simpl. repeat split; reflexivity.
Qed.

Lemma record_items_length (inv : InvoiceData) (vendor : string)
    (items : list LineItem) (hist : list (string * list PricePoint)) :
  (List.length hist
   <= List.length (fold_left (record_item inv vendor) items hist))%nat.
Proof.
  revert hist. induction items as [| item l IH]; intros hist; simpl; [lia |].
  etransitivity; [| apply IH].
  unfold record_item. destruct (String.eqb _ ""); [lia |].
  apply dict_set_length.
Qed.

(** Recording an APPROVED invoice whose number is not on file raises the
    invoice count by one, raises the vendor count by one exactly when the
    vendor has no invoice on file yet, and never lowers the number of
    tracked items. *)
Theorem get_db_stats_after_record (DB_PATH : string) (clk clk' : Clock)
    (inv : InvoiceData) (vendor : string) (file : Store) :
  ~ In (invoice_number inv)
       (map e_invoice_number (invoices (_load_db clk file))) ->
  let before := get_db_stats DB_PATH clk file in
  let after :=
    get_db_stats DB_PATH clk'
      (record_invoice clk inv "APPROVED" vendor file) in
  total_invoices after = (total_invoices before + 1)%Z
  /\ unique_vendors after
     = (unique_vendors before
        + if in_dec string_dec vendor
               (map e_vendor (invoices (_load_db clk file)))
          then 0 else 1)%Z
  /\ (unique_items_tracked before <= unique_items_tracked after)%Z.
Proof.
  intros Hnew. unfold record_invoice. simpl negb. cbv iota.
  destruct (existsb _ _) eqn:E;
    [apply existsb_opt_str_In in E; contradiction |].
  unfold get_db_stats, _save_db, count_distinct, len.
  cbn [_load_db total_invoices unique_vendors unique_items_tracked
       invoices price_history].
  rewrite length_app, map_app. cbn [map e_vendor List.length].
  rewrite nodup_snoc_length. split; [lia |]. split.
  - destruct (in_dec string_dec vendor _); lia.
  - pose proof (record_items_length inv vendor (line_items inv)
                  (price_history (_load_db clk file))). lia.
Qed.

End Statistics.

(** ** The advisory layer *)

(** A slice holds no more characters than asked for, however many bytes
    they take. *)
Lemma take_chars_le (n : nat) (s : string) :
  (Txt.chars (Txt.take n s) <= n)%nat.
Proof.
  revert n. induction s as [| a s IH]; intros n; simpl; [lia |].
  destruct (Txt.is_continuation a) eqn:E; simpl.
  - rewrite E. apply IH.
  - destruct n as [| k]; simpl; [lia |]. rewrite E.
    specialize (IH k). lia.
Qed.

(** The slice counts characters, not bytes: the dash takes three bytes. *)
Example take_counts_characters :
  Txt.take 3 "a–bc" = "a–b"
  /\ Txt.chars (Txt.take 3 "a–bc") = 3%nat
  /\ String.length (Txt.take 3 "a–bc") = 5%nat.
Proof.
  repeat split; reflexivity.
Qed.

Lemma str_in_In (x : string) (l : list string) :
  str_in x l = true <-> In x l.
Proof.
  unfold str_in. rewrite existsb_exists. split.
  - intros [y [Hy He]]. apply String.eqb_eq in He. subst y. exact Hy.
  - intros H. exists x. split; [exact H | apply String.eqb_refl].
Qed.

Section AdvisoryLayer.

Context {rt : Py.Runtime} {tx : Txt.Library}.
Variable world : Analyzer.World.

Import Analyzer.

Lemma texts_capped (cap : nat) (x : Json) :
  (List.length (texts cap x) <= cap)%nat
  /\ Forall (fun t => (Txt.chars t <= 300)%nat) (texts cap x).
Proof.
  unfold texts. destruct x as [| | | | | l |]; try (split; [simpl; lia | constructor]).
  split.
  - pose proof (firstn_le_length cap l) as Hcap.
    assert (H : forall l' : list Json,
              (List.length
                 (flat_map
                    (fun i =>
                       match i with
                       | JStr s =>
                           if String.eqb (Py.strip s) "" then []
                           else [Txt.take 300 s]
                       | _ => []
                       end) l') <= List.length l')%nat).
    { induction l' as [| i l' IH]; simpl; [lia |]. rewrite length_app.
      destruct i as [| | | | s | |]; simpl; try lia.
      destruct (String.eqb (Py.strip s) ""); simpl; lia. }
    specialize (H (firstn cap l)). lia.
  - apply Forall_forall. intros t Ht. apply in_flat_map in Ht.
    destruct Ht as [i [_ Hi]]. destruct i as [| | | | s | |];
      try (destruct Hi).
    destruct (String.eqb (Py.strip s) ""); [destruct Hi |].
    destruct Hi as [<- | []]. apply take_chars_le.
Qed.

Lemma or_default_bounded (s default : string) (n : nat) :
  (Txt.chars s <= n)%nat ->
  default <> "" ->
  (Txt.chars default <= n)%nat ->
  or_default s default <> "" /\ (Txt.chars (or_default s default) <= n)%nat.
Proof.
  intros Hs Hne Hd. unfold or_default. destruct (String.eqb s "") eqn:E.
  - split; assumption.
  - apply String.eqb_neq in E. split; assumption.
Qed.

Lemma risk_guard (algorithmic_status risk0 : string) :
  let risk1 := if str_in risk0 VALID_RISK_LEVELS then risk0 else "medium" in
  let risk2 :=
    if String.eqb algorithmic_status "FLAGGED" && String.eqb risk1 "low"
    then "medium" else risk1 in
  In risk2 VALID_RISK_LEVELS
  /\ (algorithmic_status = "FLAGGED" -> risk2 <> "low").
Proof.
  intros risk1 risk2.
  assert (H1 : In risk1 VALID_RISK_LEVELS).
  { subst risk1. destruct (str_in risk0 VALID_RISK_LEVELS) eqn:E.
    - apply str_in_In. exact E.
    - right. left. reflexivity. }
  subst risk2. generalize dependent risk1. intros risk1 H1.
  destruct (String.eqb algorithmic_status "FLAGGED") eqn:Ef;
    destruct (String.eqb risk1 "low") eqn:El; cbn [andb]; cbv iota.
  - split; [right; left; reflexivity | intros _ H; discriminate H].
  - split; [exact H1 | intros _; apply String.eqb_neq; exact El].
  - split; [exact H1 |]. intros ->. rewrite String.eqb_refl in Ef.
    discriminate Ef.
  - split; [exact H1 | intros _; apply String.eqb_neq; exact El].
Qed.

Lemma sanitized_risk (raw_response : Json) (algorithmic_status : string)
    (s : Sanitized) :
  _validate_and_sanitize world raw_response algorithmic_status = Returns s ->
  In (s_risk_level s) VALID_RISK_LEVELS
  /\ (algorithmic_status = "FLAGGED" -> s_risk_level s <> "low").
Proof.
  unfold _validate_and_sanitize.
  destruct raw_response as [| | | | | | d]; try (intros H; discriminate H).
  intros H. injection H as <-.
  exact (risk_guard algorithmic_status
           (Py.strip
              (Txt.lower (str world (get "risk_level" (JStr "medium") d))))).
Qed.

(** The guardrails hold for whatever object the model answers: the
    sanitized risk level is one of low, medium, high and critical, and
    never low when the algorithm FLAGGED the invoice; there are at most 5
    insights and 3 questions of at most 300 characters each; summary and
    explanation are never empty and at most 500 characters long.  The
    lengths count characters, as the slices of the code do: a text of
    500 characters can take more than 500 bytes. *)
Theorem sanitize_guardrails (raw_response : Json)
    (algorithmic_status : string) (s : Sanitized) :
  _validate_and_sanitize world raw_response algorithmic_status = Returns s ->
  In (s_risk_level s) VALID_RISK_LEVELS
  /\ (algorithmic_status = "FLAGGED" -> s_risk_level s <> "low")
  /\ (List.length (s_insights s) <= 5)%nat
  /\ Forall (fun t => (Txt.chars t <= 300)%nat) (s_insights s)
  /\ (List.length (s_recommended_questions s) <= 3)%nat
  /\ Forall (fun t => (Txt.chars t <= 300)%nat)
            (s_recommended_questions s)
  /\ (s_executive_summary s <> ""
      /\ (Txt.chars (s_executive_summary s) <= 500)%nat)
  /\ (s_explanation s <> ""
      /\ (Txt.chars (s_explanation s) <= 500)%nat).
Proof.
  intros H. destruct (sanitized_risk _ _ _ H) as [Hvalid Hlow].
  split; [exact Hvalid |]. split; [exact Hlow |].
  unfold _validate_and_sanitize in H.
  destruct raw_response as [| | | | | | d]; try discriminate H.
  injection H as <-. simpl.
  destruct (texts_capped MAX_INSIGHTS (get "insights" (JList []) d))
    as [Hi1 Hi2].
  destruct (texts_capped MAX_QUESTIONS
              (get "recommended_questions" (JList []) d)) as [Hq1 Hq2].
  split; [exact Hi1 |]. split; [exact Hi2 |].
  split; [exact Hq1 |]. split; [exact Hq2 |].
  split; apply or_default_bounded;
    first [apply take_chars_le | discriminate | cbv; lia].
Qed.

(** The advisory layer can never play a flag down: whatever the
    surroundings (package, key, failures, the model's answer), an analysis
    that is returned has a valid risk level, which is not "low" when the
    decision is FLAGGED; and an analysis made without the model carries no
    insight and no question. *)
Theorem analysis_never_plays_down (invoice_data : InvoiceData)
    (decision_result : Decision) (a : Analysis) :
  analyze_invoice world invoice_data decision_result = Returns a ->
  In (risk_level a) VALID_RISK_LEVELS
  /\ (d_status decision_result = FLAGGED -> risk_level a <> "low")
  /\ (List.length (recommended_questions a) <= 3)%nat
  /\ (ai_available a = false ->
      insights a = [] /\ recommended_questions a = []).
Proof.
  assert (Hfb : forall e l,
            In (risk_level (fallback invoice_data
                              (status_name (d_status decision_result)) e l))
               VALID_RISK_LEVELS
            /\ (d_status decision_result = FLAGGED ->
                risk_level (fallback invoice_data
                              (status_name (d_status decision_result)) e l)
                <> "low")
            /\ (List.length
                  (recommended_questions
                     (fallback invoice_data
                        (status_name (d_status decision_result)) e l))
                <= 3)%nat
            /\ (ai_available
                  (fallback invoice_data
                     (status_name (d_status decision_result)) e l) = false ->
                insights
                  (fallback invoice_data
                     (status_name (d_status decision_result)) e l) = []
                /\ recommended_questions
                     (fallback invoice_data
                        (status_name (d_status decision_result)) e l) = [])).
  { intros e l. unfold fallback. cbn [risk_level recommended_questions
                                      insights ai_available].
    destruct (d_status decision_result); simpl.
    - split; [left; reflexivity |]. split; [intros H; discriminate H |].
      split; [lia | intros _; split; reflexivity].
    - split; [right; left; reflexivity |]. split; [intros _ H; discriminate H |].
      split; [lia | intros _; split; reflexivity]. }
  unfold analyze_invoice.
  destruct (_ || _)%bool; [intros H; injection H as <-; apply Hfb |].
  destruct (attempt world 0 MAX_RETRIES) as [name | [raw_text |]];
    [intros H; injection H as <-; apply Hfb | |
     intros H; injection H as <-; apply Hfb].
  destruct (json_loads world raw_text) as [raw | | name];
    [| intros H; injection H as <-; apply Hfb | intros H; discriminate H].
  destruct (_validate_and_sanitize world raw
              (status_name (d_status decision_result))) as [s | name] eqn:Hs;
    [| intros H; discriminate H].
  intros H. injection H as <-. cbn [risk_level recommended_questions
                                    insights ai_available].
  destruct (sanitized_risk _ _ _ Hs) as [Hvalid Hlow].
  split; [exact Hvalid |]. split.
  - intros Hf. apply Hlow. rewrite Hf. reflexivity.
  - split; [| intros H; discriminate H].
    unfold _validate_and_sanitize in Hs.
    destruct raw as [| | | | | | d]; try discriminate Hs.
    injection Hs as <-. simpl. apply texts_capped.
Qed.

(** [analyze_invoice] raises in two cases only (the client and the prompts
    taken to be built).  In both the package and the key are there and an
    attempt returned a text.  Either [json.loads] of the text raises an
    exception that is not [JSONDecodeError], which is passed on as it is;
    or the text is JSON but not an object, and [AttributeError] is raised
    on the first [get].  Everything else (no package, no key, two failed
    attempts, no content, invalid JSON, an object) returns. *)
Theorem analyze_invoice_raises_iff (invoice_data : InvoiceData)
    (decision_result : Decision) (name : string) :
  analyze_invoice world invoice_data decision_result = Raises name
  <-> OPENAI_AVAILABLE world = true
      /\ Py.strip (api_key world) <> ""
      /\ exists raw_text,
           attempt world 0 MAX_RETRIES = Replied (Some raw_text)
           /\ (json_loads world raw_text = Uncaught name
               \/ (name = "AttributeError"
                   /\ exists raw_response,
                        json_loads world raw_text = Parsed raw_response
                        /\ forall d, raw_response <> JObj d)).
Proof.
  unfold analyze_invoice.
  destruct (OPENAI_AVAILABLE world); simpl negb; simpl orb.
  2: { split; [intros H; discriminate H | intros [H _]; discriminate H]. }
  destruct (String.eqb (Py.strip (api_key world)) "") eqn:Ekey.
  { apply String.eqb_eq in Ekey. split; [intros H; discriminate H |].
    intros [_ [H _]]. contradiction. }
  apply String.eqb_neq in Ekey.
  destruct (attempt world 0 MAX_RETRIES) as [failure | [raw_text |]].
  - split; [intros H; discriminate H |].
    intros (_ & _ & t & H & _). discriminate H.
  - destruct (json_loads world raw_text) as [raw | | other] eqn:Ej.
    + destruct raw as [| | | | | | d]; simpl;
        try (split;
             [ intros H; injection H as <-;
               split; [reflexivity |]; split; [exact Ekey |];
               eexists; split; [reflexivity |]; right;
               split; [reflexivity |]; eexists; split; [exact Ej |];
               intros d H; discriminate H
             | intros (_ & _ & t & Ht & [Hu | [-> _]]);
               [ injection Ht as <-; rewrite Ej in Hu; discriminate Hu
               | reflexivity ] ]).
      split; [intros H; discriminate H |].
      intros (_ & _ & t & Ht & [Hu | (_ & j & Hj & Hno)]);
        injection Ht as <-.
      * rewrite Ej in Hu. discriminate Hu.
      * rewrite Ej in Hj. injection Hj as <-. exfalso. exact (Hno d eq_refl).
    + split; [intros H; discriminate H |].
      intros (_ & _ & t & Ht & [Hu | (_ & j & Hj & _)]);
        injection Ht as <-; [rewrite Ej in Hu; discriminate Hu |].
      rewrite Ej in Hj. discriminate Hj.
    + split.
      * intros H. injection H as <-.
        split; [reflexivity |]. split; [exact Ekey |].
        exists raw_text. split; [reflexivity |]. left. exact Ej.
      * intros (_ & _ & t & Ht & [Hu | (_ & j & Hj & _)]);
          injection Ht as <-.
        -- rewrite Ej in Hu. injection Hu as <-. reflexivity.
        -- rewrite Ej in Hj. discriminate Hj.
  - split; [intros H; discriminate H |].
    intros (_ & _ & t & Ht & _). discriminate Ht.
Qed.

End AdvisoryLayer.

(** ** The decision payload *)

Lemma count_status_partition (comps : list Comparison) :
  len comps
  = (count_status IN_RANGE comps + count_status OUTSIDE_RANGE comps
     + count_status OUT_OF_RANGE comps + count_status NO_CONTRACT_RATE comps
     + count_status MISSING_PRICE comps)%Z.
Proof.
  unfold count_status, len, with_status.
  induction comps as [| c l IH]; [reflexivity |].
  cbn [filter]. destruct (status c); cbn [LineStatus_eqb List.length];
    rewrite ?Nat2Z.inj_succ; lia.
Qed.

Lemma count_status_le (st : LineStatus) (comps : list Comparison) :
  (0 <= count_status st comps <= len comps)%Z.
Proof.
  unfold count_status, len, with_status.
  assert (H := filter_length_le (fun c => LineStatus_eqb (status c) st) comps).
  lia.
Qed.

Lemma has_variance_false_iff (comps : list Comparison) :
  existsb
    (fun c =>
       LineStatus_eqb (status c) OUT_OF_RANGE
       || LineStatus_eqb (status c) OUTSIDE_RANGE
       || LineStatus_eqb (status c) NO_CONTRACT_RATE
       || LineStatus_eqb (status c) MISSING_PRICE) comps = false
  <-> forall c, In c comps -> status c = IN_RANGE.
Proof.
  induction comps as [| c l IH].
  - simpl. split; [intros _ c [] | reflexivity].
  - simpl. rewrite orb_false_iff, IH. split.
    + intros [Hc Hl] x [<- | Hx]; [| exact (Hl x Hx)].
      destruct (status c); try reflexivity; discriminate Hc.
    + intros H. split; [| intros x Hx; exact (H x (or_intror Hx))].
      rewrite (H c (or_introl eq_refl)). reflexivity.
Qed.

Lemma count_in_range_all (comps : list Comparison) :
  count_status IN_RANGE comps = len comps
  <-> forall c, In c comps -> status c = IN_RANGE.
Proof.
  rewrite all_in_range_iff.
  assert (Hp := count_status_partition comps).
  assert (H1 := count_status_le OUTSIDE_RANGE comps).
  assert (H2 := count_status_le OUT_OF_RANGE comps).
  assert (H3 := count_status_le NO_CONTRACT_RATE comps).
  assert (H4 := count_status_le MISSING_PRICE comps).
  unfold count_status in *. split.
  - intros H.
    assert (E1 : len (with_status OUTSIDE_RANGE comps) = 0%Z) by lia.
    assert (E2 : len (with_status OUT_OF_RANGE comps) = 0%Z) by lia.
    assert (E3 : len (with_status NO_CONTRACT_RATE comps) = 0%Z) by lia.
    assert (E4 : len (with_status MISSING_PRICE comps) = 0%Z) by lia.
    unfold len in E1, E2, E3, E4.
    repeat split; apply length_zero_iff_nil; lia.
  - intros (E4 & E3 & E2 & E1). rewrite E1, E2, E3, E4 in Hp.
    unfold len in Hp |- *. simpl in Hp. lia.
Qed.

Section PayloadFacts.

Context {rt : Py.Runtime}.

(** The summary of the payload: its four counters leave out the lines
    whose price could not be read, so they add up to the number of lines
    checked less those; and no variance is reported exactly when the
    in-range counter equals the number of lines checked. *)
Theorem payload_summary_consistent (inv : InvoiceData) (vm : VendorMatch)
    (comps : list Comparison) (math_issues : list string) (tc sc : Check)
    (d : Decision) (ai : option Analyzer.Analysis) :
  let p := build_json_payload inv vm comps math_issues tc sc d ai in
  let s := Report.reconciliation_summary p in
  (Report.items_in_range s + Report.items_outside_range s
   + Report.items_out_of_range s + Report.items_no_contract s
   = Report.line_items_checked s - count_status MISSING_PRICE comps)%Z
  /\ (Report.variance_detected p = false
      <-> Report.items_in_range s = Report.line_items_checked s).
Proof.
  cbv zeta. unfold build_json_payload. cbn [Report.reconciliation_summary
    Report.items_in_range Report.items_outside_range Report.items_out_of_range
    Report.items_no_contract Report.line_items_checked
    Report.variance_detected].
  split.
  - assert (Hp := count_status_partition comps). lia.
  - rewrite has_variance_false_iff, count_in_range_all. reflexivity.
Qed.

(** What an APPROVED decision means for the payload, for later use. *)
Lemma approved_payload_facts (inv : InvoiceData) (vm : VendorMatch)
    (comps : list Comparison) (math_issues : list string) (tc sc : Check)
    (ws : list string) (d : Decision) (ai : option Analyzer.Analysis) :
  decide vm comps math_issues tc sc ws = Py.Ok d ->
  Report.status (build_json_payload inv vm comps math_issues tc sc d ai)
  = APPROVED ->
  let p := build_json_payload inv vm comps math_issues tc sc d ai in
  let s := Report.reconciliation_summary p in
  Report.reason_codes p = []
  /\ Report.variance_detected p = false
  /\ Report.math_issues s = 0%Z
  /\ Report.items_in_range s = Report.line_items_checked s.
Proof.
  intros Hd Hst. cbv zeta. unfold build_json_payload in *.
  cbn [Report.status Report.reason_codes Report.variance_detected
       Report.reconciliation_summary Report.math_issues Report.items_in_range
       Report.line_items_checked] in *.
  destruct (proj1 (approved_when _ _ _ _ _ _ _ Hd) Hst)
    as (_ & Hall & Hmath & _).
  destruct (decide_inv _ _ _ _ _ _ _ Hd) as [a [_ [Hs [Hr _]]]].
  repeat split.
  - rewrite Hr. rewrite Hst in Hs.
    destruct (len (flags a) =? 0)%Z eqn:E; [| discriminate Hs].
    apply len_zero_iff in E. exact E.
  - apply has_variance_false_iff. exact Hall.
  - rewrite Hmath. reflexivity.
  - apply count_in_range_all. exact Hall.
Qed.

(** A payload built from an APPROVED decision of [decide] on the same
    comparisons and math issues carries no reason code, reports no
    variance and no math issue, and counts every line as in range. *)
Theorem approved_payload_is_clean (inv : InvoiceData) (vm : VendorMatch)
    (comps : list Comparison) (math_issues : list string) (tc sc : Check)
    (ws : list string) (d : Decision) (ai : option Analyzer.Analysis) :
  decide vm comps math_issues tc sc ws = Py.Ok d ->
  Report.status (build_json_payload inv vm comps math_issues tc sc d ai)
  = APPROVED ->
  let p := build_json_payload inv vm comps math_issues tc sc d ai in
  let s := Report.reconciliation_summary p in
  Report.reason_codes p = []
  /\ Report.variance_detected p = false
  /\ Report.math_issues s = 0%Z
  /\ Report.items_in_range s = Report.line_items_checked s.
Proof.
  apply approved_payload_facts.
Qed.

End PayloadFacts.

(** ** The pipeline *)

Lemma mapM_In {A B : Type} (f : A -> Py.result B) (l : list A) (ys : list B)
    (x : A) :
  Py.mapM f l = Py.Ok ys -> In x l -> exists y, In y ys /\ f x = Py.Ok y.
Proof.
  revert ys. induction l as [| a l IH]; simpl; intros ys H Hin; [destruct Hin |].
  apply bind_ok in H. destruct H as [y [Hy H]].
  apply bind_ok in H. destruct H as [ys' [Hys H]].
  injection H as <-. destruct Hin as [<- | Hin].
  - exists y. split; [left; reflexivity | exact Hy].
  - destruct (IH ys' Hys Hin) as [z [Hz Hfz]].
    exists z. split; [right; exact Hz | exact Hfz].
Qed.

Lemma mapM_ext {A B : Type} (f g : A -> Py.result B) (l : list A) :
  (forall x, f x = g x) -> Py.mapM f l = Py.mapM g l.
Proof.
  intros H. induction l as [| a l IH]; simpl; [reflexivity |].
  rewrite H, IH. reflexivity.
Qed.

Section PipelineFacts.

Context {rt : Py.Runtime} {tx : Txt.Library}.
Variable APPROVED_VENDORS : list (string * list string).
Variable ITEM_ALIASES : list (string * string).
Variable PRICE_HISTORY : list ((string * string) * list PriceRecord).
Variable SHIPPING_MAX_SEEN : list (string * float).

Import VendorDb.

(** The instant read when the file is missing reaches no learned rate. *)
Lemma get_learned_rate_clock (clk1 clk2 : Clock) (vendor item : string)
    (file : Store) :
  get_learned_rate clk1 vendor item file
  = get_learned_rate clk2 vendor item file.
Proof.
  destruct file as [db |]; reflexivity.
Qed.

Lemma compare_line_items_clock (normalize : string -> string)
    (clk1 clk2 : Clock) (file : Store) (vendor : string)
    (items : list LineItem) :
  compare_line_items normalize PRICE_HISTORY clk1 file vendor items
  = compare_line_items normalize PRICE_HISTORY clk2 file vendor items.
Proof.
  unfold compare_line_items. apply mapM_ext. intros item.
  unfold compare_item, resolve_rate.
  rewrite (get_learned_rate_clock clk1 clk2). reflexivity.
Qed.

(** An APPROVED call either finds the number on file and returns, or
    appends one entry that carries the number and the vendor. *)
Lemma record_invoice_outcome (clk : Clock) (inv : InvoiceData)
    (vendor : string) (file : Store) :
  (record_invoice clk inv "APPROVED" vendor file = file
   /\ In (invoice_number inv)
        (map e_invoice_number (invoices (_load_db clk file))))
  \/ (record_invoice clk inv "APPROVED" vendor file <> file
      /\ ~ In (invoice_number inv)
           (map e_invoice_number (invoices (_load_db clk file)))
      /\ exists e,
           invoices (_load_db clk (record_invoice clk inv "APPROVED" vendor file))
           = invoices (_load_db clk file) ++ [e]
           /\ e_invoice_number e = invoice_number inv
           /\ e_vendor e = vendor).
Proof.
  unfold record_invoice. simpl negb. cbv iota.
  destruct (existsb (opt_str_eqb (invoice_number inv))
              (map e_invoice_number (invoices (_load_db clk file)))) eqn:E.
  - left. split; [reflexivity |]. apply existsb_opt_str_In. exact E.
  - right. split; [| split].
    + unfold _save_db. destruct file as [db |]; [| discriminate].
      intros H. injection H as H. simpl in E.
      assert (Hl : List.length (invoices db)
                   = List.length (invoices db ++ [
                       {| e_invoice_number := invoice_number inv;
                          e_vendor := vendor;
                          e_date := invoice_date inv;
                          e_total := total inv;
                          e_tax := tax inv;
                          e_shipping := shipping inv;
                          e_recorded_at := now_record clk |}])).
      { rewrite <- H at 1. reflexivity. }
      rewrite length_app in Hl. simpl in Hl. lia.
    + intros Hin. apply existsb_opt_str_In in Hin. congruence.
    + eexists. split; [reflexivity |]. split; reflexivity.
Qed.

(** Once a number is on file, recording it again changes nothing. *)
Lemma record_invoice_again (clk : Clock) (inv : InvoiceData)
    (st vendor : string) (file : Store) :
  In (invoice_number inv)
     (map e_invoice_number (invoices (_load_db clk file))) ->
  record_invoice clk inv st vendor file = file.
Proof.
  intros Hin. unfold record_invoice.
  destruct (negb (String.eqb st "APPROVED")); [reflexivity |].
  apply existsb_opt_str_In in Hin. rewrite Hin. reflexivity.
Qed.

Local Abbreviation run :=
  (Main.process_invoice APPROVED_VENDORS ITEM_ALIASES PRICE_HISTORY
     SHIPPING_MAX_SEEN).
Local Abbreviation matched inv :=
  (match_vendor APPROVED_VENDORS (vendor_name inv)).
Local Abbreviation vendor_of inv :=
  (match canonical_name (matched inv) with
   | Some v => v
   | None => ""
   end).
Local Abbreviation compared clk inv file :=
  (compare_line_items (normalize_item_name ITEM_ALIASES) PRICE_HISTORY clk
     file (vendor_of inv) (line_items inv)).
Local Abbreviation decided inv comps :=
  (decide (matched inv) comps
     (check_math (line_items inv) (subtotal inv) (tax inv) (shipping inv)
        (total inv))
     (check_tax (vendor_of inv) (subtotal inv) (tax inv))
     (check_shipping SHIPPING_MAX_SEEN (vendor_of inv) (shipping inv))
     (warnings inv)).

(** The two ways a call ends: without a payload and with the store as it
    was, or with the payload of the decision and the store
    [record_invoice] leaves. *)
Lemma process_invoice_cases (world : Analyzer.World) (clk : Clock)
    (saved : bool) (error : option string) (inv : InvoiceData)
    (file : Store) :
  ((forall p, fst (run world clk saved error inv file) <> Main.Completed p)
   /\ snd (run world clk saved error inv file) = file)
  \/ (exists comps d ai,
        compared clk inv file = Py.Ok comps
        /\ decided inv comps = Py.Ok d
        /\ fst (run world clk saved error inv file)
           = Main.Completed
               (build_json_payload inv (matched inv) comps
                  (check_math (line_items inv) (subtotal inv) (tax inv)
                     (shipping inv) (total inv))
                  (check_tax (vendor_of inv) (subtotal inv) (tax inv))
                  (check_shipping SHIPPING_MAX_SEEN (vendor_of inv)
                     (shipping inv))
                  d (Some ai))
        /\ snd (run world clk saved error inv file)
           = record_invoice clk inv (status_name (d_status d)) (vendor_of inv)
               file).
Proof.
  unfold Main.process_invoice.
  destruct error as [[| a e] |];
    try (left; split; [intros p H; discriminate H | reflexivity]).
  all: destruct (compared clk inv file) as [comps | e'] eqn:Hc;
    try (left; split; [intros p H; discriminate H | reflexivity]).
  all: destruct (decided inv comps) as [d | e'] eqn:Hd;
    try (left; split; [intros p H; discriminate H | reflexivity]).
  all: destruct (Analyzer.analyze_invoice world inv d) as [ai |];
    try (left; split; [intros p H; discriminate H | reflexivity]).
  all: destruct saved;
    try (left; split; [intros p H; discriminate H | reflexivity]).
  all: right; exists comps, d, ai; repeat split; try reflexivity; assumption.
Qed.

Lemma invoices_load_clock (clk1 clk2 : Clock) (file : Store) :
  invoices (_load_db clk1 file) = invoices (_load_db clk2 file).
Proof.
  destruct file as [db |]; reflexivity.
Qed.

Lemma record_invoice_flagged (clk : Clock) (inv : InvoiceData)
    (vendor : string) (file : Store) :
  record_invoice clk inv (status_name FLAGGED) vendor file = file.
Proof.
  reflexivity.
Qed.

(** A comparison that ends IN_RANGE had a rate and a readable price. *)
Lemma classify_in_range (normalize : string -> string) (vendor : string)
    (item : LineItem) (rate_data : option RateData) (src : string)
    (c : Comparison) :
  classify_item normalize vendor item rate_data src = Py.Ok c ->
  status c = IN_RANGE ->
  rate_data <> None /\ unit_price item <> None.
Proof.
  unfold classify_item. destruct rate_data as [rd |].
  - destruct (unit_price item) as [p |].
    + intros _ _. split; discriminate.
    + intros H Hst. injection H as <-. discriminate Hst.
  - intros H Hst. injection H as <-. discriminate Hst.
Qed.

(** The learning store learns only from approved invoices of approved
    vendors.  Whenever a call of [process_invoice] changes the store, the
    call completed with an APPROVED payload without reason codes and
    without variance, the vendor was matched to a key of
    [APPROVED_VENDORS], the invoice number was not on file, and the one
    entry added carries that number and that vendor.  In every other case
    (extraction error, an exception anywhere, a FLAGGED decision, a number
    already on file) the store is left as it was. *)
Theorem learns_only_from_approved (world : Analyzer.World) (clk : Clock)
    (saved : bool) (error : option string) (inv : InvoiceData)
    (file : Store) :
  let r :=
    Main.process_invoice APPROVED_VENDORS ITEM_ALIASES PRICE_HISTORY
      SHIPPING_MAX_SEEN world clk saved error inv file in
  snd r <> file ->
  exists p v e,
    fst r = Main.Completed p
    /\ Report.status p = APPROVED
    /\ Report.reason_codes p = []
    /\ Report.variance_detected p = false
    /\ Report.matched_vendor p = Some v
    /\ In v (map fst APPROVED_VENDORS)
    /\ ~ In (invoice_number inv)
         (map e_invoice_number (invoices (_load_db clk file)))
    /\ invoices (_load_db clk (snd r)) = invoices (_load_db clk file) ++ [e]
    /\ e_invoice_number e = invoice_number inv
    /\ e_vendor e = v.
Proof.
  cbv zeta. intros Hch.
  destruct (process_invoice_cases world clk saved error inv file)
    as [[_ Hsame] | (comps & d & ai & Hc & Hd & Hfst & Hsnd)];
    [contradiction |].
  rewrite Hsnd in Hch |- *. rewrite Hfst.
  destruct (d_status d) eqn:Hst;
    [| exfalso; apply Hch; apply record_invoice_flagged].
  simpl status_name in *.
  destruct (record_invoice_outcome clk inv (vendor_of inv) file)
    as [[Hsame _] | (_ & Hfresh & e & Hinv & Hnum & Hven)];
    [contradiction |].
  destruct (proj1 (approved_when _ _ _ _ _ _ _ Hd) Hst) as (Hmt & _).
  destruct (match_vendor_cases APPROVED_VENDORS (vendor_name inv))
    as (Hnone & Hin & _).
  destruct (canonical_name (matched inv)) as [v |] eqn:Hcn.
  - destruct (approved_payload_facts inv _ _ _ _ _ _ _ (Some ai) Hd Hst)
      as (Hrc & Hvar & _).
    eexists. exists v, e. split; [reflexivity |].
    split; [exact Hst |]. split; [exact Hrc |]. split; [exact Hvar |].
    split; [exact Hcn |]. split; [apply Hin; reflexivity |].
    split; [exact Hfresh |]. split; [exact Hinv |].
    split; [exact Hnum | exact Hven].
  - exfalso. assert (Hn := proj1 Hnone eq_refl).
    destruct Hmt as [E | [E | E]]; rewrite E in Hn; discriminate Hn.
Qed.

(** Processing the same invoice again, whatever the clock, the model's
    answer and the fate of the outputs, leaves the store exactly as the
    first completed call left it: a FLAGGED invoice is flagged again (the
    decision does not depend on the clock), an APPROVED one is found on
    file. *)
Theorem process_invoice_twice (world1 world2 : Analyzer.World)
    (clk1 clk2 : Clock) (saved1 saved2 : bool) (error : option string)
    (inv : InvoiceData) (file : Store) (p : Report.Payload) :
  let first :=
    Main.process_invoice APPROVED_VENDORS ITEM_ALIASES PRICE_HISTORY
      SHIPPING_MAX_SEEN world1 clk1 saved1 error inv file in
  fst first = Main.Completed p ->
  snd (Main.process_invoice APPROVED_VENDORS ITEM_ALIASES PRICE_HISTORY
         SHIPPING_MAX_SEEN world2 clk2 saved2 error inv (snd first))
  = snd first.
Proof.
  cbv zeta. intros Hp.
  destruct (process_invoice_cases world1 clk1 saved1 error inv file)
    as [[Hno _] | (comps & d & ai & Hc & Hd & _ & Hsnd)];
    [exfalso; exact (Hno p Hp) |].
  rewrite Hsnd. clear Hsnd Hp.
  destruct (d_status d) eqn:Hst.
  - simpl status_name.
    set (st1 := record_invoice clk1 inv "APPROVED" (vendor_of inv) file).
    assert (Hon : In (invoice_number inv)
                    (map e_invoice_number (invoices (_load_db clk2 st1)))).
    { rewrite (invoices_load_clock clk2 clk1). unfold st1.
      destruct (record_invoice_outcome clk1 inv (vendor_of inv) file)
        as [[Hsame Hin] | (_ & _ & e & Hinv & Hnum & _)].
      - rewrite Hsame. exact Hin.
      - rewrite Hinv, map_app, in_app_iff. right. left. exact Hnum. }
    destruct (process_invoice_cases world2 clk2 saved2 error inv st1)
      as [[_ Hsame] | (comps2 & d2 & ai2 & _ & _ & _ & Hsnd2)];
      [exact Hsame |].
    rewrite Hsnd2. apply record_invoice_again. exact Hon.
  - rewrite record_invoice_flagged.
    destruct (process_invoice_cases world2 clk2 saved2 error inv file)
      as [[_ Hsame] | (comps2 & d2 & ai2 & Hc2 & Hd2 & _ & Hsnd2)];
      [exact Hsame |].
    rewrite Hsnd2.
    rewrite (compare_line_items_clock _ clk2 clk1) in Hc2.
    rewrite Hc in Hc2. injection Hc2 as <-.
    rewrite Hd in Hd2. injection Hd2 as <-.
    rewrite Hst. apply record_invoice_flagged.
Qed.

(** The store never learns a price for which it had nothing to compare
    with: when a call changes the store, every line of the invoice has a
    readable unit price and a rate, from the static history of the matched
    vendor or from prices already on file.  In particular, a store that
    does not exist yet is only ever created by an invoice all of whose
    items have static history. *)
Theorem recorded_lines_had_a_rate (world : Analyzer.World) (clk : Clock)
    (saved : bool) (error : option string) (inv : InvoiceData)
    (file : Store) (item : LineItem) :
  snd (Main.process_invoice APPROVED_VENDORS ITEM_ALIASES PRICE_HISTORY
         SHIPPING_MAX_SEEN world clk saved error inv file) <> file ->
  In item (line_items inv) ->
  let vendor :=
    match canonical_name
            (match_vendor APPROVED_VENDORS (vendor_name inv)) with
    | Some v => v
    | None => ""
    end in
  let name := normalize_item_name ITEM_ALIASES (description item) in
  unit_price item <> None
  /\ ((exists r rs,
         price_history_get PRICE_HISTORY vendor name = Some (r :: rs))
      \/ (file <> None /\ prices_on_file vendor name file clk <> [])).
Proof.
  cbv zeta. intros Hch Hitem.
  destruct (process_invoice_cases world clk saved error inv file)
    as [[_ Hsame] | (comps & d & ai & Hc & Hd & _ & Hsnd)];
    [contradiction |].
  rewrite Hsnd in Hch.
  destruct (d_status d) eqn:Hst;
    [| exfalso; apply Hch; apply record_invoice_flagged].
  destruct (proj1 (approved_when _ _ _ _ _ _ _ Hd) Hst) as (_ & Hall & _).
  unfold compare_line_items in Hc.
  destruct (mapM_In _ _ _ item Hc Hitem) as [c [Hin Hci]].
  assert (Hir := Hall c Hin).
  unfold compare_item in Hci.
  apply bind_ok in Hci. destruct Hci as [found [Hfound Hcl]].
  destruct (classify_in_range _ _ _ _ _ _ Hcl Hir) as [Hrate Hprice].
  split; [exact Hprice |].
  unfold resolve_rate in Hfound.
  destruct (price_history_get PRICE_HISTORY (vendor_of inv)
              (normalize_item_name ITEM_ALIASES (description item)))
    as [[| r rs] |] eqn:Hph.
  2: { left. exists r, rs. reflexivity. }
  all: right;
    destruct (get_learned_rate clk (vendor_of inv)
                (normalize_item_name ITEM_ALIASES (description item)) file)
      as [learned |] eqn:Hl;
    [| injection Hfound as <-; exfalso; apply Hrate; reflexivity].
  all: assert (Hne : prices_on_file (vendor_of inv)
                       (normalize_item_name ITEM_ALIASES (description item))
                       file clk <> [])
    by (intros Hnil;
        apply (StoreFacts.get_learned_rate_cases clk) in Hnil;
        congruence).
  all: split; [| exact Hne].
  all: intros ->; apply Hne; reflexivity.
Qed.

End PipelineFacts.

(** ** Locating a column *)

Lemma find_col_from_spec (i : nat) (headers keywords : list string) :
  match find_col_from i headers keywords with
  | Some k =>
      exists j h,
        k = (i + j)%nat
        /\ nth_error headers j = Some h
        /\ existsb (fun kw => contains kw h) keywords = true
        /\ forall j' h', (j' < j)%nat -> nth_error headers j' = Some h' ->
             existsb (fun kw => contains kw h') keywords = false
  | None =>
      forall h, In h headers ->
        existsb (fun kw => contains kw h) keywords = false
  end.
Proof.
  revert i. induction headers as [| h0 rest IH]; intros i; simpl.
  - intros h [].
  - destruct (existsb (fun kw => contains kw h0) keywords) eqn:E.
    + exists 0%nat, h0. split; [lia |]. split; [reflexivity |].
      split; [exact E |]. intros j' h' Hlt. lia.
    + specialize (IH (S i)).
      destruct (find_col_from (S i) rest keywords) as [k |].
      * destruct IH as (j & h & Hk & Hn & Hh & Hbefore).
        exists (S j), h. split; [lia |]. split; [exact Hn |].
        split; [exact Hh |]. intros [| j'] h' Hlt Hn'.
        -- simpl in Hn'. injection Hn' as <-. exact E.
        -- simpl in Hn'. apply (Hbefore j' h'); [lia | exact Hn'].
      * intros h [<- | Hin]; [exact E | exact (IH h Hin)].
Qed.

(** [_find_col] returns the position of the leftmost header that contains
    one of the keywords, whichever keyword it is and wherever it stands in
    the list of keywords; the position is within the headers; and it
    returns [None] exactly when no header contains any keyword. *)
Theorem find_col_is_leftmost (headers keywords : list string) :
  match _find_col headers keywords with
  | Some i =>
      (i < List.length headers)%nat
      /\ (exists h kw,
            nth_error headers i = Some h
            /\ In kw keywords /\ contains kw h = true)
      /\ (forall j h kw,
            (j < i)%nat -> nth_error headers j = Some h ->
            In kw keywords -> contains kw h = false)
  | None =>
      forall h kw, In h headers -> In kw keywords -> contains kw h = false
  end.
Proof.
  unfold _find_col. assert (H := find_col_from_spec 0 headers keywords).
  destruct (find_col_from 0 headers keywords) as [k |].
  - destruct H as (j & h & Hk & Hn & Hh & Hbefore). simpl in Hk. subst k.
    split; [| split].
    + apply nth_error_Some. rewrite Hn. discriminate.
    + apply existsb_exists in Hh. destruct Hh as [kw [Hin Hc]].
      exists h, kw. repeat split; assumption.
    + intros j' h' kw Hlt Hn' Hin.
      assert (Hf := Hbefore j' h' Hlt Hn').
      destruct (contains kw h') eqn:E; [| reflexivity].
      assert (Ht : existsb (fun kw => contains kw h') keywords = true)
        by (apply existsb_exists; exists kw; split; assumption).
      congruence.
  - intros h kw Hh Hkw. assert (Hf := H h Hh).
    destruct (contains kw h) eqn:E; [| reflexivity].
    assert (Ht : existsb (fun kw => contains kw h) keywords = true)
      by (apply existsb_exists; exists kw; split; assumption).
    congruence.
Qed.

(** ** The further properties on concrete invoices *)

(** Ten times the usual quantity: the factor is about 0.55. *)
Lemma quantity_factor_bounded_witness :
  exists f,
    _quantity_adjustment_factor (rt := Demo.runtime) 100 10 = Py.Ok f
    /\ (0.4 <=? f)%float = true /\ (f <=? 2.0)%float = true.
Proof.
  eexists. split; [vm_compute; reflexivity |].
  apply (quantity_factor_bounded (rt := Demo.runtime) 100 10).
  vm_compute. reflexivity.
Defined.

(** A line without price against the history of the A4 paper box. *)
Lemma classify_item_status_witness :
  exists c,
    classify_item (rt := Demo.runtime) (fun s => s) "Acme Supplies Inc."
      Scenario.unpriced (Some Sample.a4_rate) "historical" = Py.Ok c
    /\ (status c = NO_CONTRACT_RATE <-> Some Sample.a4_rate = None)
    /\ (status c = MISSING_PRICE <->
        Some Sample.a4_rate <> None /\ unit_price Scenario.unpriced = None)
    /\ invoice_unit_price c = unit_price Scenario.unpriced.
Proof.
  eexists. split; [reflexivity |].
  apply (classify_item_status (rt := Demo.runtime) (fun s => s)
           "Acme Supplies Inc." Scenario.unpriced (Some Sample.a4_rate)
           "historical").
  reflexivity.
Defined.

(** The one line of the invoice of [Sample]. *)
Lemma compare_line_items_echo_witness :
  exists comps,
    compare_line_items (rt := Demo.runtime) (fun s => s) Sample.PRICE_HISTORY
      Sample.clock None "Acme Supplies Inc."
      (line_items (Sample.invoice (Some "INV-1"))) = Py.Ok comps
    /\ List.length comps
       = List.length (line_items (Sample.invoice (Some "INV-1")))
    /\ map c_description comps
       = map description (line_items (Sample.invoice (Some "INV-1")))
    /\ map canonical_item comps
       = map (fun i => description i)
           (line_items (Sample.invoice (Some "INV-1")))
    /\ map c_quantity comps
       = map quantity (line_items (Sample.invoice (Some "INV-1")))
    /\ map invoice_unit_price comps
       = map unit_price (line_items (Sample.invoice (Some "INV-1")))
    /\ map invoice_line_total comps
       = map line_total (line_items (Sample.invoice (Some "INV-1"))).
Proof.
  eexists. split; [vm_compute; reflexivity |].
  apply (compare_line_items_echo (rt := Demo.runtime) (fun s => s)
           Sample.PRICE_HISTORY Sample.clock None "Acme Supplies Inc.").
  vm_compute. reflexivity.
Defined.

(** A desk lamp, which the vendor never sold, on an invoice that also
    holds a box of paper, which has static history. *)
Lemma unknown_items_have_no_rate_witness :
  (price_history_get Sample.PRICE_HISTORY "Acme Supplies Inc."
     (description Scenario.desk_lamp) = None
   \/ price_history_get Sample.PRICE_HISTORY "Acme Supplies Inc."
        (description Scenario.desk_lamp) = Some [])
  /\ exists comps,
       compare_line_items (rt := Demo.runtime) (fun s => s)
         Sample.PRICE_HISTORY Sample.clock None "Acme Supplies Inc."
         (line_items (Sample.invoice (Some "INV-1")) ++ [Scenario.desk_lamp])
       = Py.Ok comps
       /\ map status comps = [IN_RANGE; NO_CONTRACT_RATE]
       /\ exists c,
            nth_error comps 1 = Some c /\ status c = NO_CONTRACT_RATE.
Proof.
  split; [left; reflexivity |].
  eexists. split; [vm_compute; reflexivity |]. split; [reflexivity |].
  apply (proj2 (unknown_items_have_no_rate (rt := Demo.runtime) (fun s => s)
                  Sample.PRICE_HISTORY Sample.clock None "Acme Supplies Inc."
                  Scenario.desk_lamp (or_introl eq_refl) (or_introl eq_refl))
           (line_items (Sample.invoice (Some "INV-1")) ++ [Scenario.desk_lamp])
           _ 1%nat).
  - vm_compute. reflexivity.
  - reflexivity.
Defined.

(** A first invoice with a blank line: one entry, one price point. *)
Lemma record_invoice_adds_witness :
  ~ In (invoice_number (Scenario.with_blank_line (Some "INV-1")))
       (map VendorDb.e_invoice_number
          (VendorDb.invoices (VendorDb._load_db Sample.clock None)))
  /\ exists db' e,
       VendorDb.record_invoice (rt := Demo.runtime) Sample.clock
         (Scenario.with_blank_line (Some "INV-1")) "APPROVED"
         "Acme Supplies Inc." None = Some db'
       /\ VendorDb.invoices db'
          = VendorDb.invoices (VendorDb._load_db Sample.clock None) ++ [e]
       /\ VendorDb.e_invoice_number e
          = invoice_number (Scenario.with_blank_line (Some "INV-1"))
       /\ VendorDb.e_vendor e = "Acme Supplies Inc."
       /\ total_points (VendorDb.price_history db')
          = (total_points
               (VendorDb.price_history (VendorDb._load_db Sample.clock None))
             + List.length
                 (filter (recorded (rt := Demo.runtime))
                    (line_items (Scenario.with_blank_line (Some "INV-1")))))%nat
       /\ VendorDb.last_updated (VendorDb.metadata db')
          = Some (VendorDb.now_save Sample.clock).
Proof.
  assert (H : ~ In (invoice_number (Scenario.with_blank_line (Some "INV-1")))
                (map VendorDb.e_invoice_number
                   (VendorDb.invoices (VendorDb._load_db Sample.clock None))))
    by (intros []).
  split; [exact H |].
  exact (StoreFacts.record_invoice_adds (rt := Demo.runtime) Sample.clock
           (Scenario.with_blank_line (Some "INV-1")) "Acme Supplies Inc."
           None H).
Defined.

(** A second invoice after INV-1. *)
Lemma record_invoice_keeps_numbers_unique_witness :
  NoDup (map VendorDb.e_invoice_number
           (VendorDb.invoices
              (VendorDb._load_db Scenario.later Scenario.learned)))
  /\ NoDup (map VendorDb.e_invoice_number
              (VendorDb.invoices
                 (VendorDb._load_db Scenario.later
                    (VendorDb.record_invoice (rt := Demo.runtime)
                       Scenario.later (Sample.invoice (Some "INV-2"))
                       "APPROVED" "Acme Supplies Inc." Scenario.learned)))).
Proof.
  assert (H : NoDup (map VendorDb.e_invoice_number
                       (VendorDb.invoices
                          (VendorDb._load_db Scenario.later Scenario.learned)))).
  { vm_compute. constructor; [intros [] | constructor]. }
  split; [exact H |].
  exact (StoreFacts.record_invoice_keeps_numbers_unique (rt := Demo.runtime)
           Scenario.later Scenario.later (Sample.invoice (Some "INV-2"))
           "APPROVED" "Acme Supplies Inc." Scenario.learned H).
Defined.

(** The price of INV-1 can be looked up afterwards. *)
Lemma recorded_price_is_learned_witness :
  exists rd,
    VendorDb.get_learned_rate (rt := Demo.runtime) Scenario.later
      "Acme Supplies Inc." "A4 Paper Box" Scenario.learned = Some rd
    /\ (1 <= rd_n rd)%Z
    /\ In 90%float
         (prices_on_file "Acme Supplies Inc." "A4 Paper Box" Scenario.learned
            Scenario.later).
Proof.
  apply (StoreFacts.recorded_price_is_learned (rt := Demo.runtime)
           Sample.clock Scenario.later (Sample.invoice (Some "INV-1"))
           "Acme Supplies Inc." None
           (Sample.item "A4 Paper Box" (Some 24%float) (Some 90%float)
              (Some 2160%float)) 90%float).
  - intros [].
  - left. reflexivity.
  - reflexivity.
  - reflexivity.
Defined.

(** One line in range, an exact vendor match, nothing else. *)
Lemma approved_iff_witness :
  exists d,
    decide (rt := Demo.runtime) (Sample.vendor exact)
      [Sample.in_range "A4 Paper Box"] [] Sample.tax_ok Sample.shipping_ok []
    = Py.Ok d
    /\ (d_status d = APPROVED
        <-> (match_type (Sample.vendor exact) = exact
             \/ match_type (Sample.vendor exact) = alias
             \/ match_type (Sample.vendor exact) = fuzzy)
            /\ (forall c, In c [Sample.in_range "A4 Paper Box"] ->
                          status c = IN_RANGE)
            /\ @nil string = []
            /\ (forall w, In w (@nil string) -> ~ In w CRITICAL_WARNINGS)).
Proof.
  eexists. split; [vm_compute; reflexivity |].
  apply (approved_iff (rt := Demo.runtime) (Sample.vendor exact)
           [Sample.in_range "A4 Paper Box"] [] Sample.tax_ok
           Sample.shipping_ok []).
  vm_compute. reflexivity.
Defined.

Lemma approved_has_default_question_witness :
  exists d,
    decide (rt := Demo.runtime) (Sample.vendor alias)
      [Sample.in_range "A4 Paper Box"] [] Sample.tax_ok Sample.shipping_ok []
    = Py.Ok d
    /\ d_status d = APPROVED
    /\ clarifying_questions d = [DEFAULT_QUESTION].
Proof.
  eexists. split; [vm_compute; reflexivity |]. split; [reflexivity |].
  apply (approved_has_default_question (rt := Demo.runtime)
           (Sample.vendor alias) [Sample.in_range "A4 Paper Box"] []
           Sample.tax_ok Sample.shipping_ok []).
  - vm_compute. reflexivity.
  - reflexivity.
Defined.

(** One of two lines is a soft deviation. *)
Lemma flagged_with_default_question_witness :
  exists d,
    decide (rt := Demo.runtime) (Sample.vendor exact)
      [Sample.in_range "A4 Paper Box"; Sample.outside_range "Staples Pack"]
      [] Sample.tax_ok Sample.shipping_ok [] = Py.Ok d
    /\ d_status d = FLAGGED
    /\ clarifying_questions d = [DEFAULT_QUESTION].
Proof.
  apply (flagged_with_default_question (rt := Demo.runtime)
           (Sample.vendor exact)
           [Sample.in_range "A4 Paper Box"; Sample.outside_range "Staples Pack"]
           Sample.tax_ok Sample.shipping_ok []).
  - reflexivity.
  - left. reflexivity.
  - reflexivity.
  - reflexivity.
  - reflexivity.
  - left. exists (Sample.outside_range "Staples Pack").
    split; [right; left; reflexivity | discriminate].
Defined.

(** The same invoice with the tax and the shipping checks exchanged. *)
Lemma tax_and_shipping_never_flag_witness :
  exists d,
    decide (rt := Demo.runtime) (Sample.vendor exact) Sample.mixed []
      Sample.tax_ok Sample.shipping_ok [] = Py.Ok d
    /\ exists d',
         decide (rt := Demo.runtime) (Sample.vendor exact) Sample.mixed []
           Sample.shipping_ok Sample.tax_ok [] = Py.Ok d'
         /\ d_status d' = d_status d
         /\ reason_codes d' = reason_codes d
         /\ clarifying_questions d' = clarifying_questions d.
Proof.
  eexists. split; [vm_compute; reflexivity |].
  apply (tax_and_shipping_never_flag (rt := Demo.runtime)
           (Sample.vendor exact) Sample.mixed [] Sample.tax_ok
           Sample.shipping_ok Sample.shipping_ok Sample.tax_ok []).
  vm_compute. reflexivity.
Defined.

Lemma observations_complete_witness :
  exists d,
    decide (rt := Demo.runtime) (Sample.vendor exact) Sample.mixed
      ["Subtotal: lines sum to $10.00, invoice shows $12.00"]
      Sample.tax_ok Sample.shipping_ok [] = Py.Ok d
    /\ (forall issue,
          In issue ["Subtotal: lines sum to $10.00, invoice shows $12.00"] ->
          In ("Math issue: " ++ issue)%string (observations d))
    /\ In ("Tax: " ++ chk_note Sample.tax_ok)%string (observations d)
    /\ In ("Shipping: " ++ chk_note Sample.shipping_ok)%string
          (observations d).
Proof.
  eexists. split; [vm_compute; reflexivity |].
  apply (observations_complete (rt := Demo.runtime) (Sample.vendor exact)
           Sample.mixed
           ["Subtotal: lines sum to $10.00, invoice shows $12.00"]
           Sample.tax_ok Sample.shipping_ok []).
  vm_compute. reflexivity.
Defined.

Lemma reason_codes_complete_witness :
  exists d,
    decide (rt := Demo.runtime) (Sample.vendor exact) Sample.mixed []
      Sample.tax_ok Sample.shipping_ok ["MISSING_TOTAL"] = Py.Ok d
    /\ In "PRICE_ANOMALY:Pens (Box)" (reason_codes d)
    /\ In "PRICE_OUTSIDE_RANGE:Staples Pack" (reason_codes d)
    /\ In "EXTRACTION_FAILURE:MISSING_TOTAL" (reason_codes d).
Proof.
  eexists. split; [vm_compute; reflexivity |].
  destruct (reason_codes_complete (rt := Demo.runtime) (Sample.vendor exact)
              Sample.mixed [] Sample.tax_ok Sample.shipping_ok
              ["MISSING_TOTAL"] _ eq_refl) as (Hitems & _ & Hws).
  split; [| split].
  - apply (Hitems (Sample.out_of_range "Pens (Box)"));
      [right; left; reflexivity | reflexivity].
  - apply (Hitems (Sample.outside_range "Staples Pack"));
      [right; right; left; reflexivity | reflexivity].
  - apply (Hws "MISSING_TOTAL");
      [left; reflexivity | right; right; left; reflexivity].
Defined.

(** The approved name with blanks around it. *)
Lemma approved_name_matches_exactly_witness :
  " Acme Supplies Inc. " <> ""
  /\ In (Py.strip (Runtime := Demo.runtime) " Acme Supplies Inc. ")
        (map fst Scenario.APPROVED_VENDORS)
  /\ exists c,
       match_vendor (rt := Demo.runtime) (tx := Scenario.library)
         Scenario.APPROVED_VENDORS (Some " Acme Supplies Inc. ")
       = {| canonical_name := Some c; match_type := exact;
            confidence := 1.0 |}
       /\ In c (map fst Scenario.APPROVED_VENDORS)
       /\ (Py.strip (Runtime := Demo.runtime) " Acme Supplies Inc. " = c
           \/ Txt.lower (Library := Scenario.library)
                (Py.strip (Runtime := Demo.runtime) " Acme Supplies Inc. ")
              = Txt.lower (Library := Scenario.library) c).
Proof.
  split; [discriminate |]. split; [left; reflexivity |].
  apply (approved_name_matches_exactly (rt := Demo.runtime)
           (tx := Scenario.library) Scenario.APPROVED_VENDORS
           " Acme Supplies Inc. ").
  - discriminate.
  - left. reflexivity.
Defined.

(** A first invoice: one invoice, one vendor more. *)
Lemma get_db_stats_after_record_witness :
  total_invoices
    (get_db_stats "data/invoice_history.json" Scenario.later Scenario.learned)
  = (total_invoices
       (get_db_stats "data/invoice_history.json" Sample.clock None) + 1)%Z
  /\ unique_vendors
       (get_db_stats "data/invoice_history.json" Scenario.later
          Scenario.learned)
     = (unique_vendors
          (get_db_stats "data/invoice_history.json" Sample.clock None) + 1)%Z
  /\ (unique_items_tracked
        (get_db_stats "data/invoice_history.json" Sample.clock None)
      <= unique_items_tracked
           (get_db_stats "data/invoice_history.json" Scenario.later
              Scenario.learned))%Z.
Proof.
  apply (get_db_stats_after_record (rt := Demo.runtime)
           "data/invoice_history.json" Sample.clock Scenario.later
           (Sample.invoice (Some "INV-1")) "Acme Supplies Inc." None).
  intros [].
Defined.

(** The model calls a FLAGGED invoice low risk. *)
Lemma sanitize_guardrails_witness :
  exists s,
    Analyzer._validate_and_sanitize (rt := Demo.runtime)
      (tx := Scenario.library) Scenario.online Scenario.answer "FLAGGED"
    = Analyzer.Returns s
    /\ Analyzer.s_risk_level s = "medium"
    /\ Analyzer.s_executive_summary s = "Nothing to see – all fine."
    /\ (List.length (Analyzer.s_insights s) <= 5)%nat
    /\ Analyzer.s_executive_summary s <> ""
    /\ (Txt.chars (Analyzer.s_executive_summary s) <= 500)%nat.
Proof.
  eexists. split; [vm_compute; reflexivity |].
  split; [reflexivity |]. split; [reflexivity |].
  destruct (sanitize_guardrails (rt := Demo.runtime) (tx := Scenario.library)
              Scenario.online Scenario.answer "FLAGGED" _ eq_refl)
    as (_ & _ & Hi & _ & _ & _ & [Hne Hlen] & _).
  split; [exact Hi |]. split; [exact Hne | exact Hlen].
Defined.

Lemma analysis_never_plays_down_witness :
  exists a,
    Analyzer.analyze_invoice (rt := Demo.runtime) (tx := Scenario.library)
      Scenario.online (Sample.invoice (Some "INV-1")) Scenario.flagged
    = Analyzer.Returns a
    /\ In (Analyzer.risk_level a) Analyzer.VALID_RISK_LEVELS
    /\ (d_status Scenario.flagged = FLAGGED -> Analyzer.risk_level a <> "low")
    /\ (List.length (Analyzer.recommended_questions a) <= 3)%nat
    /\ (Analyzer.ai_available a = false ->
        Analyzer.insights a = [] /\ Analyzer.recommended_questions a = []).
Proof.
  eexists. split; [vm_compute; reflexivity |].
  apply (analysis_never_plays_down (rt := Demo.runtime)
           (tx := Scenario.library) Scenario.online
           (Sample.invoice (Some "INV-1")) Scenario.flagged).
  vm_compute. reflexivity.
Defined.

(** The payload of an approved invoice. *)
Lemma approved_payload_is_clean_witness :
  exists d,
    decide (rt := Demo.runtime) (Sample.vendor exact)
      [Sample.in_range "A4 Paper Box"] [] Sample.tax_ok Sample.shipping_ok []
    = Py.Ok d
    /\ Report.status
         (build_json_payload (Sample.invoice (Some "INV-1"))
            (Sample.vendor exact) [Sample.in_range "A4 Paper Box"] []
            Sample.tax_ok Sample.shipping_ok d None) = APPROVED
    /\ Report.reason_codes
         (build_json_payload (Sample.invoice (Some "INV-1"))
            (Sample.vendor exact) [Sample.in_range "A4 Paper Box"] []
            Sample.tax_ok Sample.shipping_ok d None) = []
    /\ Report.variance_detected
         (build_json_payload (Sample.invoice (Some "INV-1"))
            (Sample.vendor exact) [Sample.in_range "A4 Paper Box"] []
            Sample.tax_ok Sample.shipping_ok d None) = false.
Proof.
  eexists. split; [vm_compute; reflexivity |]. split; [reflexivity |].
  destruct (approved_payload_is_clean (rt := Demo.runtime)
              (Sample.invoice (Some "INV-1")) (Sample.vendor exact)
              [Sample.in_range "A4 Paper Box"] [] Sample.tax_ok
              Sample.shipping_ok [] _ None eq_refl eq_refl)
    as (Hrc & Hvar & _).
  split; [exact Hrc | exact Hvar].
Defined.

(** The invoice of [Sample] creates the store. *)
Lemma learns_only_from_approved_witness :
  snd (Scenario.process_invoice Scenario.offline Sample.clock
         (Sample.invoice (Some "INV-1")) None) <> None
  /\ exists p v e,
       fst (Scenario.process_invoice Scenario.offline Sample.clock
              (Sample.invoice (Some "INV-1")) None) = Main.Completed p
       /\ Report.status p = APPROVED
       /\ Report.reason_codes p = []
       /\ Report.variance_detected p = false
       /\ Report.matched_vendor p = Some v
       /\ In v (map fst Scenario.APPROVED_VENDORS)
       /\ ~ In (invoice_number (Sample.invoice (Some "INV-1")))
            (map VendorDb.e_invoice_number
               (VendorDb.invoices (VendorDb._load_db Sample.clock None)))
       /\ VendorDb.invoices
            (VendorDb._load_db Sample.clock
               (snd (Scenario.process_invoice Scenario.offline Sample.clock
                       (Sample.invoice (Some "INV-1")) None)))
          = VendorDb.invoices (VendorDb._load_db Sample.clock None) ++ [e]
       /\ VendorDb.e_invoice_number e
          = invoice_number (Sample.invoice (Some "INV-1"))
       /\ VendorDb.e_vendor e = v.
Proof.
  assert (H : snd (Scenario.process_invoice Scenario.offline Sample.clock
                     (Sample.invoice (Some "INV-1")) None) <> None)
    by (vm_compute; discriminate).
  split; [exact H |].
  exact (learns_only_from_approved (rt := Demo.runtime)
           (tx := Scenario.library) Scenario.APPROVED_VENDORS
           Scenario.ITEM_ALIASES Sample.PRICE_HISTORY
           Scenario.SHIPPING_MAX_SEEN Scenario.offline Sample.clock true None
           (Sample.invoice (Some "INV-1")) None H).
Defined.

(** The invoice of [Sample] processed a month later once more. *)
Lemma process_invoice_twice_witness :
  exists p,
    fst (Scenario.process_invoice Scenario.offline Sample.clock
           (Sample.invoice (Some "INV-1")) None) = Main.Completed p
    /\ snd (Scenario.process_invoice Scenario.online Scenario.later
              (Sample.invoice (Some "INV-1"))
              (snd (Scenario.process_invoice Scenario.offline Sample.clock
                      (Sample.invoice (Some "INV-1")) None)))
       = snd (Scenario.process_invoice Scenario.offline Sample.clock
                (Sample.invoice (Some "INV-1")) None).
Proof.
  eexists. split; [vm_compute; reflexivity |].
  eapply (process_invoice_twice (rt := Demo.runtime) (tx := Scenario.library)
            Scenario.APPROVED_VENDORS Scenario.ITEM_ALIASES
            Sample.PRICE_HISTORY Scenario.SHIPPING_MAX_SEEN Scenario.offline
            Scenario.online Sample.clock Scenario.later true true None
            (Sample.invoice (Some "INV-1")) None).
  vm_compute. reflexivity.
Defined.

(** The one line of the invoice that created the store. *)
Lemma recorded_lines_had_a_rate_witness :
  snd (Scenario.process_invoice Scenario.offline Sample.clock
         (Sample.invoice (Some "INV-1")) None) <> None
  /\ unit_price
       (Sample.item "A4 Paper Box" (Some 24%float) (Some 90%float)
          (Some 2160%float)) <> None
  /\ ((exists r rs,
         price_history_get Sample.PRICE_HISTORY "Acme Supplies Inc."
           "A4 Paper Box" = Some (r :: rs))
      \/ (@None VendorDb.Db <> None
          /\ prices_on_file "Acme Supplies Inc." "A4 Paper Box" None
               Sample.clock <> [])).
Proof.
  assert (H : snd (Scenario.process_invoice Scenario.offline Sample.clock
                     (Sample.invoice (Some "INV-1")) None) <> None)
    by (vm_compute; discriminate).
  split; [exact H |].
  exact (recorded_lines_had_a_rate (rt := Demo.runtime)
           (tx := Scenario.library) Scenario.APPROVED_VENDORS
           Scenario.ITEM_ALIASES Sample.PRICE_HISTORY
           Scenario.SHIPPING_MAX_SEEN Scenario.offline Sample.clock true None
           (Sample.invoice (Some "INV-1")) None
           (Sample.item "A4 Paper Box" (Some 24%float) (Some 90%float)
              (Some 2160%float))
           H (or_introl eq_refl)).
Defined.
